(** * CORD-19 metadata pipeline: cleaning, profiling and aggregation

    A shallow embedding of the Python sources: the first pipeline
    (data_exploration.py, data_cleaning.py, analysis_visualization.py,
    main.py), the second one (src/main.py, src/data/preprocess_data.py) and
    the journal rankings of the two dashboards, together with the properties
    the written specification states about them and further properties of
    the code: what the loaders, the cleaners, the aggregations and the
    preprocessing return, raise and write.

    Tables are pandas DataFrames: an ordered list of named columns over a
    common row index.  Python objects live in a store and are handled
    through references, so that copying and in-place assignment can be told
    apart.  Exceptions are results of the computation; printing and files
    are part of the state.  What pandas reads as a date and which rows it
    samples are parameters.  Strings are those of Python within ASCII;
    what is proved of the contents of a text is stated for such texts. *)

From Stdlib Require Import Ascii String QArith.
From stdpp Require Import base option list strings pretty gmap sorting.

Open Scope string_scope.
Open Scope list_scope.
Open Scope Z_scope.
Open Scope nat_scope.

(** ** Characters and strings (the ASCII fragment of Python's str) *)

Module Text.

Definition code (c : ascii) : nat := Ascii.nat_of_ascii c.

Definition is_upper (c : ascii) : bool := (65 <=? code c) && (code c <=? 90).
Definition is_lower (c : ascii) : bool := (97 <=? code c) && (code c <=? 122).
Definition is_alpha (c : ascii) : bool := is_upper c || is_lower c.
Definition is_digit (c : ascii) : bool := (48 <=? code c) && (code c <=? 57).

(** [str.isspace]: tab, line feed, vertical tab, form feed, carriage return,
    the four separators 0x1c-0x1f and the blank. *)
Definition is_space (c : ascii) : bool :=
  ((9 <=? code c) && (code c <=? 13)) || ((28 <=? code c) && (code c <=? 32)).

(** The class [\w] of the [re] module: letters, digits and the underscore. *)
Definition is_word (c : ascii) : bool :=
  is_alpha c || is_digit c || (code c =? 95).

Definition to_lower (c : ascii) : ascii :=
  if is_upper c then Ascii.ascii_of_nat (code c + 32) else c.
Definition to_upper (c : ascii) : ascii :=
  if is_lower c then Ascii.ascii_of_nat (code c - 32) else c.

Definition chars (s : string) : list ascii := list_ascii_of_string s.
Definition text (l : list ascii) : string := string_of_list_ascii l.

(** [s.lower()] *)
Definition lower (s : string) : string := text (map to_lower (chars s)).

(** [s.strip()]: whitespace is removed at both ends. *)
Fixpoint lstrip_chars (l : list ascii) : list ascii :=
  match l with
  | c :: l' => if is_space c then lstrip_chars l' else l
  | [] => []
  end.
Definition strip_chars (l : list ascii) : list ascii :=
  rev (lstrip_chars (rev (lstrip_chars l))).
Definition strip (s : string) : string := text (strip_chars (chars s)).

(** [s.title()]: a cased character is upper-cased when the character before
    it is not cased, and lower-cased when it is. *)
Fixpoint title_chars (previous_is_cased : bool) (l : list ascii) : list ascii :=
  match l with
  | [] => []
  | c :: l' =>
      if is_alpha c
      then (if previous_is_cased then to_lower c else to_upper c)
             :: title_chars true l'
      else c :: title_chars false l'
  end.
Definition title (s : string) : string := text (title_chars false (chars s)).

(** [s.split()]: the maximal runs of characters that are not whitespace. *)
Fixpoint split_chars (cur : list ascii) (l : list ascii) : list (list ascii) :=
  match l with
  | [] => match cur with [] => [] | _ => [rev cur] end
  | c :: l' =>
      if is_space c
      then match cur with
           | [] => split_chars [] l'
           | _ => rev cur :: split_chars [] l'
           end
      else split_chars (c :: cur) l'
  end.
Definition split (s : string) : list string := map text (split_chars [] (chars s)).

(** [sep.join(parts)] *)
Fixpoint join (sep : string) (parts : list string) : string :=
  match parts with
  | [] => ""
  | [p] => p
  | p :: rest => p +:+ sep +:+ join sep rest
  end.

(** *** [re.findall(r'\b[a-zA-Z]{3,}\b', s)]

    At a position the pattern needs a word boundary, then takes as many
    letters as there are, and gives letters back one at a time (never going
    under three) until a word boundary follows.  The search resumes after a
    match, and one character further after a failure. *)

Definition word_at (l : list ascii) (i : nat) : bool :=
  match l !! i with Some c => is_word c | None => false end.

(** The boundary between position [i - 1] and position [i] of [prev :: l],
    where [prev] stands for the character before [l], if any. *)
Definition boundary (prev : option ascii) (l : list ascii) (i : nat) : bool :=
  match i with
  | 0 => xorb (from_option is_word false prev) (word_at l 0)
  | S j => xorb (word_at l j) (word_at l i)
  end.

Fixpoint letters_prefix (l : list ascii) : nat :=
  match l with
  | c :: l' => if is_alpha c then S (letters_prefix l') else 0
  | [] => 0
  end.

Fixpoint give_back (prev : option ascii) (l : list ascii) (k : nat) : option nat :=
  if k <? 3 then None
  else if boundary prev l k then Some k
  else match k with
       | 0 => None
       | S k' => give_back prev l k'
       end.

Definition match_here (prev : option ascii) (l : list ascii) : option nat :=
  if boundary prev l 0 then give_back prev l (letters_prefix l) else None.

Fixpoint scan (prev : option ascii) (l : list ascii) (skip : nat) : list (list ascii) :=
  match l with
  | [] => []
  | c :: l' =>
      match skip with
      | S n => scan (Some c) l' n
      | 0 =>
          match match_here prev l with
          | Some k => take k l :: scan (Some c) l' (k - 1)
          | None => scan (Some c) l' 0
          end
      end
  end.

Definition findall_words (s : string) : list string :=
  map text (scan None (chars s) 0).

End Text.


(** ** Sorting and counting *)

Module Sorting.
Section Insertion.
Context {A : Type} (le : A → A → bool).

(** A stable insertion: [x] goes before the first element it is strictly
    before, so equal elements keep the order in which they came. *)
Fixpoint insert_sorted (x : A) (l : list A) : list A :=
  match l with
  | [] => [x]
  | y :: l' => if le y x then y :: insert_sorted x l' else x :: y :: l'
  end.

Definition sort (l : list A) : list A := foldr insert_sorted [] (rev l).
End Insertion.
End Sorting.

Module Counting.

(** Occurrence counts in order of first appearance, as a [dict] or a
    [Counter] keeps them. *)
Section Counts.
Context {K : Type} `{EqDecision K}.

Fixpoint bump (k : K) (acc : list (K * nat)) : list (K * nat) :=
  match acc with
  | [] => [(k, 1)]
  | (k', n) :: acc' => if decide (k' = k) then (k', S n) :: acc' else (k', n) :: bump k acc'
  end.

Definition tally (l : list K) : list (K * nat) := foldl (λ acc k, bump k acc) [] l.

Fixpoint get (k : K) (acc : list (K * nat)) : option nat :=
  match acc with
  | [] => None
  | (k', n) :: acc' => if decide (k' = k) then Some n else get k acc'
  end.

Definition total (acc : list (K * nat)) : nat := sum_list (acc.*2).

(** Larger counts first; ties stay in order of appearance. *)
Definition by_count_desc (acc : list (K * nat)) : list (K * nat) :=
  Sorting.sort (λ p q, q.2 <=? p.2) acc.
End Counts.

(** [Counter.most_common(n)] *)
Definition most_common {K} (n : nat) (c : list (K * nat)) : list (K * nat) :=
  take n (by_count_desc c).

End Counting.

(** ** Cell values and columns *)

(** A timestamp as far as the program looks at it: its calendar date. *)
Record datetime := Datetime { dt_year : Z; dt_month : Z; dt_day : Z }.

(** A cell of a table.  [VNull] stands for every missing marker of pandas
    (NaN, None, NaT). *)
Inductive value :=
  | VNull
  | VStr (s : string)
  | VInt (n : Z)
  | VBool (b : bool)
  | VTime (t : datetime).

Global Instance datetime_eq_dec : EqDecision datetime.
Proof. solve_decision. Defined.
Global Instance value_eq_dec : EqDecision value.
Proof. solve_decision. Defined.

(** Exceptions the program can meet. *)
Inductive exn :=
  | KeyError (key : string)
  | ValueError (msg : string)
  | TypeError (msg : string)
  | AttributeError (msg : string)
  | FileNotFoundError (path : string)
  | ParserError (path : string)
  | InvalidReference.

Inductive result (A : Type) :=
  | Ok (a : A)
  | Raise (e : exn).
Arguments Ok {A} a.
Arguments Raise {A} e.

Module Series.

Definition isnull (v : value) : bool :=
  match v with VNull => true | _ => false end.

(** [s.isnull().sum()] *)
Definition null_count (s : list value) : nat := length (filter (λ v, isnull v = true) s).

(** [s.fillna(v)] *)
Definition fillna (v : value) (s : list value) : list value :=
  map (λ x, if isnull x then v else x) s.

(** [s.dropna()] *)
Definition dropna (s : list value) : list value :=
  filter (λ v, isnull v = false) s.

Definition pad (width : nat) (s : string) : string :=
  Text.text (replicate (width - String.length s) "0"%char) +:+ s.

(** [str(x)] for a cell. *)
Definition py_str (v : value) : string :=
  match v with
  | VNull => "nan"
  | VStr s => s
  | VInt n => pretty n
  | VBool true => "True"
  | VBool false => "False"
  | VTime t =>
      pad 4 (pretty (dt_year t)) +:+ "-" +:+ pad 2 (pretty (dt_month t)) +:+ "-"
        +:+ pad 2 (pretty (dt_day t)) +:+ " 00:00:00"
  end.

(** [lambda x: len(str(x).split())] *)
Definition word_count (v : value) : value :=
  VInt (Z.of_nat (length (Text.split (py_str v)))).

(** [s > 0] on a column of counts; a comparison with a missing value is
    false, and text or timestamps are not ordered against a number. *)
Definition gt_zero (v : value) : result value :=
  match v with
  | VInt n => Ok (VBool (bool_decide (0 < n)%Z))
  | VBool b => Ok (VBool b)
  | VNull => Ok (VBool false)
  | VStr _ | VTime _ => Raise (TypeError "'>' not supported")
  end.

(** Running a fallible function over a column: the first failure wins. *)
Fixpoint traverse {A B} (f : A → result B) (l : list A) : result (list B) :=
  match l with
  | [] => Ok []
  | x :: l' =>
      match f x with
      | Raise e => Raise e
      | Ok y => match traverse f l' with
                | Raise e => Raise e
                | Ok ys => Ok (y :: ys)
                end
      end
  end.

(** The [.str] accessor maps a string method over the text cells; a cell
    that holds no text comes out missing. *)
Definition str_method (f : string → string) (s : list value) : list value :=
  map (λ v, match v with VStr x => VStr (f x) | _ => VNull end) s.
Definition str_strip : list value → list value := str_method Text.strip.
Definition str_title : list value → list value := str_method Text.title.

(** The [.dt.year] accessor: defined on timestamps and missing timestamps
    only. *)
Definition year_of (v : value) : result value :=
  match v with
  | VTime t => Ok (VInt (dt_year t))
  | VNull => Ok VNull
  | _ => Raise (AttributeError "Can only use .dt accessor with datetimelike values")
  end.
Definition dt_year_accessor (s : list value) : result (list value) := traverse year_of s.

(** [s.astype(int)] on the numeric columns the program casts: a missing
    value has no integer form.  Text and timestamps do not occur in those
    columns and are rejected. *)
Definition to_int (v : value) : result value :=
  match v with
  | VInt n => Ok (VInt n)
  | VBool b => Ok (VInt (if b then 1 else 0)%Z)
  | VNull => Raise (ValueError "Cannot convert non-finite values (NA or inf) to integer")
  | VStr _ => Raise (ValueError "invalid literal for int()")
  | VTime _ => Raise (TypeError "cannot astype a datetimelike to int")
  end.
Definition astype_int (s : list value) : result (list value) := traverse to_int s.


(** [s.value_counts()]: missing values are left out, larger counts come
    first. *)
Definition value_counts (s : list value) : list (value * nat) :=
  Counting.by_count_desc (Counting.tally (dropna s)).

Definition kind (v : value) : nat :=
  match v with VNull => 0 | VStr _ => 1 | VInt _ => 2 | VBool _ => 3 | VTime _ => 4 end.

Definition datetime_leb (a b : datetime) : bool :=
  let key t := ((dt_year t * 16 + dt_month t) * 32 + dt_day t)%Z in
  (key a <=? key b)%Z.

Definition value_leb (a b : value) : bool :=
  match a, b with
  | VInt x, VInt y => (x <=? y)%Z
  | VStr x, VStr y => String.leb x y
  | VBool x, VBool y => implb x y
  | VTime x, VTime y => datetime_leb x y
  | _, _ => true
  end.

(** [c.sort_index()]: ascending by label; labels of different types are not
    ordered against each other. *)
Definition sort_index (c : list (value * nat)) : result (list (value * nat)) :=
  match c with
  | [] => Ok []
  | (v, _) :: _ =>
      if forallb (λ p, kind p.1 =? kind v) c
      then Ok (Sorting.sort (λ p q, value_leb p.1 q.1) c)
      else Raise (TypeError "'<' not supported between labels of different types")
  end.

(** [c.head(n)]: the first [n] entries; for a negative [n], all but the
    last [-n]. *)
Definition head {A} (n : Z) (c : list A) : list A :=
  if (0 <=? n)%Z then take (Z.to_nat n) c
  else take (length c - Z.to_nat (- n)) c.

End Series.

(** ** Tables *)

Record DataFrame := MkFrame {
  index_len : nat;                       (* number of rows *)
  data : list (string * list value)     (* the columns, in order *)
}.

Module Frame.

Definition columns (d : DataFrame) : list string := (data d).*1.

Fixpoint lookup_col (c : string) (l : list (string * list value)) : option (list value) :=
  match l with
  | [] => None
  | (c', s) :: l' => if decide (c' = c) then Some s else lookup_col c l'
  end.

(** [d[c]] *)
Definition getitem (d : DataFrame) (c : string) : option (list value) :=
  lookup_col c (data d).

Fixpoint assign_col (c : string) (s : list value) (l : list (string * list value))
  : list (string * list value) :=
  match l with
  | [] => [(c, s)]
  | (c', s') :: l' =>
      if decide (c' = c) then (c, s) :: l' else (c', s') :: assign_col c s l'
  end.

(** [d[c] = s]: an existing column is replaced where it stands, a new one
    is added at the end.  The columns the program assigns are computed from
    columns of the same table, so they carry its row index. *)
Definition setitem (d : DataFrame) (c : string) (s : list value) : DataFrame :=
  MkFrame (index_len d) (assign_col c s (data d)).

(** [d[c] = v] with a scalar [v]: every row gets [v]. *)
Definition broadcast (d : DataFrame) (v : value) : list value :=
  replicate (index_len d) v.

(** [d[cols]] with a list of labels. *)
Definition select (d : DataFrame) (cols : list string) : result DataFrame :=
  match Series.traverse
          (λ c, match getitem d c with
                | Some s => Ok (c, s)
                | None => Raise (KeyError c)
                end) cols with
  | Ok l => Ok (MkFrame (index_len d) l)
  | Raise e => Raise e
  end.

(** [d.shape] *)
Definition shape (d : DataFrame) : nat * nat := (index_len d, length (data d)).

(** [d.head(n)] *)
Definition head (n : Z) (d : DataFrame) : DataFrame :=
  MkFrame (length (Series.head n (seq 0 (index_len d))))
          (prod_map id (Series.head n) <$> data d).

(** Every column has one cell per row. *)
Definition wf (d : DataFrame) : Prop :=
  Forall (λ p, length p.2 = index_len d) (data d).

Global Instance wf_dec d : Decision (wf d).
Proof. unfold wf. apply _. Defined.

(** [d.isnull().sum()]: the number of missing cells of each column. *)
Definition isnull_sum (d : DataFrame) : list (string * nat) :=
  map (λ p, (p.1, Series.null_count p.2)) (data d).

(** Number of missing cells of a column; a column that is not there has no
    count. *)
Definition null_count (d : DataFrame) (c : string) : option nat :=
  Series.null_count <$> getitem d c.

End Frame.

(** ** The state of a run: objects, files, standard output *)

(** What [print] is given: the text of the (f-)string with [{}] for each
    interpolated expression, and the objects interpolated.  Decorative
    emoji of the messages are left out. *)
Inductive pyobj :=
  | ONum (n : Z)
  | ORatio (q : Q)
  | OText (s : string)
  | OLabel (v : value)
  | OFrame (d : DataFrame)
  | OCounts (c : list (value * nat))
  | OColumnCounts (c : list (string * nat))
  | OColumns (c : list string)
  | ODtypes (c : list (string * string))
  | ODescribe (d : DataFrame)
  | OError (e : exn)
  | OExtreme (n : option Z).

Record printed := Printed { template : string; args : list pyobj }.

(** A file: a delimited table, a columnar snapshot of a table, a rendered
    chart (known by its title), or anything else. *)
Inductive file :=
  | CsvFile (d : DataFrame)
  | ParquetFile (d : DataFrame)
  | PngFile (chart_title : string)
  | OtherFile.

(** References are positions in the store. *)
Abbreviation loc := nat (only parsing).

Record world := World {
  heap : list DataFrame;        (* the DataFrame objects, by reference *)
  files : gmap string file;     (* the working directory *)
  stdout : list printed         (* what was printed, oldest first *)
}.

(** A computation changes the world and returns or raises. *)
Definition M (A : Type) : Type := world → result A * world.

Definition ret {A} (a : A) : M A := λ w, (Ok a, w).
Definition raise {A} (e : exn) : M A := λ w, (Raise e, w).
Definition bind {A B} (m : M A) (k : A → M B) : M B :=
  λ w, match m w with
       | (Ok a, w') => k a w'
       | (Raise e, w') => (Raise e, w')
       end.
Definition lift {A} (r : result A) : M A := λ w, (r, w).

(** [try: m except handles: h] *)
Definition try_except {A} (m : M A) (handles : exn → bool) (h : exn → M A) : M A :=
  λ w, match m w with
       | (Raise e, w') => if handles e then h e w' else (Raise e, w')
       | r => r
       end.

Declare Scope py_scope.
Delimit Scope py_scope with py.
Notation "x <- m ;; k" := (bind m (λ x, k))
  (at level 100, m at next level, right associativity) : py_scope.
Notation "m ;; k" := (bind m (λ _, k))
  (at level 100, right associativity) : py_scope.
Open Scope py_scope.

Definition print (t : string) (a : list pyobj) : M unit :=
  λ w, (Ok (), World (heap w) (files w) (stdout w ++ [Printed t a])).

(** Object store. *)
Definition alloc (d : DataFrame) : M loc :=
  λ w, (Ok (length (heap w)), World (heap w ++ [d]) (files w) (stdout w)).
Definition deref (r : loc) : M DataFrame :=
  λ w, match heap w !! r with
       | Some d => (Ok d, w)
       | None => (Raise InvalidReference, w)
       end.
Definition store (r : loc) (d : DataFrame) : M unit :=
  λ w, (Ok (), World (<[r := d]> (heap w)) (files w) (stdout w)).

(** Files. *)
Definition write_file (path : string) (f : file) : M unit :=
  λ w, (Ok (), World (heap w) (<[path := f]> (files w)) (stdout w)).

(** [pd.read_csv(path)]: a new table object with the content of the file. *)
Definition read_csv (path : string) : M loc :=
  λ w, match files w !! path with
       | None => (Raise (FileNotFoundError path), w)
       | Some (CsvFile d) => alloc d w
       | Some _ => (Raise (ParserError path), w)
       end.

(** [pd.read_csv(path, nrows=n)]: the first [n] rows only. *)
Definition read_csv_nrows (path : string) (n : nat) : M loc :=
  λ w, match files w !! path with
       | None => (Raise (FileNotFoundError path), w)
       | Some (CsvFile d) => alloc (Frame.head (Z.of_nat n) d) w
       | Some _ => (Raise (ParserError path), w)
       end.

(** [pd.read_csv(path, usecols=cols)]: the named columns only, in the order
    of the file; a name the file does not have is refused. *)
Definition read_csv_usecols (path : string) (cols : list string) : M loc :=
  λ w, match files w !! path with
       | None => (Raise (FileNotFoundError path), w)
       | Some (CsvFile d) =>
           if forallb (λ c, bool_decide (c ∈ Frame.columns d)) cols
           then alloc (MkFrame (index_len d) (filter (λ p, p.1 ∈ cols) (data d))) w
           else (Raise (ValueError "Usecols do not match columns"), w)
       | Some _ => (Raise (ParserError path), w)
       end.

(** The calls that build a figure ([plt.figure], [plot], [plt.title],
    labels, [tight_layout]) end in [plt.savefig(path)].  Rendering is not
    looked into: the drawing calls are taken to succeed and the picture is
    known by its title.  [plt.show] leaves no trace. *)
Definition savefig (path : string) (chart_title : string) : M unit :=
  write_file path (PngFile chart_title).

(** *** DataFrame methods on references *)

Definition df_copy (r : loc) : M loc := d <- deref r;; alloc d.
Definition df_len (r : loc) : M nat := d <- deref r;; ret (index_len d).
Definition df_columns (r : loc) : M (list string) := d <- deref r;; ret (Frame.columns d).
Definition df_shape (r : loc) : M (nat * nat) := d <- deref r;; ret (Frame.shape d).
Definition df_getitem (r : loc) (c : string) : M (list value) :=
  d <- deref r;;
  match Frame.getitem d c with
  | Some s => ret s
  | None => raise (KeyError c)
  end.
Definition df_setitem (r : loc) (c : string) (s : list value) : M unit :=
  d <- deref r;; store r (Frame.setitem d c s).
Definition df_setitem_scalar (r : loc) (c : string) (v : value) : M unit :=
  d <- deref r;; store r (Frame.setitem d c (Frame.broadcast d v)).
Definition df_select (r : loc) (cols : list string) : M loc :=
  d <- deref r;; d' <- lift (Frame.select d cols);; alloc d'.

(** ** pandas functions the program calls *)

Module Pandas.

(** [pd.to_datetime(col, errors='coerce')] reads every cell as a timestamp
    and gives a missing timestamp where it cannot.  The reader of dates is a
    parameter: it is given the cell and the column, since the layout guessed
    from the column may bear on how a cell is read. *)
Definition date_reader : Type := list value → value → option datetime.

Definition to_datetime (read : date_reader) (s : list value) : list value :=
  map (λ v, match read s v with Some t => VTime t | None => VNull end) s.

(** The [.str] accessor is refused on a column that holds no text at all
    (such a column has a numeric, boolean or timestamp dtype), unless it is
    empty. *)
Definition str_accessor (s : list value) : result (list value) :=
  match s with
  | [] => Ok s
  | _ => if existsb (λ v, match v with VStr _ => true | _ => false end) s
         then Ok s
         else Raise (AttributeError "Can only use .str accessor with string values")
  end.

(** A reader of ISO dates, [YYYY-MM-DD], for the examples. *)
Definition digit_of (c : ascii) : option Z :=
  if Text.is_digit c then Some (Z.of_nat (Text.code c - 48)) else None.

Fixpoint number_of (acc : Z) (l : list ascii) : option Z :=
  match l with
  | [] => Some acc
  | c :: l' => match digit_of c with
               | Some d => number_of (acc * 10 + d) l'
               | None => None
               end
  end.

Definition iso_date (s : string) : option datetime :=
  match Text.chars s with
  | [y1; y2; y3; y4; "-"%char; m1; m2; "-"%char; d1; d2] =>
      match number_of 0 [y1; y2; y3; y4], number_of 0 [m1; m2], number_of 0 [d1; d2] with
      | Some y, Some m, Some d =>
          if bool_decide (1 ≤ m ≤ 12 ∧ 1 ≤ d ≤ 31)%Z then Some (Datetime y m d) else None
      | _, _, _ => None
      end
  | _ => None
  end.

Definition iso_reader : date_reader :=
  λ _ v, match v with
         | VStr s => iso_date s
         | VTime t => Some t
         | _ => None
         end.

End Pandas.


(** ** Word counts of titles

    Every [analyze_titles] of the repository does the same computation; the
    files differ in their stop words and in how a missing title is read. *)

Module Titles.

(** Lower-case the joined titles, take the words of three letters or more,
    drop the stop words, count. *)
Definition word_frequencies (stop_words : list string) (titles : list string)
  : list string * list (string * nat) :=
  let all_titles := Text.join " " titles in
  let words := Text.findall_words (Text.lower all_titles) in
  let filtered_words := filter (λ word, word ∉ stop_words) words in
  (filtered_words, Counting.tally filtered_words).

(** Unpacking the zipped pairs into [words, counts] needs at least one
    pair. *)
Definition unzip_top_words (top_words : list (string * nat)) : M (list string * list nat) :=
  match top_words with
  | [] => raise (ValueError "not enough values to unpack (expected 2, got 0)")
  | _ => ret (top_words.*1, top_words.*2)
  end.

End Titles.

(** ** data_cleaning.py *)

Module DataCleaning.

Definition important_cols : list string :=
  ["title"; "abstract"; "authors"; "journal"; "publish_time";
   "source_x"; "has_full_text"; "cord_uid"].

Section WithReader.
Variable read_date : Pandas.date_reader.

Definition clean_and_prepare_data (df : loc) : M loc :=
  print "Cleaning and preparing data..." [];;
  (* Create a copy to avoid modifying the original *)
  df_clean <- df_copy df;;
  print "Handling missing values..." [];;
  (* Keep only columns that exist in the dataframe *)
  columns <- df_columns df_clean;;
  let available_cols := filter (λ col, col ∈ columns) important_cols in
  df_clean <- df_select df_clean available_cols;;
  (* Fill missing titles with 'Unknown Title' *)
  title <- df_getitem df_clean "title";;
  df_setitem df_clean "title" (Series.fillna (VStr "Unknown Title") title);;
  (* Fill missing abstracts with empty string *)
  abstract <- df_getitem df_clean "abstract";;
  df_setitem df_clean "abstract" (Series.fillna (VStr "") abstract);;
  (* Convert publish_time to datetime and extract year *)
  print "Processing dates..." [];;
  publish_time <- df_getitem df_clean "publish_time";;
  df_setitem df_clean "publish_time" (Pandas.to_datetime read_date publish_time);;
  publish_time <- df_getitem df_clean "publish_time";;
  year <- lift (Series.dt_year_accessor publish_time);;
  df_setitem df_clean "year" year;;
  (* Create new features *)
  print "Creating new features..." [];;
  abstract <- df_getitem df_clean "abstract";;
  df_setitem df_clean "abstract_word_count" (map Series.word_count abstract);;
  title <- df_getitem df_clean "title";;
  df_setitem df_clean "title_word_count" (map Series.word_count title);;
  abstract_word_count <- df_getitem df_clean "abstract_word_count";;
  has_abstract <- lift (Series.traverse Series.gt_zero abstract_word_count);;
  df_setitem df_clean "has_abstract" has_abstract;;
  (* Clean journal names *)
  journal <- df_getitem df_clean "journal";;
  df_setitem df_clean "journal" (Series.fillna (VStr "Unknown Journal") journal);;
  journal <- df_getitem df_clean "journal";;
  journal <- lift (Pandas.str_accessor journal);;
  journal <- lift (Pandas.str_accessor (Series.str_strip journal));;
  df_setitem df_clean "journal" (Series.str_title journal);;
  shape <- df_shape df_clean;;
  print "Data cleaning complete! Final shape: {}"
        [ONum (Z.of_nat shape.1); ONum (Z.of_nat shape.2)];;
  ret df_clean.

End WithReader.

(** *** [analyze_missing_data] *)

(** [count / len * 100]; dividing zero by zero gives a missing number. *)
Definition percent (count len : nat) : option Q :=
  match len with
  | 0 => None
  | _ => Some (Z.of_nat (count * 100) # Pos.of_nat len)
  end.

(** [p[p > 0]]: the entries with a positive number; a missing number is
    not positive. *)
Fixpoint keep_positive (p : list (string * option Q)) : list (string * Q) :=
  match p with
  | [] => []
  | (c, Some x) :: p' =>
      if negb (Qle_bool x 0) then (c, x) :: keep_positive p' else keep_positive p'
  | (c, None) :: p' => keep_positive p'
  end.

(** [s.sort_values(ascending=False)] *)
Definition sort_values_desc (s : list (string * Q)) : list (string * Q) :=
  Sorting.sort (λ p q, Qle_bool q.2 p.2) s.

Fixpoint print_each (l : list (string * Q)) : M unit :=
  match l with
  | [] => ret ()
  | (col, percent) :: l' => print "{}: {}%" [OText col; ORatio percent];; print_each l'
  end.

Definition analyze_missing_data (df : loc) : M (list (string * Q)) :=
  print "Missing Data Analysis:" [];;
  d <- deref df;;
  let missing_percent :=
    map (λ p, (p.1, percent p.2 (index_len d))) (Frame.isnull_sum d) in
  let missing_data := sort_values_desc (keep_positive missing_percent) in
  print "Columns with missing values (percentage):" [];;
  print_each missing_data;;
  ret missing_data.

End DataCleaning.

(** ** data_exploration.py *)

Module DataExploration.

(** The dtype pandas gives a column. *)
Definition dtype (s : list value) : string :=
  match s with
  | [] => "object"
  | _ =>
      if forallb (λ v, match v with VInt _ => true | _ => false end) s then "int64"
      else if forallb (λ v, match v with VInt _ | VNull => true | _ => false end) s
      then "float64"
      else if forallb (λ v, match v with VBool _ => true | _ => false end) s then "bool"
      else if forallb (λ v, match v with VTime _ | VNull => true | _ => false end) s
      then "datetime64[ns]"
      else "object"
  end.

Definition is_number (s : list value) : bool :=
  bool_decide (dtype s = "int64") || bool_decide (dtype s = "float64").

Definition load_and_explore_data : M (option loc) :=
  print "Loading metadata.csv..." [];;
  (* Load the data *)
  loaded <- try_except
              (df <- read_csv "metadata.csv";;
               print "Data loaded successfully!" [];;
               ret (Some df))
              (λ e, match e with FileNotFoundError _ => true | _ => false end)
              (λ _, print "metadata.csv not found. Please download it from CORD-19 dataset" [];;
                    ret None);;
  match loaded with
  | None => ret None
  | Some df =>
      (* Basic exploration *)
      d <- deref df;;
      print "DataFrame Dimensions: {} rows, {} columns"
            [ONum (Z.of_nat (Frame.shape d).1); ONum (Z.of_nat (Frame.shape d).2)];;
      print "First few rows:" [];;
      print "{}" [OFrame (Frame.head 5 d)];;
      print "Data Types:" [];;
      print "{}" [ODtypes (map (λ p, (p.1, dtype p.2)) (data d))];;
      print "Missing Values:" [];;
      let missing_values := Frame.isnull_sum d in
      print "{}" [OColumnCounts (filter (λ p, 0 < p.2) missing_values)];;
      print "Basic Statistics for Numerical Columns:" [];;
      let numerical_cols := (filter (λ p, is_number p.2 = true) (data d)).*1 in
      (if bool_decide (0 < length numerical_cols)
       then numeric <- lift (Frame.select d numerical_cols);;
            print "{}" [ODescribe numeric]
       else print "No numerical columns found" []);;
      ret (Some df)
  end.

End DataExploration.

(** ** analysis_visualization.py *)

Module AnalysisVisualization.

Definition analyze_publication_trends (df : loc) : M (list (value * nat)) :=
  print "Analyzing publication trends..." [];;
  (* Count papers by year *)
  year <- df_getitem df "year";;
  yearly_counts <- lift (Series.sort_index (Series.value_counts year));;
  savefig "publications_by_year.png" "Number of COVID-19 Publications by Year";;
  ret yearly_counts.

Definition analyze_journals (df : loc) : M (list (value * nat)) :=
  print "Analyzing journal distribution..." [];;
  (* Get top journals *)
  journal <- df_getitem df "journal";;
  let top_journals := Series.head 15 (Series.value_counts journal) in
  savefig "top_journals.png" "Top 15 Journals Publishing COVID-19 Research";;
  ret top_journals.

Definition stop_words : list string :=
  ["the"; "and"; "of"; "in"; "to"; "a"; "for"; "with"; "on"; "by";
   "as"; "an"; "from"; "that"; "this"; "is"; "are"; "was"; "were"].

Definition analyze_titles (df : loc) : M (list (string * nat)) :=
  print "Analyzing title word frequencies..." [];;
  (* Combine all titles *)
  title <- df_getitem df "title";;
  let '(filtered_words, word_freq) :=
    Titles.word_frequencies stop_words (map Series.py_str (Series.dropna title)) in
  let top_words := Counting.most_common 20 word_freq in
  _ <- Titles.unzip_top_words top_words;;
  savefig "top_title_words.png" "Top 20 Words in Paper Titles";;
  (* Create word cloud *)
  savefig "title_wordcloud.png" "Word Cloud of Paper Titles";;
  ret word_freq.

Definition analyze_sources (df : loc) : M (option (list (value * nat))) :=
  print "Analyzing source distribution..." [];;
  columns <- df_columns df;;
  if bool_decide ("source_x" ∈ columns)
  then source_x <- df_getitem df "source_x";;
       let source_counts := Series.head 10 (Series.value_counts source_x) in
       savefig "sources_distribution.png" "Paper Distribution by Source (Top 10)";;
       ret (Some source_counts)
  else ret None.

Record results := Results {
  yearly_counts : list (value * nat);
  top_journals : list (value * nat);
  word_frequencies : list (string * nat);
  source_distribution : option (list (value * nat))
}.

Definition run_complete_analysis (df : loc) : M results :=
  print "Starting complete analysis..." [];;
  yearly <- analyze_publication_trends df;;
  journals <- analyze_journals df;;
  words <- analyze_titles df;;
  sources <- analyze_sources df;;
  (* Additional analysis: Abstract length distribution *)
  _ <- df_getitem df "abstract_word_count";;
  savefig "abstract_length_distribution.png" "Distribution of Abstract Word Count";;
  print "Analysis complete!" [];;
  ret (Results yearly journals words sources).

End AnalysisVisualization.

(** ** main.py *)

Module Main.

(** The numbers of a column, missing cells left out. *)
Definition numbers (s : list value) : list Z :=
  omap (λ v, match v with VInt n => Some n | _ => None end) s.

(** [int(s.min())] and [int(s.max())]: the extreme of no number at all is a
    missing number, which has no integer form. *)
Definition int_extreme (pick : Z → Z → Z) (s : list value) : M Z :=
  match numbers s with
  | [] => raise (ValueError "cannot convert float NaN to integer")
  | n :: ns => ret (foldl pick n ns)
  end.

(** [s.nunique()] *)
Definition nunique (s : list value) : nat :=
  length (Counting.tally (Series.dropna s)).

(** [s.sum()] of a column of booleans. *)
Definition count_true (s : list value) : nat :=
  length (filter (λ v, v = VBool true) s).

Section WithReader.
Variable read_date : Pandas.date_reader.

Definition main : M unit :=
  print "============================================================" [];;
  print "CORD-19 COVID-19 RESEARCH DATA ANALYSIS" [];;
  print "============================================================" [];;
  (* Step 1: Load and explore data *)
  df <- DataExploration.load_and_explore_data;;
  match df with
  | None => ret ()
  | Some df =>
      (* Step 2: Analyze missing data *)
      missing_data <- DataCleaning.analyze_missing_data df;;
      (* Step 3: Clean and prepare data *)
      df_clean <- DataCleaning.clean_and_prepare_data read_date df;;
      (* Step 4: Run complete analysis *)
      results <- AnalysisVisualization.run_complete_analysis df_clean;;
      (* Step 5: Save cleaned data *)
      d <- deref df_clean;;
      write_file "cleaned_metadata.csv" (CsvFile d);;
      print "Cleaned data saved as 'cleaned_metadata.csv'" [];;
      (* Summary report *)
      print "============================================================" [];;
      print "ANALYSIS SUMMARY" [];;
      print "============================================================" [];;
      n <- df_len df_clean;;
      print "Total papers analyzed: {}" [ONum (Z.of_nat n)];;
      year <- df_getitem df_clean "year";;
      first <- int_extreme Z.min year;;
      last <- int_extreme Z.max year;;
      print "Time span: {} - {}" [ONum first; ONum last];;
      journal <- df_getitem df_clean "journal";;
      print "Number of unique journals: {}" [ONum (Z.of_nat (nunique journal))];;
      has_abstract <- df_getitem df_clean "has_abstract";;
      print "Papers with abstracts: {}" [ONum (Z.of_nat (count_true has_abstract))];;
      print "Analysis complete! Run 'streamlit run app.py' to launch the web application." []
  end.

End WithReader.
End Main.

(** ** src/main.py, the second generation of the pipeline *)

Module SrcMain.
Section WithReader.
Variable read_date : Pandas.date_reader.

Definition clean_and_prepare_data (df : loc) : M loc :=
  print "Cleaning and preparing data..." [];;
  (* Create a copy to avoid modifying the original *)
  df_clean <- df_copy df;;
  (* Handle missing values in key columns *)
  columns <- df_columns df_clean;;
  (if bool_decide ("title" ∈ columns)
   then title <- df_getitem df_clean "title";;
        df_setitem df_clean "title" (Series.fillna (VStr "Unknown Title") title)
   else df_setitem_scalar df_clean "title" (VStr "Unknown Title"));;
  columns <- df_columns df_clean;;
  (if bool_decide ("abstract" ∈ columns)
   then abstract <- df_getitem df_clean "abstract";;
        df_setitem df_clean "abstract" (Series.fillna (VStr "") abstract)
   else df_setitem_scalar df_clean "abstract" (VStr ""));;
  columns <- df_columns df_clean;;
  (if bool_decide ("journal" ∈ columns)
   then journal <- df_getitem df_clean "journal";;
        df_setitem df_clean "journal" (Series.fillna (VStr "Unknown Journal") journal)
   else df_setitem_scalar df_clean "journal" (VStr "Unknown Journal"));;
  (* Handle publish_time and extract year *)
  columns <- df_columns df_clean;;
  (if bool_decide ("publish_time" ∈ columns)
   then publish_time <- df_getitem df_clean "publish_time";;
        df_setitem df_clean "publish_time" (Pandas.to_datetime read_date publish_time);;
        publish_time <- df_getitem df_clean "publish_time";;
        year <- lift (Series.dt_year_accessor publish_time);;
        df_setitem df_clean "year" year;;
        (* Fill NaN years with 2020 (most common COVID year) *)
        year <- df_getitem df_clean "year";;
        year <- lift (Series.astype_int (Series.fillna (VInt 2020) year));;
        df_setitem df_clean "year" year
   else df_setitem_scalar df_clean "year" (VInt 2020));;
  (* Create new features *)
  abstract <- df_getitem df_clean "abstract";;
  df_setitem df_clean "abstract_word_count" (map Series.word_count abstract);;
  title <- df_getitem df_clean "title";;
  df_setitem df_clean "title_word_count" (map Series.word_count title);;
  abstract_word_count <- df_getitem df_clean "abstract_word_count";;
  has_abstract <- lift (Series.traverse Series.gt_zero abstract_word_count);;
  df_setitem df_clean "has_abstract" has_abstract;;
  shape <- df_shape df_clean;;
  print "Data cleaning complete! Final shape: {}"
        [ONum (Z.of_nat shape.1); ONum (Z.of_nat shape.2)];;
  ret df_clean.

End WithReader.

Definition analyze_publication_trends (df : loc) : M (list (value * nat)) :=
  print "Analyzing publication trends..." [];;
  (* Count papers by year *)
  year <- df_getitem df "year";;
  yearly_counts <- lift (Series.sort_index (Series.value_counts year));;
  savefig "publications_by_year.png" "Number of COVID-19 Publications by Year";;
  ret yearly_counts.

Definition analyze_journals (df : loc) : M (list (value * nat)) :=
  print "Analyzing journal distribution..." [];;
  (* Get top journals *)
  journal <- df_getitem df "journal";;
  let top_journals := Series.head 15 (Series.value_counts journal) in
  savefig "top_journals.png" "Top 15 Journals Publishing COVID-19 Research";;
  ret top_journals.

Definition stop_words : list string :=
  ["the"; "and"; "of"; "in"; "to"; "a"; "for"; "with"; "on"; "by";
   "as"; "an"; "from"; "that"; "this"; "is"; "are"; "was"; "were";
   "covid"; "19"; "sars"; "cov"; "2"; "coronavirus"; "study"; "research";
   "based"; "using"; "analysis"; "during"; "among"; "between"].

Definition analyze_titles (df : loc) : M (list (string * nat)) :=
  print "Analyzing title word frequencies..." [];;
  (* Combine all titles *)
  title <- df_getitem df "title";;
  let '(filtered_words, word_freq) :=
    Titles.word_frequencies stop_words (map Series.py_str title) in
  let top_words := Counting.most_common 20 word_freq in
  _ <- Titles.unzip_top_words top_words;;
  savefig "top_title_words.png" "Top 20 Words in Paper Titles (excluding common terms)";;
  ret word_freq.

End SrcMain.

(** ** src/data/preprocess_data.py *)

Module PreprocessData.

Definition possible_columns : list string :=
  ["title"; "abstract"; "authors"; "journal"; "publish_time";
   "source_x"; "has_full_text"; "cord_uid"; "source"; "doi";
   "pmcid"; "pubmed_id"; "license"; "who_covidence_id"; "arxiv_id";
   "pdf_json_files"; "pmc_json_files"].

(** [s.min()] and [s.max()]: a missing number when there is no number. *)
Definition extreme (pick : Z → Z → Z) (s : list value) : option Z :=
  match Main.numbers s with
  | [] => None
  | n :: ns => Some (foldl pick n ns)
  end.

Section WithLibrary.
Variable read_date : Pandas.date_reader.
(** [d.sample(n, random_state=42)]: the rows picked are the library's
    choice. *)
Variable sample : nat → DataFrame → DataFrame.

Definition preprocess_and_save : M loc :=
  print "Loading metadata.csv (this may take a while)..." [];;
  (* First, let's check what columns are actually available *)
  df <- try_except
          ((* Read just the first row to get column names *)
           sample_df <- read_csv_nrows "metadata.csv" 1;;
           available_columns <- df_columns sample_df;;
           print "Available columns: {}" [OColumns available_columns];;
           (* Only use columns that actually exist *)
           let essential_columns :=
             filter (λ col, col ∈ available_columns) possible_columns in
           (* Make sure we have at least the basic columns *)
           let essential_columns :=
             if bool_decide ("title" ∉ essential_columns)
             then take 8 available_columns
             else essential_columns in
           print "Using columns: {}" [OColumns essential_columns];;
           (* Read the CSV with only existing columns *)
           read_csv_usecols "metadata.csv" essential_columns)
          (λ _, true)
          (λ e, print "Error reading CSV: {}" [OError e];;
                (* Fallback: read without specifying columns *)
                df <- read_csv "metadata.csv";;
                print "Loaded all columns as fallback" [];;
                ret df);;
  shape <- df_shape df;;
  print "Data loaded successfully! Shape: {}"
        [ONum (Z.of_nat shape.1); ONum (Z.of_nat shape.2)];;
  (* Basic cleaning *)
  title <- df_getitem df "title";;
  df_setitem df "title" (Series.fillna (VStr "Unknown Title") title);;
  abstract <- df_getitem df "abstract";;
  df_setitem df "abstract" (Series.fillna (VStr "") abstract);;
  (* Handle journal column if it exists *)
  columns <- df_columns df;;
  (if bool_decide ("journal" ∈ columns)
   then journal <- df_getitem df "journal";;
        df_setitem df "journal" (Series.fillna (VStr "Unknown Journal") journal)
   else df_setitem_scalar df "journal" (VStr "Unknown Journal"));;
  (* Handle publish_time and extract year *)
  columns <- df_columns df;;
  (if bool_decide ("publish_time" ∈ columns)
   then publish_time <- df_getitem df "publish_time";;
        df_setitem df "publish_time" (Pandas.to_datetime read_date publish_time);;
        publish_time <- df_getitem df "publish_time";;
        year <- lift (Series.dt_year_accessor publish_time);;
        df_setitem df "year" year;;
        (* Fill NaN years with 2020 (most common COVID year) *)
        year <- df_getitem df "year";;
        year <- lift (Series.astype_int (Series.fillna (VInt 2020) year));;
        df_setitem df "year" year
   else df_setitem_scalar df "year" (VInt 2020));;
  (* Create abstract word count *)
  abstract <- df_getitem df "abstract";;
  df_setitem df "abstract_word_count" (map Series.word_count abstract);;
  abstract_word_count <- df_getitem df "abstract_word_count";;
  has_abstract <- lift (Series.traverse Series.gt_zero abstract_word_count);;
  df_setitem df "has_abstract" has_abstract;;
  (* Save as Parquet (much faster to load) *)
  d <- deref df;;
  write_file "metadata_optimized.parquet" (ParquetFile d);;
  print "Optimized data saved as 'metadata_optimized.parquet'" [];;
  (* Also save a sample for quick testing *)
  n <- df_len df;;
  df_sample <- alloc (sample (Z.to_nat (Z.min 10000 (Z.of_nat n))) d);;
  d_sample <- deref df_sample;;
  write_file "metadata_sample.parquet" (ParquetFile d_sample);;
  n_sample <- df_len df_sample;;
  print "Sample data saved as 'metadata_sample.parquet' ({} records)"
        [ONum (Z.of_nat n_sample)];;
  (* Print some basic info *)
  print "Dataset Info:" [];;
  n <- df_len df;;
  print "Total records: {}" [ONum (Z.of_nat n)];;
  year <- df_getitem df "year";;
  print "Years range: {} - {}" [OExtreme (extreme Z.min year); OExtreme (extreme Z.max year)];;
  has_abstract <- df_getitem df "has_abstract";;
  print "Records with abstract: {}" [ONum (Z.of_nat (Main.count_true has_abstract))];;
  ret df.

End WithLibrary.
End PreprocessData.

(** ** The journal tab of the dashboards *)

Module App.

(** src/app/app.py: [safe_value_counts(series, default_name)] *)
Definition safe_value_counts (series : list value) (default_name : string)
  : list (value * nat) :=
  if forallb Series.isnull series
  then [(VStr default_name, length series)]
  else Series.value_counts (Series.fillna (VStr default_name) series).

(** src/app/app.py: the counts shown for the number [top_n] picked on the
    slider. *)
Definition journal_counts (journal : list value) (top_n : Z) : list (value * nat) :=
  Series.head top_n (safe_value_counts journal "Unknown").

(** app.py: the same tab of the first dashboard. *)
Definition top_journals (journal : list value) (top_n : Z) : list (value * nat) :=
  Series.head top_n (Series.value_counts journal).

End App.

(** ** src/main.py: loading the input *)

Module SrcMainLoader.

Definition detect_columns : M (option (list string)) :=
  print "Detecting available columns..." [];;
  try_except
    ((* Read just the first row to get column names *)
     sample_df <- read_csv_nrows "data/metadata.csv" 1;;
     available_columns <- df_columns sample_df;;
     print "Found {} columns" [ONum (Z.of_nat (length available_columns))];;
     ret (Some available_columns))
    (λ _, true)
    (λ e, match e with
          | FileNotFoundError _ =>
              print "metadata.csv not found. Please download it from CORD-19 dataset" [];;
              ret None
          | _ =>
              print "Error reading file: {}" [OError e];;
              ret None
          end).

(** The ten columns with most missing cells, with their count and
    percentage. *)
Definition missing_table (d : DataFrame) : list pyobj :=
  let missing_values := Frame.isnull_sum d in
  let top := Series.head 10 (Sorting.sort (λ p q : string * nat, q.2 <=? p.2) missing_values) in
  OColumnCounts top ::
  omap (λ p, ORatio <$> DataCleaning.percent p.2 (index_len d)) top.

Definition load_and_explore_data : M (option loc) :=
  print "Loading metadata.csv..." [];;
  (* First detect available columns *)
  available_columns <- detect_columns;;
  match available_columns with
  | None => ret None
  | Some available_columns =>
      (* Load the data with available columns *)
      loaded <- try_except
                  (df <- read_csv_usecols "data/metadata.csv" available_columns;;
                   print "Data loaded successfully!" [];;
                   ret (Some df))
                  (λ _, true)
                  (λ e, print "Error loading data: {}" [OError e];;
                        (* Fallback: try without specifying columns *)
                        try_except
                          (df <- read_csv "data/metadata.csv";;
                           print "Data loaded with fallback method" [];;
                           ret (Some df))
                          (λ _, true)
                          (λ e2, print "Failed to load data: {}" [OError e2];;
                                 ret None));;
      match loaded with
      | None => ret None
      | Some df =>
          (* Basic exploration *)
          d <- deref df;;
          print "DataFrame Dimensions: {} rows, {} columns"
                [ONum (Z.of_nat (Frame.shape d).1); ONum (Z.of_nat (Frame.shape d).2)];;
          print "First few rows:" [];;
          print "{}" [OFrame (Frame.head 3 d)];;
          print "Data Types:" [];;
          print "{}" [ODtypes (map (λ p, (p.1, DataExploration.dtype p.2)) (data d))];;
          print "Missing Values (top 10 columns with most missing values):" [];;
          print "{}" (missing_table d);;
          ret (Some df)
      end
  end.

End SrcMainLoader.

(** * What the functions compute

    The effect of the cleaners on the table they work on, written as
    functions on tables.  The properties below first show that a run of
    [clean_and_prepare_data] leaves exactly this table at a fresh reference,
    and are then proved on these functions. *)

(** The year of a timestamp cell, missing where the timestamp is. *)
Definition year_cell (v : value) : value :=
  match v with VTime t => VInt (dt_year t) | _ => VNull end.

(** The year of a timestamp cell, 2020 where the timestamp is missing. *)
Definition year_or_2020 (v : value) : value :=
  match v with VTime t => VInt (dt_year t) | _ => VInt 2020 end.

Definition has_words (v : value) : value :=
  VBool (bool_decide (0 < length (Text.split (Series.py_str v)))).

(** The column [c], empty when the table has none of that name. *)
Definition column (d : DataFrame) (c : string) : list value :=
  default [] (Frame.getitem d c).

(** Column [c] with its missing cells filled, or made of [v] throughout. *)
Definition fill (c : string) (v : value) (d : DataFrame) : DataFrame :=
  Frame.setitem d c
    match Frame.getitem d c with
    | Some s => Series.fillna v s
    | None => Frame.broadcast d v
    end.

(** The text columns and what stands for a missing cell in each. *)
Definition text_defaults : list (string * value) :=
  [("title", VStr "Unknown Title"); ("abstract", VStr "");
   ("journal", VStr "Unknown Journal")].

(** The three feature columns. *)
Definition with_features (d : DataFrame) : DataFrame :=
  let d1 := Frame.setitem d "abstract_word_count" (map Series.word_count (column d "abstract")) in
  let d2 := Frame.setitem d1 "title_word_count" (map Series.word_count (column d "title")) in
  Frame.setitem d2 "has_abstract" (map has_words (column d "abstract")).

(** Weakest precondition of a computation: [Q] for a returned value, [E]
    for a raised exception. *)
Definition wp {A} (m : M A) (Q : A → world → Prop) (E : exn → world → Prop)
  (w : world) : Prop :=
  match m w with
  | (Ok a, w') => Q a w'
  | (Raise e, w') => E e w'
  end.

(** The newest object of the store is [d], over the older objects [h]; the
    files are [fs]. *)
Definition top (h : list DataFrame) (fs : gmap string file) (d : DataFrame)
  (w : world) : Prop :=
  heap w = h ++ [d] ∧ files w = fs.

Module SrcMainSpec.
Section WithReader.
Variable read : Pandas.date_reader.

Definition with_year (d : DataFrame) : DataFrame :=
  match Frame.getitem d "publish_time" with
  | Some p =>
      Frame.setitem
        (Frame.setitem d "publish_time" (Pandas.to_datetime read p))
        "year" (map year_or_2020 (Pandas.to_datetime read p))
  | None => Frame.setitem d "year" (Frame.broadcast d (VInt 2020))
  end.

Definition cleaned (d : DataFrame) : DataFrame :=
  with_features
    (with_year
       (fill "journal" (VStr "Unknown Journal")
          (fill "abstract" (VStr "")
             (fill "title" (VStr "Unknown Title") d)))).

End WithReader.
End SrcMainSpec.

Module DataCleaningSpec.

(** The table reduced to those of the columns [cols] that it has, in the
    order of [cols]. *)
Definition restrict (d : DataFrame) (cols : list string) : DataFrame :=
  MkFrame (index_len d) (omap (λ c, pair c <$> Frame.getitem d c) cols).

Section WithReader.
Variable read : Pandas.date_reader.

(** What is done once the four columns have been found. *)
Definition prepared (d0 : DataFrame) (title abstract publish_time : list value) : DataFrame :=
  let d1 := Frame.setitem d0 "title" (Series.fillna (VStr "Unknown Title") title) in
  let d2 := Frame.setitem d1 "abstract" (Series.fillna (VStr "") abstract) in
  let d3 := Frame.setitem d2 "publish_time" (Pandas.to_datetime read publish_time) in
  let d4 := Frame.setitem d3 "year" (map year_cell (Pandas.to_datetime read publish_time)) in
  with_features d4.

Definition cleaned (d : DataFrame) : result DataFrame :=
  let d0 := restrict d DataCleaning.important_cols in
  match Frame.getitem d0 "title" with
  | None => Raise (KeyError "title")
  | Some title =>
  match Frame.getitem d0 "abstract" with
  | None => Raise (KeyError "abstract")
  | Some abstract =>
  match Frame.getitem d0 "publish_time" with
  | None => Raise (KeyError "publish_time")
  | Some publish_time =>
  match Frame.getitem d0 "journal" with
  | None => Raise (KeyError "journal")
  | Some journal =>
  match Pandas.str_accessor (Series.fillna (VStr "Unknown Journal") journal) with
  | Raise e => Raise e
  | Ok journal =>
  match Pandas.str_accessor (Series.str_strip journal) with
  | Raise e => Raise e
  | Ok journal =>
      Ok (Frame.setitem (prepared d0 title abstract publish_time)
            "journal" (Series.str_title journal))
  end end end end end end.

End WithReader.
End DataCleaningSpec.

Module PreprocessSpec.
Section WithReader.
Variable read : Pandas.date_reader.

(** The columns [read_csv] is asked for. *)
Definition essential_columns (d : DataFrame) : list string :=
  filter (λ col, col ∈ Frame.columns d) PreprocessData.possible_columns.

(** The table as loaded with these columns. *)
Definition loaded (d : DataFrame) : DataFrame :=
  MkFrame (index_len d) (filter (λ p, p.1 ∈ essential_columns d) (data d)).

(** The table as preprocessed in place. *)
Definition prepared (d : DataFrame) : DataFrame :=
  let d4 := SrcMainSpec.with_year read
              (fill "journal" (VStr "Unknown Journal")
                 (fill "abstract" (VStr "")
                    (fill "title" (VStr "Unknown Title") d))) in
  let d5 := Frame.setitem d4 "abstract_word_count"
              (map Series.word_count (column d4 "abstract")) in
  Frame.setitem d5 "has_abstract" (map has_words (column d4 "abstract")).

End WithReader.
End PreprocessSpec.

(** The newest object of the store but one is [d]. *)
Definition second (h : list DataFrame) (fs : gmap string file) (d : DataFrame)
  (w : world) : Prop :=
  (∃ x, heap w = h ++ [d; x]) ∧ files w = fs.

(** A small table for the examples: a missing title and abstract, a date
    that cannot be read and a missing one, journal names that differ in
    case and blanks, and a column the cleaners do not look at. *)
Definition frame0 : DataFrame :=
  MkFrame 3
    [("cord_uid", [VStr "a1"; VStr "b2"; VStr "c3"]);
     ("title", [VStr "Covid-19 Study of Lungs"; VNull; VStr "Lung Study Results"]);
     ("abstract", [VStr "We study lungs."; VNull; VStr ""]);
     ("publish_time", [VStr "2020-03-17"; VStr "not a date"; VNull]);
     ("journal", [VStr " the lancet"; VStr "The Lancet  "; VNull]);
     ("url", [VNull; VNull; VNull])].

Definition world0 : world := World [frame0] ∅ [].

(** The columns the cleaners derive are there. *)
Definition has_derived (d : DataFrame) : Prop :=
  is_Some (Frame.getitem d "year") ∧
  is_Some (Frame.getitem d "abstract_word_count") ∧
  is_Some (Frame.getitem d "has_abstract").

(** Nothing is missing from the four columns the specification names. *)
Definition no_nulls (d : DataFrame) : Prop :=
  ∀ c, c ∈ ["title"; "abstract"; "journal"; "year"] → Frame.null_count d c = Some 0.

(** In-place cleaning: after [clean df] has returned, the object at [df]
    itself holds the filled and the derived columns. *)
Definition cleaned_in_place (clean : loc → M loc) (df : loc) (w : world) : Prop :=
  ∃ r w' d', clean df w = (Ok r, w') ∧ heap w' !! df = Some d' ∧
             no_nulls d' ∧ has_derived d'.

(** A table without an abstract column. *)
Definition frame1 : DataFrame :=
  MkFrame 2
    [("title", [VStr "Masks"; VStr "Vaccines"]);
     ("publish_time", [VStr "2021-01-05"; VStr "2021-02-11"]);
     ("journal", [VStr "BMJ"; VStr "Nature"])].

Definition world1 : world := World [frame1] ∅ [].

(** A cleaned table, as the specification has it: one cell per row in
    every column, nothing missing in the four named columns, and integer
    years. *)
Definition cleaned_table (d : DataFrame) : Prop :=
  Frame.wf d ∧ no_nulls d ∧
  ∃ year, Frame.getitem d "year" = Some year ∧ Forall (λ v, ∃ n, v = VInt n) year.

(** The example table as src/main.py cleans it. *)
Definition frame0_clean : DataFrame :=
  Eval vm_compute in SrcMainSpec.cleaned Pandas.iso_reader frame0.

Definition world0_clean : world := World [frame0; frame0_clean] ∅ [].

(** A ranking for the requested length [N]: at most [N] entries, counts in
    non-increasing order. *)
Definition ranked (N : Z) (r : list (value * nat)) : Prop :=
  (Z.of_nat (length r) ≤ N)%Z ∧ Sorted (λ p q, q.2 ≤ p.2) r.

(** The entries of a ranking are counts of the column: each label occurs in
    the column as many times as its entry says. *)
Definition counts_of (s : list value) (r : list (value * nat)) : Prop :=
  Forall (λ p, p.1 ≠ VNull ∧ p.2 = length (filter (λ x, x = p.1) s)) r.

(** The titles and the stop words of the worked example of the
    specification. *)
Definition example_titles : list string :=
  ["Covid-19 Study of Lungs"; "Lung Study Results"].

Definition example_stop_words : list string := ["covid"; "19"; "study"; "of"].

Definition world_titles : world :=
  World [MkFrame 2 [("title", VStr <$> example_titles)]] ∅ [].

(** The missing percentage of every column, in column order. *)
Definition missing_percentages (d : DataFrame) : list (string * option Q) :=
  map (λ p, (p.1, DataCleaning.percent (Series.null_count p.2) (index_len d))) (data d).

(** A journal cell after [fillna('Unknown Journal')]. *)
Definition filled_journal (v : value) : value :=
  if Series.isnull v then VStr "Unknown Journal" else v.

(** The stripped, title-cased form of the filled journal text. *)
Definition journal_name (v : value) : value :=
  match filled_journal v with
  | VStr s => VStr (Text.title (Text.strip s))
  | _ => VNull
  end.

(** A word as the title analysis counts it: three characters or more, all
    of them lower-case letters. *)
Definition lowercase_word (word : string) : Prop :=
  3 ≤ String.length word ∧ Forall (λ c, Text.is_lower c = true) (Text.chars word).

(** How often [word] occurs among the words of one title. *)
Definition occurrences (word : string) (title : string) : nat :=
  length (filter (λ x, x = word) (Text.findall_words (Text.lower title))).

(** The words of the titles, title by title, without the stop words. *)
Definition title_words (stop_words : list string) (titles : list string) : list string :=
  filter (λ word, word ∉ stop_words)
    (concat (map (λ t, Text.findall_words (Text.lower t)) titles)).

(** A table whose only title is a stop word. *)
Definition world_stop_word : world := World [MkFrame 1 [("title", [VStr "of"])]] ∅ [].

(** Two entries of counts by year, the first of a year before the second. *)
Definition year_before (p q : value * nat) : Prop :=
  ∃ a b, p.1 = VInt a ∧ q.1 = VInt b ∧ (a < b)%Z.

(** A table with a year column in which a year is missing. *)
Definition world_years : world :=
  World [MkFrame 4 [("year", [VInt 2021; VNull; VInt 2019; VInt 2021])]] ∅ [].

(** A computation that leaves the objects of the store as they are and
    writes no file outside [paths], whether it returns or raises. *)
Definition only_writes {A} (paths : list string) (m : M A) : Prop :=
  ∀ w, heap (m w).2 = heap w ∧
       ∀ p, p ∉ paths → files (m w).2 !! p = files w !! p.

(** The charts of analysis_visualization.py. *)
Definition charts : list string :=
  ["publications_by_year.png"; "top_journals.png"; "top_title_words.png";
   "title_wordcloud.png"; "sources_distribution.png";
   "abstract_length_distribution.png"].

(** A table that has none of the columns the aggregations read. *)
Definition frame_ids : DataFrame := MkFrame 2 [("cord_uid", [VStr "a1"; VStr "b2"])].

Definition world_ids : world := World [frame_ids] ∅ [].

(** The outcome of a run: a [KeyError] for column [c], no file written. *)
Definition key_error {A} (c : string) (w : world) (out : result A * world) : Prop :=
  out.1 = Raise (KeyError c) ∧ heap out.2 = heap w ∧ files out.2 = files w.

(** The columns the cleaner of src/main.py assigns. *)
Definition assigned_columns : list string :=
  ["title"; "abstract"; "journal"; "publish_time"; "year";
   "abstract_word_count"; "title_word_count"; "has_abstract"].

(** The columns the cleaners derive, in the order data_cleaning.py adds
    them. *)
Definition derived_columns : list string :=
  ["year"; "abstract_word_count"; "title_word_count"; "has_abstract"].

(** [d'] has the columns of [d], in their order, followed by new columns
    that are all among [names]. *)
Definition extends (names : list string) (d d' : DataFrame) : Prop :=
  ∃ added, Frame.columns d' = Frame.columns d ++ added ∧ Forall (λ c, c ∈ names) added.

(** A table with a column the cleaners do not know and a year column of
    its own. *)
Definition frame2 : DataFrame :=
  MkFrame 2
    [("year", [VStr "n/a"; VStr "n/a"]);
     ("title", [VStr "Masks"; VNull]);
     ("abstract", [VStr "  "; VStr "Masks work."]);
     ("doi", [VStr "10.1/x"; VStr "10.1/y"]);
     ("publish_time", [VStr "2021-01-05"; VStr "2021-02-11"]);
     ("journal", [VStr "BMJ"; VStr "Nature"]);
     ("authors", [VStr "A"; VNull])].

Definition world2 : world := World [frame2] ∅ [].

(** A working directory that holds the example table as metadata.csv. *)
Definition world_csv : world := World [] {["metadata.csv" := CsvFile frame0]} [].

(** Whether a rational number is below another one can be decided. *)
Global Instance Qlt_decision (x y : Q) : Decision (Qlt x y).
Proof.
  destruct (Qlt_le_dec x y) as [H|H]; [left; exact H|right; by apply Qle_not_lt].
Defined.

(** The missing percentage of a column in a table of [len] rows: the share
    of its missing cells, times a hundred. *)
Definition missing_percentage (s : list value) (len : nat) : Q :=
  (inject_Z (Z.of_nat (length (filter (λ v, v = VNull) s))) / inject_Z (Z.of_nat len) * 100)%Q.

(** Text within ASCII, where the strings of this development are the
    strings of Python. *)
Definition ascii_text (s : string) : bool :=
  forallb (λ c, Text.code c <? 128) (Text.chars s).

(** The whitespace of ASCII as Python has it: tab, line feed, vertical tab,
    form feed, carriage return, the separators 28 to 31 and the blank. *)
Definition whitespace : list ascii :=
  ascii_of_nat <$> [9; 10; 11; 12; 13; 28; 29; 30; 31; 32].

(** A whitespace character. *)
Definition blank (c : ascii) : Prop := c ∈ whitespace.

(** The letters of ASCII by their codes: the capitals A to Z, the small
    letters a to z. *)
Definition capital (c : ascii) : Prop := 65 ≤ Text.code c ≤ 90.
Definition small (c : ascii) : Prop := 97 ≤ Text.code c ≤ 122.
Definition letter (c : ascii) : Prop := capital c ∨ small c.

(** The same character, or the same letter in the other case. *)
Definition same_letter (a b : ascii) : Prop :=
  a = b ∨
  letter a ∧ letter b ∧ (Text.code a = Text.code b + 32 ∨ Text.code b = Text.code a + 32).





(** Two names that differ only in surrounding whitespace or letter case. *)
Definition differ_in_blanks_or_case (a b : string) : Prop :=
  ∃ pa ca sa pb cb sb,
    Text.chars a = pa ++ ca ++ sa ∧ Text.chars b = pb ++ cb ++ sb ∧
    Forall blank pa ∧ Forall blank sa ∧ Forall blank pb ∧ Forall blank sb ∧
    Forall2 same_letter ca cb.

Global Instance blank_dec (c : ascii) : Decision (blank c).
Proof. unfold blank. apply _. Defined.

(** A word starts at position [i]: the character there is not whitespace
    and comes after whitespace or at the very start. *)
Definition word_start (l : list ascii) (i : nat) : bool :=
  match l !! i with
  | Some c =>
      negb (bool_decide (blank c)) &&
      match i with
      | 0 => true
      | S j => from_option (λ p, bool_decide (blank p)) true (l !! j)
      end
  | None => false
  end.

(** The number of words of a text, words being separated by whitespace. *)
Definition number_of_words (s : string) : nat :=
  length (filter (λ i, word_start (Text.chars s) i = true)
            (seq 0 (length (Text.chars s)))).

(** The text of a cell once the empty text stands for a missing cell. *)
Definition text_or_empty (v : value) (s : string) : Prop :=
  v = VStr s ∨ v = VNull ∧ s = "".

(** The text cells of a column are within ASCII. *)
Definition ascii_cells (s : list value) : bool :=
  forallb (λ v, match v with VStr t => ascii_text t | _ => true end) s.

(** The text cells of the columns [cols] of a table are within ASCII. *)
Definition ascii_columns (cols : list string) (d : DataFrame) : bool :=
  forallb (λ c, ascii_cells (column d c)) cols.

(** A table whose titles hold words and none of whose dates can be read. *)
Definition frame_undated : DataFrame :=
  MkFrame 2
    [("title", [VStr "Masks"; VStr "Vaccines"]);
     ("abstract", [VStr "Masks work."; VNull]);
     ("publish_time", [VStr "n/a"; VNull]);
     ("journal", [VStr "BMJ"; VNull])].

(** A working directory whose metadata.csv holds that table. *)
Definition world_undated : world :=
  World [] {["metadata.csv" := CsvFile frame_undated]} [].

(** * Properties *)

(** ** Sorting *)

Section SortingFacts.
Context {A : Type} (le : A → A → bool).
Implicit Types (x : A) (l : list A).

Lemma insert_sorted_perm x l : Sorting.insert_sorted le x l ≡ₚ x :: l.
Proof.
  induction l as [|y l IH]; simpl; [done|].
  destruct (le y x); [|done].
  rewrite IH. apply Permutation_swap.
Qed.

Lemma sort_perm l : Sorting.sort le l ≡ₚ l.
Proof.
  unfold Sorting.sort. transitivity (rev l); [|by rewrite <- Permutation_rev].
  induction (rev l) as [|x l' IH]; simpl; [done|].
  by rewrite insert_sorted_perm, IH.
Qed.

Hypothesis le_total : ∀ a b, le a b = false → le b a = true.

Lemma insert_sorted_HdRel a x l :
  le a x = true → HdRel (λ p q, le p q = true) a l →
  HdRel (λ p q, le p q = true) a (Sorting.insert_sorted le x l).
Proof.
  intros Hax Hal. destruct l as [|y l]; simpl; [by constructor|].
  destruct (le y x); constructor; [|done].
  by inversion Hal.
Qed.

Lemma insert_sorted_Sorted x l :
  Sorted (λ p q, le p q = true) l →
  Sorted (λ p q, le p q = true) (Sorting.insert_sorted le x l).
Proof.
  induction 1 as [|y l Hl IH Hhd]; simpl; [by repeat constructor|].
  destruct (le y x) eqn:Hyx.
  - constructor; [done|]. by apply insert_sorted_HdRel.
  - constructor; [by constructor|]. constructor. by apply le_total.
Qed.

Lemma sort_Sorted l : Sorted (λ p q, le p q = true) (Sorting.sort le l).
Proof.
  unfold Sorting.sort. induction (rev l) as [|x l' IH]; simpl; [constructor|].
  by apply insert_sorted_Sorted.
Qed.
End SortingFacts.

Lemma Sorted_weaken {A} (R R' : A → A → Prop) (l : list A) :
  (∀ x y, R x y → R' x y) → Sorted R l → Sorted R' l.
Proof.
  intros HR. induction 1 as [|x l Hl IH Hhd]; constructor; [done|].
  destruct Hhd; constructor; auto.
Qed.

Lemma Sorted_take_prefix {A} (R : A → A → Prop) (n : nat) (l : list A) :
  Sorted R l → Sorted R (take n l).
Proof.
  intros Hl. revert n. induction Hl as [|x l Hl IH Hhd]; intros [|n]; simpl;
    try constructor; [apply IH|].
  destruct Hhd; destruct n; simpl; by constructor.
Qed.

(** ** Counting *)

Section CountingFacts.
Context {K : Type} `{EqDecision K}.
Implicit Types (k : K) (l : list K) (acc : list (K * nat)).

Lemma total_bump k acc : Counting.total (Counting.bump k acc) = S (Counting.total acc).
Proof.
  unfold Counting.total. induction acc as [|[k' n] acc IH]; csimpl; [done|].
  case_decide; csimpl; [done|]. rewrite IH. lia.
Qed.

Lemma total_tally_from acc l :
  Counting.total (foldl (λ a k, Counting.bump k a) acc l) = Counting.total acc + length l.
Proof.
  revert acc. induction l as [|k l IH]; intros acc; csimpl; [lia|].
  rewrite IH, total_bump. lia.
Qed.

(** The counts of a tally add up to the number of things counted. *)
Lemma total_tally l : Counting.total (Counting.tally l) = length l.
Proof. unfold Counting.tally. by rewrite total_tally_from. Qed.

Lemma total_perm acc acc' : acc ≡ₚ acc' → Counting.total acc = Counting.total acc'.
Proof. intros Hp. unfold Counting.total. by rewrite Hp. Qed.

Lemma total_by_count_desc acc : Counting.total (Counting.by_count_desc acc) = Counting.total acc.
Proof. apply total_perm, sort_perm. Qed.

Lemma keys_bump k acc k' :
  k' ∈ (Counting.bump k acc).*1 ↔ k' = k ∨ k' ∈ acc.*1.
Proof.
  induction acc as [|[k0 n] acc IH]; csimpl.
  - set_solver.
  - case_decide; csimpl; set_solver.
Qed.

Lemma keys_tally_from acc l k :
  k ∈ (foldl (λ a k, Counting.bump k a) acc l).*1 ↔ k ∈ acc.*1 ∨ k ∈ l.
Proof.
  revert acc. induction l as [|k0 l IH]; intros acc; csimpl.
  - set_solver.
  - rewrite IH, keys_bump. set_solver.
Qed.

(** The keys of a tally are the things counted. *)
Lemma keys_tally l k : k ∈ (Counting.tally l).*1 ↔ k ∈ l.
Proof. unfold Counting.tally. rewrite keys_tally_from. set_solver. Qed.

Lemma NoDup_bump k acc : NoDup acc.*1 → NoDup (Counting.bump k acc).*1.
Proof.
  induction acc as [|[k0 n] acc IH]; csimpl; intros Hnd.
  - apply NoDup_singleton.
  - inversion_clear Hnd as [|?? Hnotin Hnd'].
    case_decide; csimpl; constructor; auto.
    rewrite keys_bump. naive_solver.
Qed.

Lemma NoDup_tally l : NoDup (Counting.tally l).*1.
Proof.
  unfold Counting.tally. generalize (NoDup_nil_2 (A:=K)).
  change (@nil K) with (([] : list (K * nat)).*1).
  generalize ([] : list (K * nat)).
  induction l as [|k l IH]; intros acc Hacc; csimpl; [done|].
  apply IH. by apply NoDup_bump.
Qed.

Lemma get_Some_elem k n acc : Counting.get k acc = Some n → (k, n) ∈ acc.
Proof.
  induction acc as [|[k0 m] acc IH]; csimpl; [done|].
  case_decide; [intros [= ->]; subst; left | intros; right; auto].
Qed.

Lemma elem_get_Some k n acc : NoDup acc.*1 → (k, n) ∈ acc → Counting.get k acc = Some n.
Proof.
  induction acc as [|[k0 m] acc IH]; csimpl; intros Hnd Hin; [by inversion Hin|].
  inversion_clear Hnd as [|?? Hnotin Hnd'].
  apply elem_of_cons in Hin as [[= -> ->]|Hin].
  - by rewrite decide_True.
  - rewrite decide_False; [auto|]. intros ->. apply Hnotin.
    change k with (k, n).1. by apply list_elem_of_fmap_2.
Qed.

Lemma get_perm k acc acc' :
  NoDup acc.*1 → acc ≡ₚ acc' → Counting.get k acc' = Counting.get k acc.
Proof.
  intros Hnd Hp.
  assert (NoDup acc'.*1) as Hnd' by by rewrite <- Hp.
  destruct (Counting.get k acc) as [n|] eqn:Hg.
  - apply elem_get_Some; [done|]. rewrite <- Hp. by apply get_Some_elem.
  - destruct (Counting.get k acc') as [n|] eqn:Hg'; [|done].
    apply get_Some_elem in Hg'. rewrite <- Hp in Hg'.
    apply elem_get_Some in Hg'; [congruence|done].
Qed.

Lemma get_bump k k' acc :
  Counting.get k' (Counting.bump k acc) =
  if decide (k = k') then Some (S (default 0 (Counting.get k' acc))) else Counting.get k' acc.
Proof.
  induction acc as [|[k0 n] acc IH]; csimpl.
  - repeat case_decide; congruence.
  - repeat (case_decide; csimpl; subst); try congruence;
      rewrite IH; by repeat case_decide.
Qed.

Lemma get_tally_from acc l k :
  default 0 (Counting.get k (foldl (λ a k, Counting.bump k a) acc l)) =
  default 0 (Counting.get k acc) + length (filter (λ x, x = k) l).
Proof.
  revert acc. induction l as [|k0 l IH]; intros acc; csimpl; [lia|].
  rewrite IH, get_bump, filter_cons.
  repeat case_decide; csimpl; subst; try congruence; lia.
Qed.

(** The count kept for a key is the number of its occurrences. *)
Lemma get_tally l k :
  default 0 (Counting.get k (Counting.tally l)) = length (filter (λ x, x = k) l).
Proof. unfold Counting.tally. by rewrite get_tally_from. Qed.

Lemma by_count_desc_Sorted acc :
  Sorted (λ p q, q.2 ≤ p.2) (Counting.by_count_desc acc).
Proof.
  unfold Counting.by_count_desc.
  eapply Sorted_weaken; [|apply sort_Sorted].
  - intros p q Hle. by apply Nat.leb_le in Hle.
  - intros p q Hle. apply Nat.leb_gt in Hle. apply Nat.leb_le. lia.
Qed.
End CountingFacts.

(** ** Lists *)

Lemma filter_iff_on {A} (P1 P2 : A → Prop) `{∀ x, Decision (P1 x)} `{∀ x, Decision (P2 x)}
    (l : list A) :
  (∀ x, x ∈ l → P1 x ↔ P2 x) → filter P1 l = filter P2 l.
Proof.
  induction l as [|x l IH]; intros Hl; [done|].
  rewrite !filter_cons. rewrite IH by (intros y Hy; apply Hl; by right).
  destruct (decide (P1 x)) as [H1|H1], (decide (P2 x)) as [H2|H2]; try done;
    apply Hl in H1 || apply Hl in H2; done || left.
Qed.

Lemma length_filter_fmap {A B} (P : B → Prop) `{∀ x, Decision (P x)} (f : A → B) (l : list A) :
  length (filter P (f <$> l)) = length (filter (λ x, P (f x)) l).
Proof.
  induction l as [|x l IH]; [done|]. csimpl. rewrite !filter_cons.
  destruct (decide (P (f x))); simpl; by rewrite IH.
Qed.

Lemma length_filter_cons {A} (f : A → bool) (x : A) (l : list A) :
  length (filter (λ i, f i = true) (x :: l)) =
  (if f x then 1 else 0) + length (filter (λ i, f i = true) l).
Proof. rewrite filter_cons. destruct (f x); by simpl. Qed.


(** ** Strings *)

Lemma chars_text l : Text.chars (Text.text l) = l.
Proof. apply list_ascii_of_string_of_list_ascii. Qed.

Lemma text_chars s : Text.text (Text.chars s) = s.
Proof. apply string_of_list_ascii_of_string. Qed.

Lemma is_alpha_to_lower c : Text.is_alpha (Text.to_lower c) = Text.is_alpha c.
Proof. by destruct c as [[] [] [] [] [] [] [] []]. Qed.

Lemma to_lower_idem c : Text.to_lower (Text.to_lower c) = Text.to_lower c.
Proof. by destruct c as [[] [] [] [] [] [] [] []]. Qed.









Lemma chars_app a b : Text.chars (a +:+ b) = Text.chars a ++ Text.chars b.
Proof. induction a as [|c a IH]; simpl; [done|]. by rewrite IH. Qed.

Lemma is_alpha_to_upper c : Text.is_alpha (Text.to_upper c) = Text.is_alpha c.
Proof. by destruct c as [[] [] [] [] [] [] [] []]. Qed.

Lemma to_upper_idem c : Text.to_upper (Text.to_upper c) = Text.to_upper c.
Proof. by destruct c as [[] [] [] [] [] [] [] []]. Qed.

Lemma alpha_not_space c : Text.is_alpha c = true → Text.is_space c = false.
Proof. by destruct c as [[] [] [] [] [] [] [] []]. Qed.

(** Title-casing a title-cased text changes nothing. *)
Lemma title_chars_idem b l : Text.title_chars b (Text.title_chars b l) = Text.title_chars b l.
Proof.
  revert b. induction l as [|c l IH]; intros b; [done|]. simpl.
  destruct (Text.is_alpha c) eqn:Hc; simpl.
  - destruct b; rewrite ?is_alpha_to_lower, ?is_alpha_to_upper, Hc,
      ?to_lower_idem, ?to_upper_idem, IH; done.
  - by rewrite Hc, IH.
Qed.

(** Title-casing keeps blanks where they are. *)
Lemma title_chars_spaces b l :
  map Text.is_space (Text.title_chars b l) = map Text.is_space l.
Proof.
  revert b. induction l as [|c l IH]; intros b; [done|]. simpl.
  destruct (Text.is_alpha c) eqn:Hc; simpl; rewrite IH; [|done].
  f_equal. rewrite (alpha_not_space c Hc).
  apply alpha_not_space. destruct b; by rewrite ?is_alpha_to_lower, ?is_alpha_to_upper.
Qed.

Lemma lstrip_no_leading_blank l :
  head (map Text.is_space l) ≠ Some true → Text.lstrip_chars l = l.
Proof. destruct l as [|c l]; [done|]. simpl. by destruct (Text.is_space c). Qed.

Lemma lstrip_leading l : head (map Text.is_space (Text.lstrip_chars l)) ≠ Some true.
Proof.
  induction l as [|c l IH]; [done|]. simpl.
  destruct (Text.is_space c) eqn:Hc; [done|]. simpl. by rewrite Hc.
Qed.

Lemma lstrip_suffix l : ∃ pre, l = pre ++ Text.lstrip_chars l.
Proof.
  induction l as [|c l [pre IH]]; [by exists []|]. simpl.
  destruct (Text.is_space c); [|by exists []].
  exists (c :: pre). simpl. by rewrite <- IH.
Qed.

Lemma lstrip_trailing l :
  head (map Text.is_space (rev l)) ≠ Some true →
  head (map Text.is_space (rev (Text.lstrip_chars l))) ≠ Some true.
Proof.
  destruct (lstrip_suffix l) as [pre Hl]. intros Hlast.
  rewrite Hl, rev_app_distr in Hlast.
  destruct (rev (Text.lstrip_chars l)) as [|x xs]; [done|]. exact Hlast.
Qed.

Lemma strip_unpadded l :
  head (map Text.is_space l) ≠ Some true →
  head (map Text.is_space (rev l)) ≠ Some true →
  Text.strip_chars l = l.
Proof.
  intros Hfirst Hlast. unfold Text.strip_chars.
  rewrite (lstrip_no_leading_blank l), (lstrip_no_leading_blank (rev l)) by done.
  apply rev_involutive.
Qed.

Lemma strip_chars_unpadded l :
  head (map Text.is_space (Text.strip_chars l)) ≠ Some true ∧
  head (map Text.is_space (rev (Text.strip_chars l))) ≠ Some true.
Proof.
  unfold Text.strip_chars. split.
  - apply lstrip_trailing. rewrite rev_involutive. apply lstrip_leading.
  - rewrite rev_involutive. apply lstrip_leading.
Qed.

(** The normal form of a name is its own normal form. *)
Lemma title_strip_idem s :
  Text.title (Text.strip (Text.title (Text.strip s))) = Text.title (Text.strip s).
Proof.
  unfold Text.title, Text.strip. rewrite !chars_text. f_equal.
  destruct (strip_chars_unpadded (Text.chars s)) as [Hfirst Hlast].
  rewrite strip_unpadded.
  - apply title_chars_idem.
  - by rewrite title_chars_spaces.
  - by rewrite map_rev, title_chars_spaces, <- map_rev.
Qed.

Lemma is_space_decide c : Text.is_space c = bool_decide (blank c).
Proof. destruct c as [[] [] [] [] [] [] [] []]; vm_compute; reflexivity. Qed.

Lemma is_space_blank c : Text.is_space c = true ↔ blank c.
Proof. rewrite is_space_decide. apply bool_decide_eq_true. Qed.

























(** The words [split] finds after the character [x]: one for the word that
    is being read, if any, and one for every word that starts later. *)
Lemma split_chars_length l x cur :
  (Text.is_space x = true → cur = []) → (Text.is_space x = false → cur ≠ []) →
  length (Text.split_chars cur l) =
  (if Text.is_space x then 0 else 1) +
  length (filter (λ i, word_start (x :: l) (S i) = true) (seq 0 (length l))).
Proof.
  revert x cur. induction l as [|c l IH]; intros x cur Hblank Hword.
  - simpl. destruct (Text.is_space x).
    + by rewrite Hblank.
    + destruct cur; [by destruct Hword|done].
  - cbn [length seq]. rewrite <- fmap_S_seq, length_filter_cons, length_filter_fmap.
    change (λ i, word_start (x :: c :: l) (S (S i)) = true)
      with (λ i, word_start (c :: l) (S i) = true).
    unfold word_start at 1. cbn [lookup list_lookup from_option].
    rewrite <- (is_space_decide c), <- (is_space_decide x). simpl Text.split_chars.
    destruct (Text.is_space c) eqn:Hc.
    + simpl negb. simpl andb.
      pose proof (IH c [] ltac:(done) ltac:(congruence)) as Hrest. rewrite Hc in Hrest.
      destruct (Text.is_space x).
      * by rewrite Hblank.
      * destruct cur; [by destruct Hword|]. simpl. by rewrite Hrest.
    + pose proof (IH c (c :: cur) ltac:(congruence) ltac:(done)) as Hrest.
      rewrite Hc in Hrest. rewrite Hrest. simpl negb. simpl andb.
      by destruct (Text.is_space x).
Qed.

(** [split] finds as many words as there are places where a word starts. *)
Lemma length_split s : length (Text.split s) = number_of_words s.
Proof.
  unfold Text.split, number_of_words. rewrite length_map.
  destruct (Text.chars s) as [|c l]; [done|].
  cbn [length seq].
  rewrite <- fmap_S_seq, (length_filter_cons (word_start (c :: l))), length_filter_fmap.
  unfold word_start at 1. cbn [lookup list_lookup]. rewrite <- (is_space_decide c).
  simpl Text.split_chars. destruct (Text.is_space c) eqn:Hc.
  - simpl negb. simpl andb.
    rewrite (split_chars_length l c []) by (done || congruence). by rewrite Hc.
  - simpl negb. simpl andb.
    rewrite (split_chars_length l c [c]) by (done || congruence). by rewrite Hc.
Qed.

Lemma split_chars_nil cur l :
  Text.split_chars cur l = [] ↔ cur = [] ∧ Forall blank l.
Proof.
  revert cur. induction l as [|c l IH]; intros cur; simpl.
  - destruct cur; split; try done. by intros [[=] _].
  - destruct (Text.is_space c) eqn:Hc.
    + destruct cur.
      * rewrite IH, Forall_cons. apply is_space_blank in Hc. naive_solver.
      * split; [done|]. by intros [[=] _].
    + rewrite IH. split; [by intros [[=] _]|].
      intros [_ [Hb%is_space_blank _]%Forall_cons]. congruence.
Qed.

(** [split] finds a word exactly when some character is not whitespace. *)
Lemma split_some_word s :
  0 < length (Text.split s) ↔ Exists (λ c, ¬ blank c) (Text.chars s).
Proof.
  unfold Text.split. rewrite length_map.
  destruct (Text.split_chars [] (Text.chars s)) eqn:Hs.
  - apply split_chars_nil in Hs as [_ Hs]. simpl. split; [lia|].
    intros Hex. apply (Exists_not_Forall blank) in Hex. by destruct Hex.
  - simpl. split; [|lia]. intros _. apply (not_Forall_Exists blank).
    intros Hall. assert (Text.split_chars [] (Text.chars s) = []) as Hnil
      by (by apply split_chars_nil). congruence.
Qed.

(** ** Columns *)

Lemma length_fillna v s : length (Series.fillna v s) = length s.
Proof. apply length_map. Qed.

Lemma null_count_zero s :
  Series.null_count s = 0 ↔ Forall (λ v, v ≠ VNull) s.
Proof.
  unfold Series.null_count. induction s as [|v s IH]; simpl; [done|].
  rewrite filter_cons, Forall_cons. destruct v; simpl; rewrite <- ?IH; naive_solver.
Qed.

(** Filling with a value that is not missing leaves nothing missing. *)
Lemma fillna_no_null v s : v ≠ VNull → Series.null_count (Series.fillna v s) = 0.
Proof.
  intros Hv. apply null_count_zero. apply Forall_forall.
  intros x (y & -> & _)%list_elem_of_fmap_1. by destruct y.
Qed.

Lemma fillna_lookup v s i :
  Series.fillna v s !! i = (λ x, if Series.isnull x then v else x) <$> s !! i.
Proof. apply list_lookup_fmap. Qed.

Lemma dropna_no_null s : Series.null_count s = 0 → Series.dropna s = s.
Proof.
  rewrite null_count_zero. unfold Series.dropna.
  induction 1 as [|v s Hv Hs IH]; [done|].
  rewrite filter_cons, IH. by destruct v.
Qed.

Lemma traverse_total {A B} (f : A → result B) (g : A → B) (l : list A) :
  Forall (λ x, f x = Ok (g x)) l → Series.traverse f l = Ok (map g l).
Proof. induction 1 as [|x l Hx Hl IH]; simpl; [done|]. by rewrite Hx, IH. Qed.

Lemma traverse_length {A B} (f : A → result B) (l : list A) (l' : list B) :
  Series.traverse f l = Ok l' → length l' = length l.
Proof.
  revert l'. induction l as [|x l IH]; simpl; intros l'; [by intros [= <-]|].
  destruct (f x); [|done]. destruct (Series.traverse f l); [|done].
  intros [= <-]. simpl. f_equal. by apply IH.
Qed.

Section ReaderFacts.
Variable read : Pandas.date_reader.

Lemma length_to_datetime s : length (Pandas.to_datetime read s) = length s.
Proof. apply length_map. Qed.

Lemma to_datetime_cells s :
  Forall (λ v, v = VNull ∨ ∃ t, v = VTime t) (Pandas.to_datetime read s).
Proof.
  apply Forall_forall. intros v (x & -> & _)%list_elem_of_fmap_1.
  destruct (read s x); eauto.
Qed.

(** The [.dt] accessor is accepted on what [to_datetime] gives. *)
Lemma dt_year_to_datetime s :
  Series.dt_year_accessor (Pandas.to_datetime read s) =
  Ok (map year_cell (Pandas.to_datetime read s)).
Proof.
  apply traverse_total. eapply Forall_impl; [apply to_datetime_cells|].
  by intros v [->|[t ->]].
Qed.

(** Once the missing years are filled, the cast to integers goes through. *)
Lemma astype_int_years s :
  Series.astype_int (Series.fillna (VInt 2020) (map year_cell (Pandas.to_datetime read s))) =
  Ok (map year_or_2020 (Pandas.to_datetime read s)).
Proof.
  unfold Series.astype_int, Series.fillna. rewrite map_map.
  rewrite <- (map_id (map year_or_2020 _)), map_map.
  induction (Pandas.to_datetime read s) as [|v l IH]; simpl; [done|].
  rewrite IH. by destruct v.
Qed.
End ReaderFacts.

Lemma gt_zero_word_counts s :
  Series.traverse Series.gt_zero (map Series.word_count s) = Ok (map has_words s).
Proof.
  induction s as [|v s IH]; simpl; [done|]. rewrite IH.
  unfold has_words. do 3 f_equal. apply bool_decide_ext. lia.
Qed.

(** ** Tables *)

Lemma lookup_col_assign_eq c s l : Frame.lookup_col c (Frame.assign_col c s l) = Some s.
Proof.
  induction l as [|[c' s'] l IH]; simpl.
  - by rewrite decide_True.
  - case_decide; simpl; [by rewrite decide_True|by rewrite decide_False].
Qed.

Lemma lookup_col_assign_ne c c' s l :
  c ≠ c' → Frame.lookup_col c' (Frame.assign_col c s l) = Frame.lookup_col c' l.
Proof.
  intros Hne. induction l as [|[c0 s0] l IH]; simpl.
  - by rewrite decide_False.
  - case_decide; simpl; subst.
    + by rewrite !decide_False.
    + case_decide; [done|apply IH].
Qed.

Lemma getitem_setitem_eq d c s : Frame.getitem (Frame.setitem d c s) c = Some s.
Proof. apply lookup_col_assign_eq. Qed.

Lemma getitem_setitem_ne d c c' s :
  c ≠ c' → Frame.getitem (Frame.setitem d c s) c' = Frame.getitem d c'.
Proof. apply lookup_col_assign_ne. Qed.

Lemma getitem_setitem d c c' s :
  Frame.getitem (Frame.setitem d c s) c' =
  if decide (c = c') then Some s else Frame.getitem d c'.
Proof.
  case_decide; subst; [apply getitem_setitem_eq|by apply getitem_setitem_ne].
Qed.

Lemma assign_col_twice c s s' l :
  Frame.assign_col c s' (Frame.assign_col c s l) = Frame.assign_col c s' l.
Proof.
  induction l as [|[c0 s0] l IH]; simpl; [by rewrite decide_True|].
  case_decide; simpl; [by rewrite decide_True|].
  rewrite decide_False by done. by rewrite IH.
Qed.

(** Assigning a column twice keeps the second assignment. *)
Lemma setitem_twice d c s s' :
  Frame.setitem (Frame.setitem d c s) c s' = Frame.setitem d c s'.
Proof. unfold Frame.setitem. simpl. by rewrite assign_col_twice. Qed.

Lemma lookup_col_Some c l : c ∈ l.*1 ↔ is_Some (Frame.lookup_col c l).
Proof.
  induction l as [|[c' s'] l IH]; csimpl.
  - split; [by intros ?%elem_of_nil|by intros [? ?]].
  - case_decide; subst.
    + split; [eauto|left].
    + rewrite elem_of_cons, <- IH. naive_solver.
Qed.

Lemma contains_Some d c s :
  Frame.getitem d c = Some s → bool_decide (c ∈ Frame.columns d) = true.
Proof.
  intros Hs. apply bool_decide_eq_true, lookup_col_Some.
  unfold Frame.getitem in Hs. by rewrite Hs.
Qed.

Lemma contains_None d c :
  Frame.getitem d c = None → bool_decide (c ∈ Frame.columns d) = false.
Proof.
  intros Hs. apply bool_decide_eq_false. unfold Frame.columns.
  rewrite lookup_col_Some.
  unfold Frame.getitem in Hs. rewrite Hs. by intros [? ?].
Qed.

Lemma wf_setitem d c s :
  Frame.wf d → length s = index_len d → Frame.wf (Frame.setitem d c s).
Proof.
  unfold Frame.wf. destruct d as [n l]; simpl. intros Hwf Hs.
  induction Hwf as [|[c' s'] l Hc Hl IH]; simpl.
  - by repeat constructor.
  - case_decide; constructor; auto.
Qed.

Lemma wf_getitem d c s : Frame.wf d → Frame.getitem d c = Some s → length s = index_len d.
Proof.
  unfold Frame.wf, Frame.getitem. destruct d as [n l]; simpl.
  induction 1 as [|[c' s'] l Hc Hl IH]; simpl; [done|].
  case_decide; [by intros [= <-]|auto].
Qed.

Lemma length_broadcast d v : length (Frame.broadcast d v) = index_len d.
Proof. apply length_replicate. Qed.

(** ** Rules for runs *)

Section Rules.
Context {A : Type}.
Implicit Types (Q : A → world → Prop) (E : exn → world → Prop).

Lemma wp_ret a Q E w : Q a w → wp (ret a) Q E w.
Proof. done. Qed.

Lemma wp_raise e Q E w : E e w → wp (raise e) Q E w.
Proof. done. Qed.

Lemma wp_lift r Q E w :
  match r with Ok a => Q a w | Raise e => E e w end → wp (lift r) Q E w.
Proof. unfold wp, lift. by destruct r. Qed.

Lemma wp_bind {B} (m : M B) (k : B → M A) Q E w :
  wp m (λ b w', wp (k b) Q E w') E w → wp (m' <- m;; k m') Q E w.
Proof. unfold wp, bind. by destruct (m w) as [[b|e] w']. Qed.

Lemma wp_mono (m : M A) Q Q' E E' w :
  wp m Q E w → (∀ a w', Q a w' → Q' a w') → (∀ e w', E e w' → E' e w') →
  wp m Q' E' w.
Proof. unfold wp. destruct (m w) as [[a|e] w']; auto. Qed.

Lemma wp_run (m : M A) Q E w :
  wp m Q E w ↔
  (∃ a w', m w = (Ok a, w') ∧ Q a w') ∨ (∃ e w', m w = (Raise e, w') ∧ E e w').
Proof.
  unfold wp. destruct (m w) as [[a|e] w'].
  - split; [eauto|]. by intros [(? & ? & [= <- <-] & ?)|(? & ? & [=] & ?)].
  - split; [eauto 6|]. by intros [(? & ? & [=] & ?)|(? & ? & [= <- <-] & ?)].
Qed.
End Rules.

Lemma top_lookup h fs d w : top h fs d w → heap w !! length h = Some d.
Proof. intros [-> _]. by apply list_lookup_middle. Qed.

Lemma top_store h fs d d' w :
  top h fs d w → top h fs d' (World (<[length h := d']> (heap w)) (files w) (stdout w)).
Proof.
  intros [Hh Hf]. split; [|done]. simpl. rewrite Hh.
  by rewrite insert_app_r_alt, Nat.sub_diag by done.
Qed.

Section TopRules.
Context (h : list DataFrame) (fs : gmap string file).
Implicit Types (d : DataFrame) (w : world) (E : exn → world → Prop).

Lemma wp_print t a d (Q : unit → world → Prop) E w :
  top h fs d w → (∀ w', top h fs d w' → Q () w') → wp (print t a) Q E w.
Proof. intros Hw HQ. apply HQ. destruct Hw. by split. Qed.

Lemma wp_columns d (Q : list string → world → Prop) E w :
  top h fs d w → Q (Frame.columns d) w → wp (df_columns (length h)) Q E w.
Proof.
  intros Hw HQ. unfold wp, df_columns, bind, deref, ret.
  by rewrite (top_lookup _ _ _ _ Hw).
Qed.

Lemma wp_shape d (Q : nat * nat → world → Prop) E w :
  top h fs d w → Q (Frame.shape d) w → wp (df_shape (length h)) Q E w.
Proof.
  intros Hw HQ. unfold wp, df_shape, bind, deref, ret.
  by rewrite (top_lookup _ _ _ _ Hw).
Qed.

Lemma wp_getitem d c (Q : list value → world → Prop) E w :
  top h fs d w →
  match Frame.getitem d c with
  | Some s => Q s w
  | None => E (KeyError c) w
  end →
  wp (df_getitem (length h) c) Q E w.
Proof.
  intros Hw HQ. unfold wp, df_getitem, bind, deref.
  rewrite (top_lookup _ _ _ _ Hw). by destruct (Frame.getitem d c).
Qed.

Lemma wp_setitem d c s (Q : unit → world → Prop) E w :
  top h fs d w →
  (∀ w', top h fs (Frame.setitem d c s) w' → Q () w') →
  wp (df_setitem (length h) c s) Q E w.
Proof.
  intros Hw HQ. unfold wp, df_setitem, bind, deref, store.
  rewrite (top_lookup _ _ _ _ Hw). by eapply HQ, top_store.
Qed.

Lemma wp_setitem_scalar d c v (Q : unit → world → Prop) E w :
  top h fs d w →
  (∀ w', top h fs (Frame.setitem d c (Frame.broadcast d v)) w' → Q () w') →
  wp (df_setitem_scalar (length h) c v) Q E w.
Proof.
  intros Hw HQ. unfold wp, df_setitem_scalar, bind, deref, store.
  rewrite (top_lookup _ _ _ _ Hw). by eapply HQ, top_store.
Qed.

Lemma wp_select d cols (Q : loc → world → Prop) E w :
  top h fs d w →
  match Frame.select d cols with
  | Ok d' => ∀ w', top (h ++ [d]) fs d' w' → Q (length (h ++ [d])) w'
  | Raise e => E e w
  end →
  wp (df_select (length h) cols) Q E w.
Proof.
  intros Hw HQ. unfold wp, df_select, bind, deref, lift, alloc.
  rewrite (top_lookup _ _ _ _ Hw). destruct (Frame.select d cols) as [d'|e]; [|done].
  destruct Hw as [Hh Hf]. simpl. rewrite Hh. apply HQ. by split.
Qed.

(** Filling a column that may not be there: the three guarded blocks of
    src/main.py. *)
Lemma wp_fill_block d c v (Q : unit → world → Prop) E w :
  top h fs d w →
  (∀ w', top h fs (fill c v d) w' → Q () w') →
  wp (if bool_decide (c ∈ Frame.columns d)
      then s <- df_getitem (length h) c;;
           df_setitem (length h) c (Series.fillna v s)
      else df_setitem_scalar (length h) c v) Q E w.
Proof.
  intros Hw HQ. unfold fill in HQ. destruct (Frame.getitem d c) as [s|] eqn:Hc.
  - rewrite (contains_Some _ _ _ Hc).
    eapply wp_bind, wp_getitem; [done|]. rewrite Hc.
    by eapply wp_setitem.
  - rewrite (contains_None _ _ Hc). by eapply wp_setitem_scalar.
Qed.
End TopRules.

Lemma wp_copy r d (Q : loc → world → Prop) E w :
  heap w !! r = Some d →
  (∀ w', top (heap w) (files w) d w' → Q (length (heap w)) w') →
  wp (df_copy r) Q E w.
Proof.
  intros Hr HQ. unfold wp, df_copy, bind, deref, alloc. rewrite Hr.
  by apply HQ.
Qed.

(** ** The cleaner of src/main.py *)

Lemma getitem_fill_eq c v d : is_Some (Frame.getitem (fill c v d) c).
Proof. unfold fill. rewrite getitem_setitem_eq. eauto. Qed.

Lemma getitem_fill_ne c c' v d :
  c ≠ c' → Frame.getitem (fill c v d) c' = Frame.getitem d c'.
Proof. apply getitem_setitem_ne. Qed.

Section SrcMainRun.
Variable read : Pandas.date_reader.

Lemma getitem_with_year_ne d c :
  c ≠ "publish_time" → c ≠ "year" →
  Frame.getitem (SrcMainSpec.with_year read d) c = Frame.getitem d c.
Proof.
  intros H1 H2. unfold SrcMainSpec.with_year.
  destruct (Frame.getitem d "publish_time");
    by rewrite ?getitem_setitem_ne by done.
Qed.

Lemma wp_year_block h fs d (Q : unit → world → Prop) E w :
  top h fs d w →
  (∀ w', top h fs (SrcMainSpec.with_year read d) w' → Q () w') →
  wp (if bool_decide ("publish_time" ∈ Frame.columns d)
      then publish_time <- df_getitem (length h) "publish_time";;
           df_setitem (length h) "publish_time" (Pandas.to_datetime read publish_time);;
           publish_time <- df_getitem (length h) "publish_time";;
           year <- lift (Series.dt_year_accessor publish_time);;
           df_setitem (length h) "year" year;;
           year <- df_getitem (length h) "year";;
           year <- lift (Series.astype_int (Series.fillna (VInt 2020) year));;
           df_setitem (length h) "year" year
      else df_setitem_scalar (length h) "year" (VInt 2020)) Q E w.
Proof.
  intros Hw HQ. unfold SrcMainSpec.with_year in HQ.
  destruct (Frame.getitem d "publish_time") as [p|] eqn:Hp.
  - rewrite (contains_Some _ _ _ Hp).
    eapply wp_bind, wp_getitem; [done|]. rewrite Hp.
    eapply wp_bind, wp_setitem; [done|]. clear w Hw. intros w Hw.
    eapply wp_bind, wp_getitem; [done|]. rewrite getitem_setitem_eq.
    eapply wp_bind, wp_lift. rewrite dt_year_to_datetime.
    eapply wp_bind, wp_setitem; [done|]. clear w Hw. intros w Hw.
    eapply wp_bind, wp_getitem; [done|]. rewrite getitem_setitem_eq.
    eapply wp_bind, wp_lift. rewrite astype_int_years.
    eapply wp_setitem; [done|]. clear w Hw. intros w Hw.
    apply HQ. by rewrite setitem_twice in Hw.
  - rewrite (contains_None _ _ Hp). by eapply wp_setitem_scalar.
Qed.

(** A run of the cleaner returns a fresh reference to the cleaned copy of
    its argument; it never raises. *)
Lemma src_clean_wp df d w :
  heap w !! df = Some d →
  wp (SrcMain.clean_and_prepare_data read df)
     (λ r w', r = length (heap w) ∧
              top (heap w) (files w) (SrcMainSpec.cleaned read d) w')
     (λ _ _, False) w.
Proof.
  intros Hdf. unfold SrcMain.clean_and_prepare_data.
  eapply wp_bind. unfold wp at 1, print. simpl.
  eapply wp_bind, wp_copy; [done|]. simpl. intros w1 Hw.
  eapply wp_bind, wp_columns; [done|].
  eapply wp_bind, wp_fill_block; [done|]. clear w1 Hw. intros w1 Hw.
  eapply wp_bind, wp_columns; [done|].
  eapply wp_bind, wp_fill_block; [done|]. clear w1 Hw. intros w1 Hw.
  eapply wp_bind, wp_columns; [done|].
  eapply wp_bind, wp_fill_block; [done|]. clear w1 Hw. intros w1 Hw.
  eapply wp_bind, wp_columns; [done|].
  eapply wp_bind, wp_year_block; [done|]. clear w1 Hw. intros w1 Hw.
  set (d4 := SrcMainSpec.with_year read _) in *.
  assert (is_Some (Frame.getitem d4 "abstract")) as [a Ha].
  { unfold d4. rewrite getitem_with_year_ne, getitem_fill_ne by done.
    apply getitem_fill_eq. }
  assert (is_Some (Frame.getitem d4 "title")) as [t Ht].
  { unfold d4. rewrite getitem_with_year_ne, !getitem_fill_ne by done.
    apply getitem_fill_eq. }
  eapply wp_bind, wp_getitem; [done|]. rewrite Ha.
  eapply wp_bind, wp_setitem; [done|]. clear w1 Hw. intros w1 Hw.
  eapply wp_bind, wp_getitem; [done|]. rewrite getitem_setitem_ne, Ht by done.
  eapply wp_bind, wp_setitem; [done|]. clear w1 Hw. intros w1 Hw.
  eapply wp_bind, wp_getitem; [done|].
  rewrite getitem_setitem_ne, getitem_setitem_eq by done.
  eapply wp_bind, wp_lift. rewrite gt_zero_word_counts.
  eapply wp_bind, wp_setitem; [done|]. clear w1 Hw. intros w1 Hw.
  eapply wp_bind, wp_shape; [done|].
  eapply wp_bind, wp_print; [done|]. clear w1 Hw. intros w1 Hw.
  apply wp_ret. split; [done|].
  unfold SrcMainSpec.cleaned, with_features, column. fold d4. by rewrite Ha, Ht.
Qed.
End SrcMainRun.

Ltac frame_simpl :=
  repeat (rewrite getitem_setitem_eq || rewrite getitem_setitem_ne by done).

Lemma getitem_with_features_ne d c :
  c ≠ "abstract_word_count" → c ≠ "title_word_count" → c ≠ "has_abstract" →
  Frame.getitem (with_features d) c = Frame.getitem d c.
Proof. intros. unfold with_features. by frame_simpl. Qed.

Lemma null_count_broadcast d v : v ≠ VNull → Series.null_count (Frame.broadcast d v) = 0.
Proof.
  intros Hv. apply null_count_zero. unfold Frame.broadcast.
  apply Forall_forall. by intros x ->%elem_of_replicate_inv.
Qed.

Lemma null_count_years l : Series.null_count (map year_or_2020 l) = 0.
Proof.
  apply null_count_zero, Forall_forall.
  intros x (y & -> & _)%list_elem_of_fmap_1. by destruct y.
Qed.

Ltac in_defaults := unfold text_defaults; rewrite !elem_of_cons; auto.

Section SrcMainCleaned.
Variable read : Pandas.date_reader.
Implicit Types d : DataFrame.

Lemma cleaned_index_len d : index_len (SrcMainSpec.cleaned read d) = index_len d.
Proof.
  unfold SrcMainSpec.cleaned, with_features, SrcMainSpec.with_year.
  by destruct (Frame.getitem _ "publish_time").
Qed.

Lemma cleaned_text_column d c v :
  (c, v) ∈ text_defaults →
  Frame.getitem (SrcMainSpec.cleaned read d) c =
  Some match Frame.getitem d c with
       | Some s => Series.fillna v s
       | None => Frame.broadcast d v
       end.
Proof.
  intros Hc. unfold SrcMainSpec.cleaned. unfold text_defaults in Hc.
  rewrite !elem_of_cons, elem_of_nil in Hc.
  destruct Hc as [[= -> ->]|[[= -> ->]|[[= -> ->]|[]]]];
    rewrite getitem_with_features_ne, getitem_with_year_ne by done;
    unfold fill; by frame_simpl.
Qed.

Lemma cleaned_year d :
  Frame.getitem (SrcMainSpec.cleaned read d) "year" =
  Some match Frame.getitem d "publish_time" with
       | Some p => map year_or_2020 (Pandas.to_datetime read p)
       | None => Frame.broadcast d (VInt 2020)
       end.
Proof.
  unfold SrcMainSpec.cleaned. rewrite getitem_with_features_ne by done.
  unfold SrcMainSpec.with_year. rewrite !getitem_fill_ne by done.
  destruct (Frame.getitem d "publish_time"); by frame_simpl.
Qed.

Lemma cleaned_features d c :
  c ∈ ["abstract_word_count"; "title_word_count"; "has_abstract"] →
  is_Some (Frame.getitem (SrcMainSpec.cleaned read d) c).
Proof.
  intros Hc. unfold SrcMainSpec.cleaned, with_features.
  rewrite !elem_of_cons, elem_of_nil in Hc.
  destruct Hc as [->|[->|[->|[]]]]; frame_simpl; eauto.
Qed.

Lemma wf_fill c v d : Frame.wf d → Frame.wf (fill c v d).
Proof.
  intros Hwf. apply wf_setitem; [done|].
  destruct (Frame.getitem d c) as [s|] eqn:Hs.
  - rewrite length_fillna. by eapply wf_getitem.
  - apply length_broadcast.
Qed.

Lemma wf_with_year d : Frame.wf d → Frame.wf (SrcMainSpec.with_year read d).
Proof.
  intros Hwf. unfold SrcMainSpec.with_year.
  destruct (Frame.getitem d "publish_time") as [p|] eqn:Hp.
  - pose proof (wf_getitem _ _ _ Hwf Hp) as Hlen.
    apply wf_setitem; [apply wf_setitem; [done|]|];
      by rewrite ?length_map, length_to_datetime.
  - apply wf_setitem; [done|apply length_broadcast].
Qed.

Lemma column_length d c :
  Frame.wf d → is_Some (Frame.getitem d c) → length (column d c) = index_len d.
Proof. intros Hwf [s Hs]. unfold column. rewrite Hs. by eapply wf_getitem. Qed.

Lemma wf_with_features d :
  Frame.wf d → is_Some (Frame.getitem d "abstract") → is_Some (Frame.getitem d "title") →
  Frame.wf (with_features d).
Proof.
  intros Hwf Ha Ht. unfold with_features.
  repeat apply wf_setitem; try done; rewrite length_map; simpl; by apply column_length.
Qed.

(** Cleaning keeps one cell per row in every column. *)
Lemma cleaned_wf d : Frame.wf d → Frame.wf (SrcMainSpec.cleaned read d).
Proof.
  intros Hwf. unfold SrcMainSpec.cleaned. apply wf_with_features.
  - by apply wf_with_year; repeat apply wf_fill.
  - rewrite getitem_with_year_ne, getitem_fill_ne by done. apply getitem_fill_eq.
  - rewrite getitem_with_year_ne, !getitem_fill_ne by done. apply getitem_fill_eq.
Qed.

(** Nothing is missing from the four columns of a cleaned table. *)
Lemma cleaned_null_count d c :
  c ∈ ["title"; "abstract"; "journal"; "year"] →
  Frame.null_count (SrcMainSpec.cleaned read d) c = Some 0.
Proof.
  intros Hc. unfold Frame.null_count.
  rewrite !elem_of_cons, elem_of_nil in Hc.
  destruct Hc as [->|[->|[->|[->|[]]]]].
  - rewrite (cleaned_text_column _ "title" (VStr "Unknown Title")) by in_defaults.
    simpl. f_equal.
    destruct (Frame.getitem d "title");
      [by apply fillna_no_null|by apply null_count_broadcast].
  - rewrite (cleaned_text_column _ "abstract" (VStr "")) by in_defaults.
    simpl. f_equal.
    destruct (Frame.getitem d "abstract");
      [by apply fillna_no_null|by apply null_count_broadcast].
  - rewrite (cleaned_text_column _ "journal" (VStr "Unknown Journal")) by in_defaults.
    simpl. f_equal.
    destruct (Frame.getitem d "journal");
      [by apply fillna_no_null|by apply null_count_broadcast].
  - rewrite cleaned_year. simpl. f_equal.
    destruct (Frame.getitem d "publish_time");
      [apply null_count_years|by apply null_count_broadcast].
Qed.

(** Every year of a cleaned table is an integer. *)
Lemma cleaned_year_int d :
  ∃ y, Frame.getitem (SrcMainSpec.cleaned read d) "year" = Some y ∧
       Forall (λ v, ∃ n, v = VInt n) y.
Proof.
  eexists. split; [apply cleaned_year|].
  destruct (Frame.getitem d "publish_time").
  - apply Forall_forall. intros x (y & -> & _)%list_elem_of_fmap_1.
    destruct y; simpl; eauto.
  - apply Forall_forall. intros x ->%elem_of_replicate_inv. eauto.
Qed.
End SrcMainCleaned.

(** ** The cleaner of data_cleaning.py *)

Lemma select_available d cols :
  Frame.select d (filter (λ c, c ∈ Frame.columns d) cols) =
  Ok (DataCleaningSpec.restrict d cols).
Proof.
  unfold Frame.select, DataCleaningSpec.restrict.
  induction cols as [|c cols IH]; simpl; [done|].
  rewrite filter_cons. destruct (Frame.getitem d c) as [s|] eqn:Hc.
  - rewrite decide_True by (eapply bool_decide_eq_true_1, contains_Some; eauto).
    simpl. rewrite Hc.
    destruct (Series.traverse _ _) as [l|]; [|done]. by injection IH as ->.
  - rewrite decide_False; [done|].
    by eapply bool_decide_eq_false_1, contains_None.
Qed.

Section DataCleaningRun.
Variable read : Pandas.date_reader.

(** A run of the cleaner either raises, or returns a fresh reference to the
    cleaned table; the copy it made first stays in the store. *)
Lemma cleaning_wp df d w :
  heap w !! df = Some d →
  wp (DataCleaning.clean_and_prepare_data read df)
     (λ r w', ∃ d', DataCleaningSpec.cleaned read d = Ok d' ∧
                    r = S (length (heap w)) ∧
                    top (heap w ++ [d]) (files w) d' w')
     (λ e w', DataCleaningSpec.cleaned read d = Raise e ∧
              ∃ d', top (heap w ++ [d]) (files w) d' w') w.
Proof.
  intros Hdf. unfold DataCleaning.clean_and_prepare_data, DataCleaningSpec.cleaned.
  eapply wp_bind. unfold wp at 1, print. simpl.
  eapply wp_bind, wp_copy; [done|]. simpl. intros w1 Hw.
  eapply wp_bind, wp_print; [done|]. clear w1 Hw. intros w1 Hw.
  eapply wp_bind, wp_columns; [done|].
  eapply wp_bind, wp_select; [done|]. rewrite select_available.
  clear w1 Hw. intros w1 Hw.
  set (d0 := DataCleaningSpec.restrict d _) in *.
  eapply wp_bind, wp_getitem; [done|].
  destruct (Frame.getitem d0 "title") as [title|]; [|by eauto].
  eapply wp_bind, wp_setitem; [done|]. clear w1 Hw. intros w1 Hw.
  eapply wp_bind, wp_getitem; [done|]. frame_simpl.
  destruct (Frame.getitem d0 "abstract") as [abstract|]; [|by eauto].
  eapply wp_bind, wp_setitem; [done|]. clear w1 Hw. intros w1 Hw.
  eapply wp_bind, wp_print; [done|]. clear w1 Hw. intros w1 Hw.
  eapply wp_bind, wp_getitem; [done|]. frame_simpl.
  destruct (Frame.getitem d0 "publish_time") as [publish_time|]; [|by eauto].
  eapply wp_bind, wp_setitem; [done|]. clear w1 Hw. intros w1 Hw.
  eapply wp_bind, wp_getitem; [done|]. frame_simpl.
  eapply wp_bind, wp_lift. rewrite dt_year_to_datetime.
  eapply wp_bind, wp_setitem; [done|]. clear w1 Hw. intros w1 Hw.
  eapply wp_bind, wp_print; [done|]. clear w1 Hw. intros w1 Hw.
  eapply wp_bind, wp_getitem; [done|]. frame_simpl.
  eapply wp_bind, wp_setitem; [done|]. clear w1 Hw. intros w1 Hw.
  eapply wp_bind, wp_getitem; [done|]. frame_simpl.
  eapply wp_bind, wp_setitem; [done|]. clear w1 Hw. intros w1 Hw.
  eapply wp_bind, wp_getitem; [done|]. frame_simpl.
  eapply wp_bind, wp_lift. rewrite gt_zero_word_counts.
  eapply wp_bind, wp_setitem; [done|]. clear w1 Hw. intros w1 Hw.
  eapply wp_bind, wp_getitem; [done|]. frame_simpl.
  destruct (Frame.getitem d0 "journal") as [journal|]; [|by eauto].
  eapply wp_bind, wp_setitem; [done|]. clear w1 Hw. intros w1 Hw.
  eapply wp_bind, wp_getitem; [done|]. frame_simpl.
  eapply wp_bind, wp_lift.
  destruct (Pandas.str_accessor (Series.fillna _ journal)) as [j|]; [|by eauto].
  eapply wp_bind, wp_lift.
  destruct (Pandas.str_accessor (Series.str_strip j)) as [j'|]; [|by eauto].
  eapply wp_bind, wp_setitem; [done|]. clear w1 Hw. intros w1 Hw.
  eapply wp_bind, wp_shape; [done|].
  eapply wp_bind, wp_print; [done|]. clear w1 Hw. intros w1 Hw.
  apply wp_ret. eexists. split; [done|]. rewrite length_app, Nat.add_1_r.
  split; [done|]. rewrite setitem_twice in Hw.
  unfold DataCleaningSpec.prepared, with_features, column. by frame_simpl.
Qed.
End DataCleaningRun.

(** ** What a run of a cleaner leaves behind *)

Lemma top_older h fs d w r : top h fs d w → r < length h → heap w !! r = h !! r.
Proof. intros [-> _] Hr. by apply lookup_app_l. Qed.

Section Runs.
Variable read : Pandas.date_reader.

(** src/main.py: the cleaner always returns; the store gains one object,
    the cleaned copy, and no file is touched. *)
Lemma src_clean_run df d w :
  heap w !! df = Some d →
  ∃ w', SrcMain.clean_and_prepare_data read df w = (Ok (length (heap w)), w') ∧
        heap w' = heap w ++ [SrcMainSpec.cleaned read d] ∧ files w' = files w.
Proof.
  intros Hdf. pose proof (src_clean_wp read df d w Hdf) as Hwp.
  unfold wp in Hwp. destruct (SrcMain.clean_and_prepare_data read df w) as [[r|e] w'];
    [|done].
  destruct Hwp as [-> [Hh Hf]]. eauto.
Qed.

(** data_cleaning.py: the cleaner returns exactly when the columns it reads
    are there and the journals are text; the store gains the copy and the
    cleaned table. *)
Lemma cleaning_run df d w :
  heap w !! df = Some d →
  ∃ res w' d',
    DataCleaning.clean_and_prepare_data read df w = (res, w') ∧
    res = match DataCleaningSpec.cleaned read d with
          | Ok _ => Ok (S (length (heap w)))
          | Raise e => Raise e
          end ∧
    heap w' = heap w ++ [d; d'] ∧ files w' = files w ∧
    ∀ r, res = Ok r → DataCleaningSpec.cleaned read d = Ok d'.
Proof.
  intros Hdf. pose proof (cleaning_wp read df d w Hdf) as Hwp.
  unfold wp in Hwp.
  destruct (DataCleaning.clean_and_prepare_data read df w) as [[r|e] w'].
  - destruct Hwp as (d' & Hd' & -> & Hh & Hf). exists (Ok (S (length (heap w)))), w', d'.
    rewrite Hd', Hh, <- app_assoc. done.
  - destruct Hwp as (He & d' & Hh & Hf). exists (Raise e), w', d'.
    rewrite He, Hh, <- app_assoc. done.
Qed.
End Runs.

(** Columns of the table data_cleaning.py returns. *)

Lemma getitem_restrict d cols c :
  Frame.getitem (DataCleaningSpec.restrict d cols) c =
  if decide (c ∈ cols) then Frame.getitem d c else None.
Proof.
  unfold DataCleaningSpec.restrict, Frame.getitem at 1. simpl.
  induction cols as [|c' cols IH]; [done|]. csimpl.
  destruct (decide (c' = c)) as [->|Hne].
  - rewrite decide_True by left. destruct (Frame.getitem d c) as [s|] eqn:Hc; csimpl.
    + by rewrite decide_True.
    + rewrite IH. by case_decide.
  - destruct (Frame.getitem d c'); csimpl; rewrite ?decide_False by done; rewrite IH;
      repeat case_decide; try done; set_solver.
Qed.

Section DataCleaningCleaned.
Variable read : Pandas.date_reader.

Lemma cleaning_inv d d' :
  DataCleaningSpec.cleaned read d = Ok d' →
  ∃ title abstract publish_time journal,
    Frame.getitem d "title" = Some title ∧
    Frame.getitem d "abstract" = Some abstract ∧
    Frame.getitem d "publish_time" = Some publish_time ∧
    Frame.getitem d "journal" = Some journal ∧
    d' = Frame.setitem
           (DataCleaningSpec.prepared read
              (DataCleaningSpec.restrict d DataCleaning.important_cols)
              title abstract publish_time)
           "journal"
           (Series.str_title (Series.str_strip (Series.fillna (VStr "Unknown Journal") journal))).
Proof.
  unfold DataCleaningSpec.cleaned. rewrite !getitem_restrict.
  rewrite !decide_True by (unfold DataCleaning.important_cols; set_solver).
  destruct (Frame.getitem d "title") as [title|]; [|done].
  destruct (Frame.getitem d "abstract") as [abstract|]; [|done].
  destruct (Frame.getitem d "publish_time") as [publish_time|]; [|done].
  destruct (Frame.getitem d "journal") as [journal|]; [|done].
  destruct (Pandas.str_accessor (Series.fillna _ journal)) as [j|] eqn:Hj; [|done].
  destruct (Pandas.str_accessor (Series.str_strip j)) as [j'|] eqn:Hj'; [|done].
  intros [= <-]. exists title, abstract, publish_time, journal.
  repeat split.
  assert (∀ s x, Pandas.str_accessor s = Ok x → x = s) as Hacc.
  { intros s x. unfold Pandas.str_accessor. destruct s; [congruence|].
    destruct (existsb _ _); congruence. }
  apply Hacc in Hj, Hj'. by subst.
Qed.

(** The year column of the table data_cleaning.py returns: the year of the
    date where it was read, missing where it was not. *)
Lemma cleaning_year d d' p :
  DataCleaningSpec.cleaned read d = Ok d' →
  Frame.getitem d "publish_time" = Some p →
  Frame.getitem d' "year" = Some (map year_cell (Pandas.to_datetime read p)).
Proof.
  intros (t & a & p' & j & _ & _ & Hp & _ & ->)%cleaning_inv Hp'.
  rewrite Hp' in Hp. injection Hp as <-.
  rewrite getitem_setitem_ne by done.
  unfold DataCleaningSpec.prepared. rewrite getitem_with_features_ne by done.
  by frame_simpl.
Qed.

Lemma cleaning_index_len d d' :
  DataCleaningSpec.cleaned read d = Ok d' → index_len d' = index_len d.
Proof. by intros (t & a & p' & j & _ & _ & _ & _ & ->)%cleaning_inv. Qed.

Lemma cleaning_derived d d' c :
  DataCleaningSpec.cleaned read d = Ok d' →
  c ∈ ["year"; "abstract_word_count"; "title_word_count"; "has_abstract"] →
  is_Some (Frame.getitem d' c).
Proof.
  intros (t & a & p' & j & _ & _ & _ & _ & ->)%cleaning_inv Hc.
  unfold DataCleaningSpec.prepared, with_features.
  rewrite !elem_of_cons, elem_of_nil in Hc.
  destruct Hc as [->|[->|[->|[->|[]]]]]; frame_simpl; eauto.
Qed.

Lemma cleaning_journal d d' journal :
  DataCleaningSpec.cleaned read d = Ok d' →
  Frame.getitem d "journal" = Some journal →
  Frame.getitem d' "journal" =
  Some (Series.str_title (Series.str_strip (Series.fillna (VStr "Unknown Journal") journal))).
Proof.
  intros (t & a & p' & j & _ & _ & _ & Hj & ->)%cleaning_inv Hj'.
  rewrite Hj' in Hj. injection Hj as <-. by frame_simpl.
Qed.
End DataCleaningCleaned.

(** ** Unreadable dates *)

(** C3. For every record whose publish date cannot be read, the cleaner of
    src/main.py returns (it does not raise) and the year of that record in
    the table it returns is the fallback year 2020. *)
Theorem unreadable_date_defaults_to_2020
    (read : Pandas.date_reader) (w : world) (df : loc) (d : DataFrame)
    (publish_time : list value) (i : nat) (v : value) :
  heap w !! df = Some d →
  Frame.getitem d "publish_time" = Some publish_time →
  publish_time !! i = Some v →
  read publish_time v = None →
  ∃ r w' d' year,
    SrcMain.clean_and_prepare_data read df w = (Ok r, w') ∧
    heap w' !! r = Some d' ∧
    Frame.getitem d' "year" = Some year ∧
    year !! i = Some (VInt 2020).
Proof.
  intros Hdf Hp Hi Hv.
  destruct (src_clean_run read df d w Hdf) as (w' & Hrun & Hh & _).
  exists (length (heap w)), w', (SrcMainSpec.cleaned read d). eexists.
  split; [done|]. split; [rewrite Hh; by apply list_lookup_middle|].
  split; [apply cleaned_year|]. rewrite Hp.
  unfold Pandas.to_datetime. rewrite !list_lookup_fmap, Hi. simpl. by rewrite Hv.
Qed.

Lemma unreadable_date_defaults_to_2020_witness :
  ∃ r w' d' year,
    SrcMain.clean_and_prepare_data Pandas.iso_reader 0 world0 = (Ok r, w') ∧
    heap w' !! r = Some d' ∧
    Frame.getitem d' "year" = Some year ∧
    year !! 1 = Some (VInt 2020).
Proof.
  apply (unreadable_date_defaults_to_2020 Pandas.iso_reader world0 0 frame0
           [VStr "2020-03-17"; VStr "not a date"; VNull] 1 (VStr "not a date"));
    reflexivity.
Defined.

(** Without a publish-date column every year is 2020 as well. *)
Lemma no_date_column_defaults_to_2020 read w df d :
  heap w !! df = Some d →
  Frame.getitem d "publish_time" = None →
  ∃ r w' d',
    SrcMain.clean_and_prepare_data read df w = (Ok r, w') ∧
    heap w' !! r = Some d' ∧
    Frame.getitem d' "year" = Some (replicate (index_len d) (VInt 2020)).
Proof.
  intros Hdf Hp.
  destruct (src_clean_run read df d w Hdf) as (w' & Hrun & Hh & _).
  exists (length (heap w)), w', (SrcMainSpec.cleaned read d).
  split; [done|]. split; [rewrite Hh; by apply list_lookup_middle|].
  by rewrite cleaned_year, Hp.
Qed.

(** ** Copy or in place *)

(** C4, as amended. Both cleaners work on a copy: whether the run returns
    or raises, the object passed in is what it was; a returned reference is
    new, differs from the argument, and it is the object behind it that
    holds the derived columns. *)
Theorem cleaners_work_on_a_copy
    (read : Pandas.date_reader) (w : world) (df : loc) (d : DataFrame) :
  heap w !! df = Some d →
  (∃ res w',
     DataCleaning.clean_and_prepare_data read df w = (res, w') ∧
     heap w' !! df = Some d ∧
     ∀ r, res = Ok r →
          r ≠ df ∧ heap w !! r = None ∧
          ∃ d', heap w' !! r = Some d' ∧ has_derived d') ∧
  (∃ r w' d',
     SrcMain.clean_and_prepare_data read df w = (Ok r, w') ∧
     heap w' !! df = Some d ∧
     r ≠ df ∧ heap w !! r = None ∧
     heap w' !! r = Some d' ∧ no_nulls d' ∧ has_derived d').
Proof.
  intros Hdf. pose proof (lookup_lt_Some _ _ _ Hdf) as Hlt. split.
  - destruct (cleaning_run read df d w Hdf) as (res & w' & d' & Hrun & Hres & Hh & _ & Hok).
    exists res, w'. split; [done|]. split.
    { rewrite Hh. by rewrite lookup_app_l. }
    intros r Hr. specialize (Hok r Hr). rewrite Hok in Hres. subst res.
    injection Hr as <-. split; [lia|]. split; [apply lookup_ge_None; lia|].
    exists d'. split.
    { rewrite Hh. change [d; d'] with ([d] ++ [d']). rewrite app_assoc.
      replace (S (length (heap w))) with (length (heap w ++ [d]))
        by (rewrite length_app; simpl; lia).
      by apply list_lookup_middle. }
    repeat split; eapply cleaning_derived; eauto; set_solver.
  - destruct (src_clean_run read df d w Hdf) as (w' & Hrun & Hh & _).
    exists (length (heap w)), w', (SrcMainSpec.cleaned read d).
    split; [done|]. split; [rewrite Hh; by rewrite lookup_app_l|].
    split; [lia|]. split; [by apply lookup_ge_None|].
    split; [rewrite Hh; by apply list_lookup_middle|]. split.
    + intros c Hc. by apply cleaned_null_count.
    + repeat split; [rewrite cleaned_year; eauto|apply cleaned_features; set_solver..].
Qed.

Lemma cleaners_work_on_a_copy_witness :
  (∃ res w',
     DataCleaning.clean_and_prepare_data Pandas.iso_reader 0 world0 = (res, w') ∧
     heap w' !! 0 = Some frame0 ∧
     ∀ r, res = Ok r →
          r ≠ 0 ∧ heap world0 !! r = None ∧
          ∃ d', heap w' !! r = Some d' ∧ has_derived d') ∧
  (∃ r w' d',
     SrcMain.clean_and_prepare_data Pandas.iso_reader 0 world0 = (Ok r, w') ∧
     heap w' !! 0 = Some frame0 ∧
     r ≠ 0 ∧ heap world0 !! r = None ∧
     heap w' !! r = Some d' ∧ no_nulls d' ∧ has_derived d').
Proof.
  apply (cleaners_work_on_a_copy Pandas.iso_reader world0 0 frame0). reflexivity.
Defined.

(** C4, as stated, fails: after a run of either cleaner on the example
    table the object passed in still has its missing title and no derived
    column. *)
Lemma cleaned_in_place_counterexample :
  ¬ cleaned_in_place (DataCleaning.clean_and_prepare_data Pandas.iso_reader) 0 world0 ∧
  ¬ cleaned_in_place (SrcMain.clean_and_prepare_data Pandas.iso_reader) 0 world0.
Proof.
  split; intros (r & w' & d' & Hrun & Hd' & _ & [[y Hy] _]);
    vm_compute in Hrun; injection Hrun as <- <-;
    vm_compute in Hd'; injection Hd' as <-; discriminate Hy.
Qed.

(** ** Missing values after cleaning *)

(** src/main.py establishes the invariant of the specification: for every
    table, the cleaner returns a table with nothing missing in the title,
    abstract, journal and year columns, and integer years. *)
Lemma src_clean_no_nulls read w df d :
  heap w !! df = Some d →
  ∃ r w' d' year,
    SrcMain.clean_and_prepare_data read df w = (Ok r, w') ∧
    heap w' !! r = Some d' ∧ no_nulls d' ∧
    Frame.getitem d' "year" = Some year ∧ Forall (λ v, ∃ n, v = VInt n) year.
Proof.
  intros Hdf.
  destruct (src_clean_run read df d w Hdf) as (w' & Hrun & Hh & _).
  destruct (cleaned_year_int read d) as (year & Hy & Hint).
  exists (length (heap w)), w', (SrcMainSpec.cleaned read d), year.
  split; [done|]. split; [rewrite Hh; by apply list_lookup_middle|].
  split; [|done]. intros c Hc. by apply cleaned_null_count.
Qed.

(** data_cleaning.py does not: whenever it returns, the year of a record
    whose date could not be read is missing. *)
Lemma cleaning_unreadable_year_missing read w df d publish_time i v r w' :
  heap w !! df = Some d →
  Frame.getitem d "publish_time" = Some publish_time →
  publish_time !! i = Some v →
  read publish_time v = None →
  DataCleaning.clean_and_prepare_data read df w = (Ok r, w') →
  ∃ d' year,
    heap w' !! r = Some d' ∧
    Frame.getitem d' "year" = Some year ∧
    year !! i = Some VNull.
Proof.
  intros Hdf Hp Hi Hv Hrun.
  destruct (cleaning_run read df d w Hdf) as (res & w2 & d' & Hrun' & Hres & Hh & _ & Hok).
  rewrite Hrun in Hrun'. injection Hrun' as <- <-.
  specialize (Hok r eq_refl). rewrite Hok in Hres. injection Hres as ->.
  exists d'. eexists. split.
  { rewrite Hh. change [d; d'] with ([d] ++ [d']). rewrite app_assoc.
    replace (S (length (heap w))) with (length (heap w ++ [d]))
      by (rewrite length_app; simpl; lia).
    by apply list_lookup_middle. }
  split; [by eapply cleaning_year|].
  unfold Pandas.to_datetime. rewrite !list_lookup_fmap, Hi. simpl. by rewrite Hv.
Qed.

(** C1, the failing input. On the example table, whose second date cannot
    be read and whose third is missing, data_cleaning.py returns a table
    with two missing years; title, abstract and journal have nothing
    missing.  On the same table src/main.py leaves no year missing. *)
Theorem data_cleaning_leaves_years_missing :
  (∃ r w' d',
     DataCleaning.clean_and_prepare_data Pandas.iso_reader 0 world0 = (Ok r, w') ∧
     heap w' !! r = Some d' ∧
     Frame.null_count d' "title" = Some 0 ∧
     Frame.null_count d' "abstract" = Some 0 ∧
     Frame.null_count d' "journal" = Some 0 ∧
     Frame.getitem d' "year" = Some [VInt 2020; VNull; VNull] ∧
     Frame.null_count d' "year" = Some 2) ∧
  (∃ r w' d',
     SrcMain.clean_and_prepare_data Pandas.iso_reader 0 world0 = (Ok r, w') ∧
     heap w' !! r = Some d' ∧
     Frame.getitem d' "year" = Some [VInt 2020; VInt 2020; VInt 2020] ∧
     Frame.null_count d' "year" = Some 0).
Proof. split; do 3 eexists; vm_compute; repeat split. Qed.

(** ** Rows and derived columns *)

(** src/main.py: for every table the cleaner returns a table with the same
    number of rows, one cell per row in every column, and the derived
    columns. *)
Lemma src_clean_keeps_rows read w df d :
  heap w !! df = Some d →
  ∃ r w' d',
    SrcMain.clean_and_prepare_data read df w = (Ok r, w') ∧
    heap w' !! r = Some d' ∧
    index_len d' = index_len d ∧ (Frame.wf d → Frame.wf d') ∧ has_derived d'.
Proof.
  intros Hdf.
  destruct (src_clean_run read df d w Hdf) as (w' & Hrun & Hh & _).
  exists (length (heap w)), w', (SrcMainSpec.cleaned read d).
  split; [done|]. split; [rewrite Hh; by apply list_lookup_middle|].
  split; [apply cleaned_index_len|]. split; [apply cleaned_wf|].
  repeat split; [rewrite cleaned_year; eauto|apply cleaned_features; set_solver..].
Qed.

(** data_cleaning.py: the same holds whenever the cleaner returns. *)
Lemma cleaning_keeps_rows read w df d r w' :
  heap w !! df = Some d →
  DataCleaning.clean_and_prepare_data read df w = (Ok r, w') →
  ∃ d', heap w' !! r = Some d' ∧ index_len d' = index_len d ∧ has_derived d'.
Proof.
  intros Hdf Hrun.
  destruct (cleaning_run read df d w Hdf) as (res & w2 & d' & Hrun' & Hres & Hh & _ & Hok).
  rewrite Hrun in Hrun'. injection Hrun' as <- <-.
  specialize (Hok r eq_refl). rewrite Hok in Hres. injection Hres as ->.
  exists d'. split.
  { rewrite Hh. change [d; d'] with ([d] ++ [d']). rewrite app_assoc.
    replace (S (length (heap w))) with (length (heap w ++ [d]))
      by (rewrite length_app; simpl; lia).
    by apply list_lookup_middle. }
  split; [by eapply cleaning_index_len|].
  repeat split; eapply cleaning_derived; eauto; set_solver.
Qed.

(** It returns when the four columns it reads are there and the journal
    column holds text or missing values. *)
Lemma cleaning_returns read w df d title abstract publish_time journal :
  heap w !! df = Some d →
  Frame.getitem d "title" = Some title →
  Frame.getitem d "abstract" = Some abstract →
  Frame.getitem d "publish_time" = Some publish_time →
  Frame.getitem d "journal" = Some journal →
  Forall (λ v, v = VNull ∨ ∃ s, v = VStr s) journal →
  ∃ r w', DataCleaning.clean_and_prepare_data read df w = (Ok r, w').
Proof.
  intros Hdf Ht Ha Hp Hj Htext.
  destruct (cleaning_run read df d w Hdf) as (res & w' & d' & Hrun & Hres & _).
  assert (∃ d1, DataCleaningSpec.cleaned read d = Ok d1) as [d1 Hd1].
  { unfold DataCleaningSpec.cleaned. rewrite !getitem_restrict.
    rewrite !decide_True by (unfold DataCleaning.important_cols; set_solver).
    rewrite Ht, Ha, Hp, Hj.
    assert (∀ s, Forall (λ v, ∃ x, v = VStr x) s → Pandas.str_accessor s = Ok s) as Hacc.
    { intros s Hs. unfold Pandas.str_accessor. destruct Hs as [|v s [x ->] Hs]; done. }
    rewrite Hacc.
    - rewrite Hacc; [eauto|]. apply Forall_forall.
      intros v (y & -> & Hy)%list_elem_of_fmap_1.
      apply list_elem_of_fmap_1 in Hy as (z & -> & Hz).
      rewrite Forall_forall in Htext. destruct (Htext z Hz) as [->|[s ->]]; simpl; eauto.
    - apply Forall_forall. intros v (z & -> & Hz)%list_elem_of_fmap_1.
      rewrite Forall_forall in Htext. destruct (Htext z Hz) as [->|[s ->]]; simpl; eauto. }
  rewrite Hd1 in Hres. subst res. eauto.
Qed.

(** C7, the failing input. Given a table without an abstract column,
    data_cleaning.py raises [KeyError] and returns no table; src/main.py
    returns a table with the two rows and the derived columns. *)
Theorem data_cleaning_needs_its_columns :
  (∃ w', DataCleaning.clean_and_prepare_data Pandas.iso_reader 0 world1 =
         (Raise (KeyError "abstract"), w')) ∧
  (∃ r w' d',
     SrcMain.clean_and_prepare_data Pandas.iso_reader 0 world1 = (Ok r, w') ∧
     heap w' !! r = Some d' ∧ index_len d' = 2 ∧
     Frame.getitem d' "year" = Some [VInt 2021; VInt 2021] ∧
     Frame.getitem d' "abstract_word_count" = Some [VInt 0; VInt 0] ∧
     Frame.getitem d' "has_abstract" = Some [VBool false; VBool false]).
Proof. split; [|do 2 eexists]; eexists; vm_compute; repeat split. Qed.

(** ** Yearly counts *)

Ltac run_unfold :=
  cbv [bind print df_getitem df_columns df_len df_shape deref lift savefig
       write_file ret raise];
  simpl.


Lemma value_counts_keys (P : value → Prop) s :
  Forall P s → Forall (λ p, P p.1) (Series.value_counts s).
Proof.
  intros Hs. apply Forall_forall. intros p Hp. unfold Series.value_counts in Hp.
  unfold Counting.by_count_desc in Hp. rewrite sort_perm in Hp.
  apply (list_elem_of_fmap_2 fst) in Hp. apply (proj1 (keys_tally _ _)) in Hp.
  unfold Series.dropna in Hp. apply list_elem_of_filter in Hp as [_ Hp].
  rewrite Forall_forall in Hs. auto.
Qed.

(** The counts of [value_counts] add up to the number of cells that are not
    missing. *)
Lemma value_counts_total s :
  Counting.total (Series.value_counts s) = length s - Series.null_count s.
Proof.
  unfold Series.value_counts. rewrite total_by_count_desc, total_tally.
  unfold Series.dropna, Series.null_count.
  induction s as [|v s IH]; simpl; [done|].
  pose proof (length_filter (λ v, Series.isnull v = true) s).
  rewrite !filter_cons. destruct v; simpl; lia.
Qed.

Lemma sort_index_ints c :
  Forall (λ p : value * nat, ∃ n, p.1 = VInt n) c →
  Series.sort_index c = Ok (Sorting.sort (λ p q, Series.value_leb p.1 q.1) c).
Proof.
  intros Hc. unfold Series.sort_index. destruct c as [|[v n] c']; [done|].
  rewrite (proj2 (forallb_forall _ _)); [done|].
  intros p Hp%list_elem_of_In. rewrite Forall_forall in Hc.
  destruct (Hc _ Hp) as [m ->]. destruct (Hc (v, n)) as [m' Hm']; [left|].
  simpl in Hm'. by subst.
Qed.

Lemma yearly_counts_of_cleaned d :
  cleaned_table d →
  ∃ year counts,
    Frame.getitem d "year" = Some year ∧
    Series.sort_index (Series.value_counts year) = Ok counts ∧
    Counting.total counts = index_len d.
Proof.
  intros (Hwf & Hnn & year & Hy & Hint). exists year. eexists. split; [done|].
  split.
  - apply sort_index_ints. by apply (value_counts_keys (λ v, ∃ n, v = VInt n)).
  - rewrite (total_perm _ _ (sort_perm _ _)), value_counts_total.
    assert (Series.null_count year = 0) as ->.
    { specialize (Hnn "year"). unfold Frame.null_count in Hnn. rewrite Hy in Hnn.
      simpl in Hnn. assert ("year" ∈ ["title"; "abstract"; "journal"; "year"]) as Hin
        by set_solver. specialize (Hnn Hin). congruence. }
    rewrite Nat.sub_0_r. by eapply wf_getitem.
Qed.

(** C2. For every cleaned table, the yearly counts (by either
    [analyze_publication_trends]) are returned and add up to the number of
    rows of the table. *)
Theorem yearly_counts_sum_to_row_count (w : world) (df : loc) (d : DataFrame) :
  heap w !! df = Some d →
  cleaned_table d →
  (∃ counts w',
     AnalysisVisualization.analyze_publication_trends df w = (Ok counts, w') ∧
     Counting.total counts = index_len d) ∧
  (∃ counts w',
     SrcMain.analyze_publication_trends df w = (Ok counts, w') ∧
     Counting.total counts = index_len d).
Proof.
  intros Hdf Hd. destruct (yearly_counts_of_cleaned d Hd) as (year & counts & Hy & Hc & Ht).
  split; exists counts; eexists;
    (split; [|done]);
    unfold AnalysisVisualization.analyze_publication_trends,
      SrcMain.analyze_publication_trends; run_unfold;
    rewrite Hdf, Hy, Hc; reflexivity.
Qed.

(** The tables src/main.py returns are cleaned tables. *)
Lemma src_clean_gives_cleaned_table read d :
  Frame.wf d → cleaned_table (SrcMainSpec.cleaned read d).
Proof.
  intros Hwf. split; [by apply cleaned_wf|]. split.
  - intros c Hc. by apply cleaned_null_count.
  - apply cleaned_year_int.
Qed.

(** Hence in the pipeline of src/main.py, cleaning followed by the yearly
    counts, the counts add up to the number of rows of the raw table. *)
Lemma src_pipeline_yearly_counts read w df d :
  heap w !! df = Some d →
  Frame.wf d →
  ∃ r w1 counts w2,
    SrcMain.clean_and_prepare_data read df w = (Ok r, w1) ∧
    SrcMain.analyze_publication_trends r w1 = (Ok counts, w2) ∧
    Counting.total counts = index_len d.
Proof.
  intros Hdf Hwf.
  destruct (src_clean_run read df d w Hdf) as (w1 & Hrun & Hh & _).
  destruct (yearly_counts_of_cleaned _ (src_clean_gives_cleaned_table read d Hwf))
    as (year & counts & Hy & Hc & Ht).
  exists (length (heap w)), w1, counts. eexists. split; [done|]. split.
  - unfold SrcMain.analyze_publication_trends. run_unfold.
    rewrite Hh, list_lookup_middle by done. rewrite Hy, Hc. reflexivity.
  - by rewrite Ht, cleaned_index_len.
Qed.

(** In the first pipeline a year left missing by data_cleaning.py is not
    counted: on the example table, one of three rows has a year. *)
Lemma first_pipeline_counts_rows_with_a_year :
  ∃ r w1 w2,
    DataCleaning.clean_and_prepare_data Pandas.iso_reader 0 world0 = (Ok r, w1) ∧
    AnalysisVisualization.analyze_publication_trends r w1 = (Ok [(VInt 2020, 1)], w2).
Proof. do 3 eexists. vm_compute. split; reflexivity. Qed.

Lemma yearly_counts_sum_to_row_count_witness :
  (∃ counts w',
     AnalysisVisualization.analyze_publication_trends 1 world0_clean = (Ok counts, w') ∧
     Counting.total counts = index_len frame0_clean) ∧
  (∃ counts w',
     SrcMain.analyze_publication_trends 1 world0_clean = (Ok counts, w') ∧
     Counting.total counts = index_len frame0_clean).
Proof.
  apply (yearly_counts_sum_to_row_count world0_clean 1 frame0_clean); [reflexivity|].
  split; [|split].
  - unfold Frame.wf. simpl. repeat constructor.
  - intros c Hc. rewrite !elem_of_cons, elem_of_nil in Hc.
    destruct Hc as [->|[->|[->|[->|[]]]]]; reflexivity.
  - eexists. split; [reflexivity|]. repeat constructor; eauto.
Defined.

(** ** Journal ranking *)

Section CountingMore.
Context {K : Type} `{EqDecision K}.
Implicit Types (k : K) (l : list K) (acc : list (K * nat)).

Lemma get_is_Some k acc : is_Some (Counting.get k acc) ↔ k ∈ acc.*1.
Proof.
  induction acc as [|[k0 n] acc IH]; csimpl.
  - split; [by intros [? ?]|by intros ?%elem_of_nil].
  - case_decide; subst.
    + split; [left|eauto].
    + rewrite IH, elem_of_cons. naive_solver.
Qed.

Lemma get_tally_Some l k :
  k ∈ l → Counting.get k (Counting.tally l) = Some (length (filter (λ x, x = k) l)).
Proof.
  intros Hk. pose proof (get_tally l k) as Hg.
  destruct (proj2 (get_is_Some k (Counting.tally l))) as [n Hn]; [by apply keys_tally|].
  rewrite Hn in Hg |- *. simpl in Hg. by subst.
Qed.

Lemma elem_tally l k n :
  (k, n) ∈ Counting.tally l ↔ k ∈ l ∧ n = length (filter (λ x, x = k) l).
Proof.
  split.
  - intros Hin. assert (k ∈ l) as Hk.
    { apply keys_tally. by apply (list_elem_of_fmap_2 fst) in Hin. }
    split; [done|]. apply elem_get_Some in Hin; [|apply NoDup_tally].
    rewrite get_tally_Some in Hin by done. congruence.
  - intros [Hk ->]. apply get_Some_elem. by apply get_tally_Some.
Qed.
End CountingMore.

Lemma filter_dropna k s :
  k ≠ VNull → filter (λ x, x = k) (Series.dropna s) = filter (λ x, x = k) s.
Proof.
  intros Hk. unfold Series.dropna. induction s as [|v s IH]; [done|].
  rewrite !filter_cons. destruct v; simpl; rewrite ?filter_cons, IH; try done.
  by rewrite decide_False.
Qed.

(** The entries of [value_counts]: the values of the column that are not
    missing, each with the number of its occurrences. *)
Lemma elem_value_counts s k n :
  (k, n) ∈ Series.value_counts s ↔
  k ∈ s ∧ k ≠ VNull ∧ n = length (filter (λ x, x = k) s).
Proof.
  unfold Series.value_counts, Counting.by_count_desc. rewrite sort_perm, elem_tally.
  unfold Series.dropna at 1. rewrite list_elem_of_filter. split.
  - intros [[Hk Hin] ->]. assert (k ≠ VNull) by (by destruct k).
    by rewrite filter_dropna.
  - intros (Hin & Hk & ->). rewrite filter_dropna by done. by destruct k.
Qed.

Lemma value_counts_counts_of s : counts_of s (Series.value_counts s).
Proof.
  apply Forall_forall. intros [k n] Hin. apply elem_value_counts in Hin. naive_solver.
Qed.

Lemma value_counts_Sorted s : Sorted (λ p q : value * nat, q.2 ≤ p.2) (Series.value_counts s).
Proof. apply by_count_desc_Sorted. Qed.

Lemma head_ranked N c :
  (0 ≤ N)%Z → Sorted (λ p q : value * nat, q.2 ≤ p.2) c → ranked N (Series.head N c).
Proof.
  intros HN Hc. unfold Series.head. rewrite (proj2 (Z.leb_le 0 N)) by done. split.
  - rewrite length_take. lia.
  - by apply Sorted_take_prefix.
Qed.

Lemma head_counts_of N s c : (0 ≤ N)%Z → counts_of s c → counts_of s (Series.head N c).
Proof.
  intros HN Hc. unfold Series.head. rewrite (proj2 (Z.leb_le 0 N)) by done.
  by apply Forall_take.
Qed.

Lemma safe_value_counts_Sorted s name :
  Sorted (λ p q : value * nat, q.2 ≤ p.2) (App.safe_value_counts s name).
Proof.
  unfold App.safe_value_counts. destruct (forallb _ _).
  - repeat constructor.
  - apply value_counts_Sorted.
Qed.

(** C5. For every table with a journal column and every requested length
    [N] (a length: not negative), the journal rankings of the dashboards
    have at most [N] entries with counts in non-increasing order, and so
    has, for [N] = 15, the ranking of either [analyze_journals]; the entries
    are the numbers of rows of the journals they name. *)
Theorem journal_ranking_bounded_and_sorted
    (w : world) (df : loc) (d : DataFrame) (journal : list value) (N : Z) :
  heap w !! df = Some d →
  Frame.getitem d "journal" = Some journal →
  (0 ≤ N)%Z →
  ranked N (App.journal_counts journal N) ∧
  (ranked N (App.top_journals journal N) ∧
   counts_of journal (App.top_journals journal N)) ∧
  (∃ r w', AnalysisVisualization.analyze_journals df w = (Ok r, w') ∧
           ranked 15 r ∧ counts_of journal r) ∧
  (∃ r w', SrcMain.analyze_journals df w = (Ok r, w') ∧
           ranked 15 r ∧ counts_of journal r).
Proof.
  intros Hdf Hj HN.
  split; [apply head_ranked; [done|apply safe_value_counts_Sorted]|].
  split; [split; [apply head_ranked; [done|apply value_counts_Sorted]
                 |apply head_counts_of; [done|apply value_counts_counts_of]]|].
  split; eexists; eexists;
    (split; [unfold AnalysisVisualization.analyze_journals, SrcMain.analyze_journals;
             run_unfold; rewrite Hdf, Hj; reflexivity|]);
    (split; [apply head_ranked; [done|apply value_counts_Sorted]
            |apply head_counts_of; [done|apply value_counts_counts_of]]).
Qed.

Lemma journal_ranking_bounded_and_sorted_witness :
  ranked 1 (App.journal_counts [VStr "The Lancet"; VStr "The Lancet"; VStr "Unknown Journal"] 1) ∧
  (ranked 1 (App.top_journals [VStr "The Lancet"; VStr "The Lancet"; VStr "Unknown Journal"] 1) ∧
   counts_of [VStr "The Lancet"; VStr "The Lancet"; VStr "Unknown Journal"]
     (App.top_journals [VStr "The Lancet"; VStr "The Lancet"; VStr "Unknown Journal"] 1)) ∧
  (∃ r w', AnalysisVisualization.analyze_journals 0
             (World [MkFrame 3 [("journal", [VStr "The Lancet"; VStr "The Lancet"; VStr "Unknown Journal"])]] ∅ [])
           = (Ok r, w') ∧
           ranked 15 r ∧
           counts_of [VStr "The Lancet"; VStr "The Lancet"; VStr "Unknown Journal"] r) ∧
  (∃ r w', SrcMain.analyze_journals 0
             (World [MkFrame 3 [("journal", [VStr "The Lancet"; VStr "The Lancet"; VStr "Unknown Journal"])]] ∅ [])
           = (Ok r, w') ∧
           ranked 15 r ∧
           counts_of [VStr "The Lancet"; VStr "The Lancet"; VStr "Unknown Journal"] r).
Proof.
  apply (journal_ranking_bounded_and_sorted
           (World [MkFrame 3 [("journal", [VStr "The Lancet"; VStr "The Lancet"; VStr "Unknown Journal"])]] ∅ [])
           0 (MkFrame 3 [("journal", [VStr "The Lancet"; VStr "The Lancet"; VStr "Unknown Journal"])]));
    [reflexivity|reflexivity|lia].
Defined.

(** ** Word counts of titles *)

(** C6. For the two titles of the example and the stop words covid, 19,
    study, of, the word counts hold lungs once and results once (and lung
    once) and have no entry for study; [analyze_titles] of src/main.py,
    whose stop words include these four, returns the same counts for a table
    with these titles. *)
Theorem title_word_frequencies_example :
  let word_freq := (Titles.word_frequencies example_stop_words example_titles).2 in
  Counting.get "lungs" word_freq = Some 1 ∧
  Counting.get "results" word_freq = Some 1 ∧
  Counting.get "study" word_freq = None ∧
  word_freq = [("lungs", 1); ("lung", 1); ("results", 1)] ∧
  ∃ w', SrcMain.analyze_titles 0 world_titles = (Ok word_freq, w').
Proof. vm_compute. repeat split. by eexists. Qed.

(** The stop words of analysis_visualization.py hold neither covid nor
    study: there the same titles give an entry to study. *)
Lemma analysis_visualization_counts_study :
  ∃ word_freq w',
    AnalysisVisualization.analyze_titles 0 world_titles = (Ok word_freq, w') ∧
    word_freq = [("covid", 1); ("study", 2); ("lungs", 1); ("lung", 1); ("results", 1)].
Proof. do 2 eexists. vm_compute. split; reflexivity. Qed.

(** A table without a single countable word makes [analyze_titles] raise. *)
Lemma analyze_titles_needs_a_word :
  ∃ w', SrcMain.analyze_titles 0 (World [MkFrame 1 [("title", [VStr "of"])]] ∅ []) =
        (Raise (ValueError "not enough values to unpack (expected 2, got 0)"), w').
Proof. eexists. vm_compute. reflexivity. Qed.

(** ** A missing input file *)

(** C8. When metadata.csv is absent, the loader prints that it is not
    found and returns [None] without raising; [main] sees the [None] and
    returns at once: no file has been written and no object created. *)
Theorem missing_input_halts_cleanly (read : Pandas.date_reader) (w : world) :
  files w !! "metadata.csv" = None →
  (∃ w', DataExploration.load_and_explore_data w = (Ok None, w') ∧
         heap w' = heap w ∧ files w' = files w ∧
         stdout w' =
           stdout w ++
           [Printed "Loading metadata.csv..." [];
            Printed "metadata.csv not found. Please download it from CORD-19 dataset" []]) ∧
  (∃ w', Main.main read w = (Ok (), w') ∧
         heap w' = heap w ∧ files w' = files w).
Proof.
  intros Hfile. split; eexists;
    (split; [unfold Main.main, DataExploration.load_and_explore_data;
             cbv [bind try_except read_csv print ret]; simpl; rewrite Hfile; simpl;
             reflexivity|]);
    simpl; rewrite <- ?app_assoc; done.
Qed.

Lemma missing_input_halts_cleanly_witness :
  (∃ w', DataExploration.load_and_explore_data world0 = (Ok None, w') ∧
         heap w' = heap world0 ∧ files w' = files world0 ∧
         stdout w' =
           stdout world0 ++
           [Printed "Loading metadata.csv..." [];
            Printed "metadata.csv not found. Please download it from CORD-19 dataset" []]) ∧
  (∃ w', Main.main Pandas.iso_reader world0 = (Ok (), w') ∧
         heap w' = heap world0 ∧ files w' = files world0).
Proof. apply (missing_input_halts_cleanly Pandas.iso_reader world0). reflexivity. Defined.

(** With the file in place the same [main] runs through and leaves its
    charts and the cleaned table. *)
Lemma main_writes_its_outputs :
  ∃ w', Main.main Pandas.iso_reader (World [] {["metadata.csv" := CsvFile frame0]} []) =
        (Ok (), w') ∧
        is_Some (files w' !! "cleaned_metadata.csv") ∧
        is_Some (files w' !! "publications_by_year.png") ∧
        is_Some (files w' !! "top_journals.png").
Proof. eexists. split; [vm_compute; reflexivity|]. vm_compute. repeat split; eauto. Qed.

(** ** The missing-data profile *)

Lemma positive_iff x : negb (Qle_bool x 0) = true ↔ Qlt 0 x.
Proof.
  rewrite negb_true_iff. split.
  - intros Hx. apply Qnot_le_lt. intros Hle%Qle_bool_iff. congruence.
  - intros Hx. destruct (Qle_bool x 0) eqn:Hle; [|done].
    apply Qle_bool_iff in Hle. by apply Qlt_not_le in Hx.
Qed.

Lemma elem_keep_positive p c q :
  (c, q) ∈ DataCleaning.keep_positive p ↔ (c, Some q) ∈ p ∧ Qlt 0 q.
Proof.
  induction p as [|[c' [x|]] p IH]; simpl.
  - split; [by intros ?%elem_of_nil|by intros [?%elem_of_nil _]].
  - destruct (negb (Qle_bool x 0)) eqn:Hx.
    + rewrite !elem_of_cons, IH. apply positive_iff in Hx. naive_solver.
    + rewrite elem_of_cons, IH. split; [naive_solver|].
      intros [[[= -> ->]|Hin] Hq]; [|done].
      apply positive_iff in Hq. congruence.
  - rewrite elem_of_cons, IH. naive_solver.
Qed.

Lemma sort_values_desc_Sorted s :
  Sorted (λ p q : string * Q, Qle q.2 p.2) (DataCleaning.sort_values_desc s).
Proof.
  unfold DataCleaning.sort_values_desc.
  eapply Sorted_weaken; [|apply sort_Sorted].
  - intros p q Hle. by apply Qle_bool_iff in Hle.
  - intros p q Hle. apply Qle_bool_iff, Qlt_le_weak, Qnot_le_lt.
    intros Hle'%Qle_bool_iff. congruence.
Qed.

Lemma print_each_run l w :
  ∃ w', DataCleaning.print_each l w = (Ok (), w') ∧
        heap w' = heap w ∧ files w' = files w.
Proof.
  revert w. induction l as [|[c q] l IH]; intros w; simpl; [by eexists|].
  unfold bind, print. simpl.
  destruct (IH (World (heap w) (files w) (stdout w ++ [Printed "{}: {}%" [OText c; ORatio q]])))
    as (w' & -> & Hh & Hf).
  by exists w'.
Qed.

(** The missing percentage of a column is positive exactly when the column
    has a missing cell and the table has rows; it is the hundredfold of the
    share of missing cells. *)
Lemma percent_value count len q :
  DataCleaning.percent count len = Some q →
  len ≠ 0 ∧ Qeq q (inject_Z (Z.of_nat count) * 100 / inject_Z (Z.of_nat len)) ∧
  (Qlt 0 q ↔ 0 < count).
Proof.
  unfold DataCleaning.percent. destruct len as [|n]; [done|]. intros [= <-].
  split; [done|]. split.
  - unfold Qeq, Qdiv, Qmult, Qinv, inject_Z. simpl.
    rewrite !Pos.mul_1_l, Pos.of_nat_succ. lia.
  - unfold Qlt. simpl. lia.
Qed.

Lemma null_count_missing s : Series.null_count s = length (filter (λ v, v = VNull) s).
Proof.
  unfold Series.null_count. f_equal. apply filter_iff_on. intros v _. by destruct v.
Qed.

(** The number the profiler computes is the missing percentage; there is
    none for a table without rows, where the percentage is not positive. *)
Lemma percent_missing s len :
  match DataCleaning.percent (Series.null_count s) len with
  | Some q => Qeq q (missing_percentage s len)
  | None => ¬ Qlt 0 (missing_percentage s len)
  end.
Proof.
  unfold DataCleaning.percent, missing_percentage. rewrite <- null_count_missing.
  destruct len as [|n].
  - unfold Qlt, Qdiv, Qmult, Qinv, inject_Z. simpl. lia.
  - unfold Qeq, Qdiv, Qmult, Qinv, inject_Z. simpl.
    rewrite Pos.of_nat_succ. lia.
Qed.

Lemma keep_positive_listed (l : list (string * list value)) len :
  Forall2 (λ (e : string * Q) (p : string * list value),
             e.1 = p.1 ∧ Qeq e.2 (missing_percentage p.2 len))
    (DataCleaning.keep_positive
       (map (λ p, (p.1, DataCleaning.percent (Series.null_count p.2) len)) l))
    (filter (λ p, Qlt 0 (missing_percentage p.2 len)) l).
Proof.
  induction l as [|[c s] l IH]; [constructor|].
  rewrite filter_cons. simpl.
  pose proof (percent_missing s len) as Hq.
  destruct (DataCleaning.percent (Series.null_count s) len) as [q|].
  - destruct (negb (Qle_bool q 0)) eqn:Hpos.
    + apply positive_iff in Hpos. rewrite decide_True by by rewrite <- Hq.
      by constructor.
    + rewrite decide_False; [done|]. rewrite <- Hq. intros Hlt%positive_iff. congruence.
  - by rewrite decide_False.
Qed.

(** The missing percentage is positive exactly when the table has rows and
    the column a missing cell. *)
Lemma missing_percentage_positive s len :
  Qlt 0 (missing_percentage s len) ↔ len ≠ 0 ∧ VNull ∈ s.
Proof.
  unfold missing_percentage.
  assert (0 < length (filter (λ v, v = VNull) s) ↔ VNull ∈ s) as <-.
  { split.
    - destruct (filter _ s) as [|v l] eqn:Hf; simpl; [lia|]. intros _.
      assert (v ∈ filter (λ v, v = VNull) s) as Hin by (rewrite Hf; left).
      by apply list_elem_of_filter in Hin as [-> Hin].
    - intros Hin. assert (VNull ∈ filter (λ v, v = VNull) s) as Hf
        by (by apply list_elem_of_filter).
      destruct (filter _ s); [by apply elem_of_nil in Hf|simpl; lia]. }
  generalize (length (filter (λ v, v = VNull) s)). intros k.
  destruct len as [|n].
  - unfold Qlt, Qdiv, Qmult, Qinv, inject_Z. simpl. lia.
  - unfold Qlt, Qdiv, Qmult, Qinv, inject_Z. simpl. lia.
Qed.

(** C9. For every table the profiler returns the (column, missing
    percentage) pairs of exactly the columns whose missing percentage, the
    share of the missing cells of the column times a hundred, is greater
    than zero, by descending percentage: the result pairs, entry by entry,
    the columns [listed], which are those columns of the table in some
    order, each with a number equal to its missing percentage. *)
Theorem missing_data_profile (w : world) (df : loc) (d : DataFrame) :
  heap w !! df = Some d →
  ∃ missing_data w' listed,
    DataCleaning.analyze_missing_data df w = (Ok missing_data, w') ∧
    Sorted (λ p q, Qle q.2 p.2) missing_data ∧
    listed ≡ₚ filter (λ p, Qlt 0 (missing_percentage p.2 (index_len d))) (data d) ∧
    Forall2 (λ e p, e.1 = p.1 ∧ Qeq e.2 (missing_percentage p.2 (index_len d)))
      missing_data listed.
Proof.
  intros Hdf.
  set (r := DataCleaning.sort_values_desc
              (DataCleaning.keep_positive (missing_percentages d))).
  assert (DataCleaning.keep_positive (missing_percentages d) ≡ₚ r) as Hperm
    by (symmetry; apply sort_perm).
  destruct (Permutation_Forall2 Hperm (keep_positive_listed (data d) (index_len d)))
    as (listed & Hlisted & Hall).
  destruct (print_each_run r
              (World (heap w) (files w)
                 ((stdout w ++ [Printed "Missing Data Analysis:" []]) ++
                  [Printed "Columns with missing values (percentage):" []])))
    as (w' & Hrun & _).
  exists r, w', listed.
  split; [|split; [apply sort_values_desc_Sorted|split; [by symmetry|done]]].
  unfold DataCleaning.analyze_missing_data. run_unfold. rewrite Hdf.
  unfold Frame.isnull_sum. rewrite map_map. simpl.
  fold (missing_percentages d). fold r. by rewrite Hrun.
Qed.

Lemma missing_data_profile_witness :
  ∃ missing_data w' listed,
    DataCleaning.analyze_missing_data 0 world0 = (Ok missing_data, w') ∧
    Sorted (λ p q, Qle q.2 p.2) missing_data ∧
    listed ≡ₚ filter (λ p, Qlt 0 (missing_percentage p.2 (index_len frame0))) (data frame0) ∧
    Forall2 (λ e p, e.1 = p.1 ∧ Qeq e.2 (missing_percentage p.2 (index_len frame0)))
      missing_data listed.
Proof. apply (missing_data_profile world0 0 frame0). reflexivity. Defined.

(** ** Journal names *)

Lemma NoDup_value_counts s : NoDup (Series.value_counts s).*1.
Proof.
  unfold Series.value_counts, Counting.by_count_desc.
  rewrite sort_perm. apply NoDup_tally.
Qed.


Lemma occurs_once {A} `{EqDecision A} (l : list A) (x : A) :
  x ∈ l → 1 ≤ length (filter (λ y, y = x) l).
Proof.
  induction 1 as [x l|x y l Hin IH]; rewrite filter_cons.
  - rewrite decide_True by done. simpl. lia.
  - case_decide; simpl; lia.
Qed.


Lemma journal_names journal :
  Series.str_title (Series.str_strip (Series.fillna (VStr "Unknown Journal") journal)) =
  map journal_name journal.
Proof.
  unfold Series.str_title, Series.str_strip, Series.str_method, Series.fillna.
  rewrite !map_map. apply map_ext. by intros [].
Qed.




(** The two spellings of The Lancet in the example table are within ASCII
    and differ in surrounding whitespace and letter case only. *)
Lemma lancet_spellings_differ :
  ascii_text " the lancet" = true ∧ ascii_text "The Lancet  " = true ∧
  differ_in_blanks_or_case " the lancet" "The Lancet  ".
Proof.
  split; [done|]. split; [done|].
  exists [" "%char], (Text.chars "the lancet"), [], [], (Text.chars "The Lancet"),
    (Text.chars "  ").
  split; [done|]. split; [done|].
  assert (blank " "%char) as Hb by by apply is_space_blank.
  repeat (split; [by repeat constructor|]).
  repeat (constructor; [first [by left|right; vm_compute; lia]|]). constructor.
Qed.

(** On the example table the two spellings of The Lancet are one journal
    with two papers. *)
Lemma lancet_counted_once :
  ∃ r w' d' journal,
    DataCleaning.clean_and_prepare_data Pandas.iso_reader 0 world0 = (Ok r, w') ∧
    heap w' !! r = Some d' ∧
    Frame.getitem d' "journal" = Some journal ∧
    Series.value_counts journal = [(VStr "The Lancet", 2); (VStr "Unknown Journal", 1)].
Proof. do 4 eexists. vm_compute. repeat split. Qed.

(** ** preprocess_data.py *)

Lemma lookup_col_filter (P : string → Prop) `{∀ c, Decision (P c)} c l :
  Frame.lookup_col c (filter (λ p, P p.1) l) =
  if decide (P c) then Frame.lookup_col c l else None.
Proof.
  induction l as [|[c' s] l IH]; simpl; [by case_decide|].
  rewrite filter_cons. simpl.
  destruct (decide (P c')) as [HP|HP]; simpl;
    destruct (decide (c' = c)) as [->|Hne]; try done.
  - by destruct (decide (P c)).
  - rewrite IH. by destruct (decide (P c)).
Qed.

Lemma columns_head n d : Frame.columns (Frame.head n d) = Frame.columns d.
Proof.
  unfold Frame.columns, Frame.head. simpl. rewrite <- list_fmap_compose.
  apply list_fmap_ext. by intros ? [].
Qed.

Lemma getitem_loaded d c :
  c ∈ PreprocessData.possible_columns →
  Frame.getitem (PreprocessSpec.loaded d) c = Frame.getitem d c.
Proof.
  intros Hc. unfold PreprocessSpec.loaded, Frame.getitem. simpl.
  pose proof (lookup_col_filter (λ c, c ∈ PreprocessSpec.essential_columns d) c (data d))
    as Hfilter.
  simpl in Hfilter. rewrite Hfilter. clear Hfilter.
  case_decide as Hin; [done|]. symmetry.
  destruct (Frame.lookup_col c (data d)) as [s|] eqn:Hs; [|done].
  destruct Hin. apply list_elem_of_filter. split; [|done].
  apply lookup_col_Some. by rewrite Hs.
Qed.

Section TopRulesMore.
Context (h : list DataFrame) (fs : gmap string file).
Implicit Types (d : DataFrame) (w : world) (E : exn → world → Prop).

Lemma wp_len d (Q : nat → world → Prop) E w :
  top h fs d w → Q (index_len d) w → wp (df_len (length h)) Q E w.
Proof.
  intros Hw HQ. unfold wp, df_len, bind, deref, ret.
  by rewrite (top_lookup _ _ _ _ Hw).
Qed.

Lemma wp_deref d (Q : DataFrame → world → Prop) E w :
  top h fs d w → Q d w → wp (deref (length h)) Q E w.
Proof. intros Hw HQ. unfold wp, deref. by rewrite (top_lookup _ _ _ _ Hw). Qed.

Lemma wp_write_file d path f (Q : unit → world → Prop) E w :
  top h fs d w →
  (∀ w', top h (<[path := f]> fs) d w' → Q () w') →
  wp (write_file path f) Q E w.
Proof. intros [Hh Hf] HQ. apply HQ. split; simpl; [done|by rewrite Hf]. Qed.

Lemma wp_alloc d x (Q : loc → world → Prop) E w :
  top h fs d w →
  (∀ w', top (h ++ [d]) fs x w' → Q (length (h ++ [d])) w') →
  wp (alloc x) Q E w.
Proof.
  intros [Hh Hf] HQ. unfold wp, alloc. simpl. rewrite Hh. apply HQ. by split.
Qed.

Lemma top_second d x w : top (h ++ [d]) fs x w → second h fs d w.
Proof. intros [Hh Hf]. split; [|done]. exists x. by rewrite Hh, <- app_assoc. Qed.

Lemma second_lookup d w : second h fs d w → heap w !! length h = Some d.
Proof. intros [[x ->] _]. by apply list_lookup_middle. Qed.

Lemma wp_print_second t a d (Q : unit → world → Prop) E w :
  second h fs d w → (∀ w', second h fs d w' → Q () w') → wp (print t a) Q E w.
Proof. intros Hw HQ. apply HQ. destruct Hw. by split. Qed.

Lemma wp_write_file_second d path f (Q : unit → world → Prop) E w :
  second h fs d w →
  (∀ w', second h (<[path := f]> fs) d w' → Q () w') →
  wp (write_file path f) Q E w.
Proof. intros [Hh Hf] HQ. apply HQ. split; simpl; [done|by rewrite Hf]. Qed.

Lemma wp_len_second d (Q : nat → world → Prop) E w :
  second h fs d w → Q (index_len d) w → wp (df_len (length h)) Q E w.
Proof.
  intros Hw HQ. unfold wp, df_len, bind, deref, ret.
  by rewrite (second_lookup _ _ Hw).
Qed.

Lemma wp_getitem_second d c (Q : list value → world → Prop) E w :
  second h fs d w →
  match Frame.getitem d c with
  | Some s => Q s w
  | None => E (KeyError c) w
  end →
  wp (df_getitem (length h) c) Q E w.
Proof.
  intros Hw HQ. unfold wp, df_getitem, bind, deref.
  rewrite (second_lookup _ _ Hw). by destruct (Frame.getitem d c).
Qed.
End TopRulesMore.

Lemma wp_print_any t a (Q : unit → world → Prop) (E : exn → world → Prop) (w : world) :
  (∀ w', heap w' = heap w → files w' = files w → Q () w') → wp (print t a) Q E w.
Proof. intros HQ. by apply HQ. Qed.

Lemma wp_read_csv_nrows path n d (Q : loc → world → Prop) (E : exn → world → Prop)
    (w : world) :
  files w !! path = Some (CsvFile d) →
  (∀ w', top (heap w) (files w) (Frame.head (Z.of_nat n) d) w' → Q (length (heap w)) w') →
  wp (read_csv_nrows path n) Q E w.
Proof.
  intros Hfile HQ. unfold wp, read_csv_nrows. rewrite Hfile. by apply HQ.
Qed.

Lemma wp_read_csv_usecols h fs d0 path cols d (Q : loc → world → Prop)
    (E : exn → world → Prop) (w : world) :
  top h fs d0 w →
  fs !! path = Some (CsvFile d) →
  forallb (λ c, bool_decide (c ∈ Frame.columns d)) cols = true →
  (∀ w', top (h ++ [d0]) fs
             (MkFrame (index_len d) (filter (λ p, p.1 ∈ cols) (data d))) w' →
         Q (length (h ++ [d0])) w') →
  wp (read_csv_usecols path cols) Q E w.
Proof.
  intros [Hh Hf] Hfile Hcols HQ. unfold wp, read_csv_usecols.
  rewrite Hf, Hfile, Hcols. unfold alloc. simpl. rewrite Hh. by apply HQ.
Qed.

Lemma wp_try_except {A} (m : M A) (handles : exn → bool) (h : exn → M A)
    (Q : A → world → Prop) (E : exn → world → Prop) (w : world) :
  wp m Q (λ e w', if handles e then wp (h e) Q E w' else E e w') w →
  wp (try_except m handles h) Q E w.
Proof.
  unfold wp, try_except. destruct (m w) as [[a|e] w']; [done|].
  by destruct (handles e).
Qed.

Section PreprocessRun.
Variable read : Pandas.date_reader.
Variable sample : nat → DataFrame → DataFrame.

(** When metadata.csv holds a table with a title and an abstract column,
    [preprocess_and_save] returns the reference of the table it loaded, and
    that object holds the preprocessed table: the loaded table was filled
    in place. *)
Lemma preprocess_wp d title abstract w :
  files w !! "metadata.csv" = Some (CsvFile d) →
  Frame.getitem d "title" = Some title →
  Frame.getitem d "abstract" = Some abstract →
  wp (PreprocessData.preprocess_and_save read sample)
     (λ r w', r = S (length (heap w)) ∧
              heap w' !! r =
                Some (PreprocessSpec.prepared read (PreprocessSpec.loaded d)))
     (λ _ _, False) w.
Proof.
  intros Hfile Ht Ha. unfold PreprocessData.preprocess_and_save.
  assert ("title" ∈ PreprocessSpec.essential_columns d) as Hess.
  { apply list_elem_of_filter. split; [|unfold PreprocessData.possible_columns; set_solver].
    apply lookup_col_Some. unfold Frame.getitem in Ht. by rewrite Ht. }
  eapply wp_bind, wp_print_any. intros w0 Hh0 Hf0.
  eapply wp_bind, wp_try_except.
  eapply wp_bind, wp_read_csv_nrows; [by rewrite Hf0|]. intros w1 Hw.
  eapply wp_bind, wp_columns; [done|]. rewrite columns_head.
  eapply wp_bind, wp_print; [done|]. clear w1 Hw. intros w1 Hw.
  fold (PreprocessSpec.essential_columns d).
  rewrite bool_decide_eq_false_2 by (by intros []).
  eapply wp_bind, wp_print; [done|]. clear w1 Hw. intros w1 Hw.
  eapply wp_read_csv_usecols; [done|by rewrite Hf0| |].
  { apply forallb_forall. intros c Hc%list_elem_of_In. apply bool_decide_eq_true.
    by apply list_elem_of_filter in Hc as [? _]. }
  fold (PreprocessSpec.loaded d). clear w1 Hw. intros w1 Hw.
  set (h := heap w0 ++ [Frame.head _ d]) in *.
  set (dl := PreprocessSpec.loaded d) in *.
  assert (Frame.getitem dl "title" = Some title) as Htl.
  { unfold dl. rewrite getitem_loaded; [done|].
    unfold PreprocessData.possible_columns; set_solver. }
  assert (Frame.getitem dl "abstract" = Some abstract) as Hal.
  { unfold dl. rewrite getitem_loaded; [done|].
    unfold PreprocessData.possible_columns; set_solver. }
  eapply wp_bind, wp_shape; [done|].
  eapply wp_bind, wp_print; [done|]. clear w1 Hw. intros w1 Hw.
  eapply wp_bind, wp_getitem; [done|]. rewrite Htl.
  eapply wp_bind, wp_setitem; [done|]. clear w1 Hw. intros w1 Hw.
  eapply wp_bind, wp_getitem; [done|]. frame_simpl. rewrite Hal.
  eapply wp_bind, wp_setitem; [done|]. clear w1 Hw. intros w1 Hw.
  assert (Frame.setitem
            (Frame.setitem dl "title" (Series.fillna (VStr "Unknown Title") title))
            "abstract" (Series.fillna (VStr "") abstract) =
          fill "abstract" (VStr "") (fill "title" (VStr "Unknown Title") dl)) as Hfill.
  { unfold fill. frame_simpl. by rewrite Htl, Hal. }
  rewrite Hfill in Hw. clear Hfill.
  eapply wp_bind, wp_columns; [done|].
  eapply wp_bind, wp_fill_block; [done|]. clear w1 Hw. intros w1 Hw.
  eapply wp_bind, wp_columns; [done|].
  eapply wp_bind, wp_year_block; [done|]. clear w1 Hw. intros w1 Hw.
  set (d4 := SrcMainSpec.with_year read _) in *.
  assert (is_Some (Frame.getitem d4 "abstract")) as [a Ha4].
  { unfold d4. rewrite getitem_with_year_ne, getitem_fill_ne by done.
    apply getitem_fill_eq. }
  eapply wp_bind, wp_getitem; [done|]. rewrite Ha4.
  eapply wp_bind, wp_setitem; [done|]. clear w1 Hw. intros w1 Hw.
  eapply wp_bind, wp_getitem; [done|]. frame_simpl.
  eapply wp_bind, wp_lift. rewrite gt_zero_word_counts.
  eapply wp_bind, wp_setitem; [done|]. clear w1 Hw. intros w1 Hw.
  assert (Frame.setitem
            (Frame.setitem d4 "abstract_word_count" (map Series.word_count a))
            "has_abstract" (map has_words a) = PreprocessSpec.prepared read dl) as Hprep.
  { unfold PreprocessSpec.prepared, column. fold d4. by rewrite Ha4. }
  rewrite Hprep in Hw. clear Hprep.
  eapply wp_bind, wp_deref; [done|].
  eapply wp_bind, wp_write_file; [done|]. clear w1 Hw. intros w1 Hw.
  eapply wp_bind, wp_print; [done|]. clear w1 Hw. intros w1 Hw.
  eapply wp_bind, wp_len; [done|].
  eapply wp_bind, wp_alloc; [done|]. clear w1 Hw. intros w1 Hw.
  eapply wp_bind, wp_deref; [done|].
  eapply wp_bind, wp_write_file; [done|]. clear w1 Hw. intros w1 Hw.
  eapply wp_bind, wp_len; [done|].
  eapply wp_bind, wp_print; [done|]. clear w1 Hw. intros w1 Hw.
  apply top_second in Hw.
  eapply wp_bind, wp_print_second; [done|]. clear w1 Hw. intros w1 Hw.
  eapply wp_bind, wp_len_second; [done|].
  eapply wp_bind, wp_print_second; [done|]. clear w1 Hw. intros w1 Hw.
  eapply wp_bind, wp_getitem_second; [done|].
  assert (is_Some (Frame.getitem (PreprocessSpec.prepared read dl) "year")) as [y Hy].
  { unfold PreprocessSpec.prepared. frame_simpl. unfold SrcMainSpec.with_year.
    destruct (Frame.getitem _ "publish_time"); frame_simpl; eauto. }
  rewrite Hy.
  eapply wp_bind, wp_print_second; [done|]. clear w1 Hw. intros w1 Hw.
  eapply wp_bind, wp_getitem_second; [done|].
  unfold PreprocessSpec.prepared at 1. frame_simpl.
  eapply wp_bind, wp_print_second; [done|]. clear w1 Hw. intros w1 Hw.
  apply wp_ret. split.
  - unfold h. rewrite length_app, Hh0. simpl. lia.
  - by apply second_lookup in Hw.
Qed.
End PreprocessRun.

(** preprocess_data.py treats an unreadable date as src/main.py does: when
    metadata.csv holds a table with title, abstract and publish-date
    columns, [preprocess_and_save] returns, and a record whose date cannot
    be read has the year 2020 in the table it returns. *)
Lemma preprocess_fills_year_2020
    (read : Pandas.date_reader) (sample : nat → DataFrame → DataFrame)
    (w : world) (d : DataFrame) (title abstract publish_time : list value)
    (i : nat) (v : value) :
  files w !! "metadata.csv" = Some (CsvFile d) →
  Frame.getitem d "title" = Some title →
  Frame.getitem d "abstract" = Some abstract →
  Frame.getitem d "publish_time" = Some publish_time →
  publish_time !! i = Some v →
  read publish_time v = None →
  ∃ r w' d' year,
    PreprocessData.preprocess_and_save read sample w = (Ok r, w') ∧
    heap w' !! r = Some d' ∧
    Frame.getitem d' "year" = Some year ∧
    year !! i = Some (VInt 2020).
Proof.
  intros Hfile Ht Ha Hp Hi Hv.
  pose proof (preprocess_wp read sample d title abstract w Hfile Ht Ha) as Hwp.
  unfold wp in Hwp.
  destruct (PreprocessData.preprocess_and_save read sample w) as [[r|e] w']; [|done].
  destruct Hwp as [-> Hr]. do 3 eexists. eexists. split; [done|]. split; [done|].
  assert (Frame.getitem (PreprocessSpec.loaded d) "publish_time" = Some publish_time) as Hpl.
  { rewrite getitem_loaded; [done|]. unfold PreprocessData.possible_columns; set_solver. }
  split.
  - unfold PreprocessSpec.prepared. frame_simpl. unfold SrcMainSpec.with_year.
    rewrite !getitem_fill_ne by done. rewrite Hpl. by frame_simpl.
  - unfold Pandas.to_datetime. rewrite !list_lookup_fmap, Hi. simpl. by rewrite Hv.
Qed.

(** ** The words of titles *)

Lemma length_text l : String.length (Text.text l) = length l.
Proof. induction l as [|c l IH]; simpl; [done|by rewrite IH]. Qed.

Lemma is_alpha_not_word c : Text.is_word c = false → Text.is_alpha c = false.
Proof. unfold Text.is_word. by destruct (Text.is_alpha c). Qed.

Lemma is_lower_to_lower c :
  Text.is_alpha (Text.to_lower c) = true → Text.is_lower (Text.to_lower c) = true.
Proof. by destruct c as [[] [] [] [] [] [] [] []]. Qed.

Lemma letters_prefix_le l : Text.letters_prefix l ≤ length l.
Proof. induction l as [|c l IH]; simpl; [done|]. destruct (Text.is_alpha c); simpl; lia. Qed.

Lemma letters_prefix_take k l :
  k ≤ Text.letters_prefix l → Forall (λ c, Text.is_alpha c = true) (take k l).
Proof.
  revert k. induction l as [|c l IH]; intros [|k] Hk; simpl in *; try done.
  destruct (Text.is_alpha c) eqn:Hc; [|lia].
  constructor; [done|]. apply IH. lia.
Qed.

Lemma give_back_bounds prev l k0 k :
  Text.give_back prev l k0 = Some k → 3 ≤ k ∧ k ≤ k0.
Proof.
  induction k0 as [|k0 IH]; [done|]. cbn [Text.give_back].
  destruct (S k0 <? 3) eqn:Hlt; [done|]. apply Nat.ltb_ge in Hlt.
  destruct (Text.boundary prev l (S k0)).
  - intros [= <-]. lia.
  - intros Hg. apply IH in Hg. lia.
Qed.

Lemma match_here_bounds prev l k :
  Text.match_here prev l = Some k → 3 ≤ k ∧ k ≤ Text.letters_prefix l.
Proof.
  unfold Text.match_here. destruct (Text.boundary prev l 0); [|done].
  apply give_back_bounds.
Qed.

(** Every match is made of three letters or more of the text. *)
Lemma scan_tokens (P : ascii → Prop) prev l skip :
  Forall P l →
  Forall (λ t, 3 ≤ length t ∧ Forall (λ c, Text.is_alpha c = true ∧ P c) t)
    (Text.scan prev l skip).
Proof.
  revert prev skip. induction l as [|c l IH]; intros prev skip HP; simpl; [constructor|].
  assert (Forall P l) as HP' by (by inversion HP).
  destruct skip as [|n]; [|by apply IH].
  destruct (Text.match_here prev (c :: l)) as [k|] eqn:Hm; [|by apply IH].
  constructor; [|by apply IH].
  apply match_here_bounds in Hm as [H3 Hk].
  pose proof (letters_prefix_le (c :: l)) as Hle.
  split.
  - rewrite length_take. lia.
  - apply Forall_and. split; [by apply letters_prefix_take|].
    by apply Forall_take.
Qed.

Lemma findall_lower s : Forall lowercase_word (Text.findall_words (Text.lower s)).
Proof.
  unfold Text.findall_words, Text.lower. rewrite chars_text, Forall_fmap.
  eapply Forall_impl.
  - apply (scan_tokens (λ c, ∃ c0, c = Text.to_lower c0)).
    apply Forall_fmap, Forall_true. intros c. by exists c.
  - intros t [Hlen Ht]. split; simpl.
    + by rewrite length_text.
    + rewrite chars_text. eapply Forall_impl; [exact Ht|].
      intros c [Hc [c0 ->]]. by apply is_lower_to_lower.
Qed.

(** *** A blank between two titles separates their words *)

Lemma word_at_sep l c l2 j :
  Text.is_word c = false → j ≤ length l →
  Text.word_at (l ++ c :: l2) j = Text.word_at l j.
Proof.
  intros Hc Hj. unfold Text.word_at.
  destruct (decide (j < length l)) as [Hlt|Hge].
  - by rewrite lookup_app_l.
  - assert (j = length l) as -> by lia.
    rewrite list_lookup_middle by done.
    rewrite (lookup_ge_None_2 l) by done. done.
Qed.

Lemma boundary_sep prev l c l2 i :
  Text.is_word c = false → i ≤ length l →
  Text.boundary prev (l ++ c :: l2) i = Text.boundary prev l i.
Proof.
  intros Hc Hi. destruct i as [|j]; simpl.
  - by rewrite word_at_sep by (done || lia).
  - by rewrite !word_at_sep by (done || lia).
Qed.

Lemma give_back_sep prev l c l2 k :
  Text.is_word c = false → k ≤ length l →
  Text.give_back prev (l ++ c :: l2) k = Text.give_back prev l k.
Proof.
  intros Hc. induction k as [|k IH]; intros Hk; [done|]. cbn [Text.give_back].
  destruct (S k <? 3); [done|].
  rewrite boundary_sep by done.
  destruct (Text.boundary prev l (S k)); [done|]. apply IH. lia.
Qed.

Lemma letters_prefix_sep l c l2 :
  Text.is_alpha c = false → Text.letters_prefix (l ++ c :: l2) = Text.letters_prefix l.
Proof.
  intros Hc. induction l as [|a l IH]; simpl; [by rewrite Hc|].
  by rewrite IH.
Qed.

Lemma match_here_sep prev l c l2 :
  Text.is_word c = false →
  Text.match_here prev (l ++ c :: l2) = Text.match_here prev l.
Proof.
  intros Hc. unfold Text.match_here.
  rewrite boundary_sep by (done || lia).
  rewrite letters_prefix_sep by (by apply is_alpha_not_word).
  destruct (Text.boundary prev l 0); [|done].
  apply give_back_sep; [done|apply letters_prefix_le].
Qed.

Lemma give_back_prev p1 p2 l k : Text.give_back p1 l k = Text.give_back p2 l k.
Proof.
  induction k as [|k IH]; simpl; [done|].
  destruct (S k <? 3); [done|]. by rewrite IH.
Qed.

Lemma scan_prev p1 p2 l skip :
  from_option Text.is_word false p1 = from_option Text.is_word false p2 →
  Text.scan p1 l skip = Text.scan p2 l skip.
Proof.
  intros Hp. destruct l as [|c l]; simpl; [done|].
  destruct skip; [|done].
  unfold Text.match_here. simpl. rewrite Hp, (give_back_prev p1 p2). done.
Qed.

Lemma scan_sep prev l c l2 skip :
  Text.is_word c = false → skip ≤ length l →
  Text.scan prev (l ++ c :: l2) skip = Text.scan prev l skip ++ Text.scan None l2 0.
Proof.
  intros Hc. revert prev skip. induction l as [|a l IH]; intros prev skip Hs.
  - assert (skip = 0) as -> by (simpl in Hs; lia). simpl.
    assert (Text.match_here prev (c :: l2) = None) as ->.
    { unfold Text.match_here. simpl. rewrite (is_alpha_not_word c Hc).
      by destruct (xorb _ _). }
    by apply scan_prev; simpl.
  - change ((a :: l) ++ c :: l2) with (a :: (l ++ c :: l2)).
    destruct skip as [|n].
    + cbn [Text.scan].
      change (a :: (l ++ c :: l2)) with ((a :: l) ++ c :: l2).
      rewrite match_here_sep by done.
      destruct (Text.match_here prev (a :: l)) as [k|] eqn:Hm.
      * apply match_here_bounds in Hm as [H3 Hk].
        pose proof (letters_prefix_le (a :: l)) as Hle.
        rewrite take_app_le by lia.
        cbn [length] in Hle.
        rewrite IH by lia. done.
      * by rewrite IH by lia.
    + simpl. apply IH. simpl in Hs. lia.
Qed.

Lemma to_lower_chars s : Text.chars (Text.lower s) = map Text.to_lower (Text.chars s).
Proof. unfold Text.lower. by rewrite chars_text. Qed.

Lemma findall_join p rest :
  Text.findall_words (Text.lower (p +:+ " " +:+ rest)) =
  Text.findall_words (Text.lower p) ++ Text.findall_words (Text.lower rest).
Proof.
  unfold Text.findall_words. rewrite !to_lower_chars, !chars_app, !map_app.
  change (map Text.to_lower (Text.chars " ")) with [" "%char]. simpl.
  rewrite scan_sep by (done || lia). by rewrite map_app.
Qed.

(** The words of the joined titles are the words of each title, one title
    after the other. *)
Lemma findall_joined titles :
  Text.findall_words (Text.lower (Text.join " " titles)) =
  concat (map (λ t, Text.findall_words (Text.lower t)) titles).
Proof.
  induction titles as [|p rest IH]; [done|].
  destruct rest as [|q rest].
  - simpl. by rewrite app_nil_r.
  - change (Text.join " " (p :: q :: rest)) with (p +:+ " " +:+ Text.join " " (q :: rest)).
    rewrite findall_join, IH. done.
Qed.

Lemma word_frequencies_words stop_words titles :
  Titles.word_frequencies stop_words titles =
  (title_words stop_words titles, Counting.tally (title_words stop_words titles)).
Proof. unfold Titles.word_frequencies, title_words. by rewrite findall_joined. Qed.

Lemma length_filter_concat {A} (P : A → Prop) `{∀ x, Decision (P x)} (ls : list (list A)) :
  length (filter P (concat ls)) = sum_list (map (λ l, length (filter P l)) ls).
Proof.
  induction ls as [|l ls IH]; [done|].
  simpl. by rewrite filter_app, length_app, IH.
Qed.

Lemma count_title_words stop_words titles word :
  word ∉ stop_words →
  length (filter (λ x, x = word) (title_words stop_words titles)) =
  sum_list (map (occurrences word) titles).
Proof.
  intros Hw. unfold title_words.
  transitivity (length (filter (λ x, x = word)
                          (concat (map (λ t, Text.findall_words (Text.lower t)) titles)))).
  - induction (concat _) as [|x l IH]; [done|].
    rewrite !filter_cons. destruct (decide (x ∉ stop_words)) as [Hx|Hx].
    + rewrite filter_cons. case_decide; simpl; by rewrite IH.
    + rewrite decide_False; [done|]. by intros ->.
  - by rewrite length_filter_concat, map_map.
Qed.

Lemma title_words_lowercase stop_words titles :
  Forall lowercase_word (title_words stop_words titles).
Proof.
  unfold title_words. apply Forall_forall. intros x [_ Hx]%list_elem_of_filter.
  revert x Hx. apply Forall_forall, Forall_concat, Forall_fmap, Forall_true.
  intros t. apply findall_lower.
Qed.

(** The entries of the word counts. *)
Lemma elem_word_frequencies stop_words titles word n :
  ((word, n) ∈ (Titles.word_frequencies stop_words titles).2) ↔
  (word ∉ stop_words) ∧ n = sum_list (map (occurrences word) titles) ∧ 0 < n.
Proof.
  rewrite word_frequencies_words. simpl. rewrite elem_tally. split.
  - intros [Hin ->].
    assert (word ∉ stop_words) as Hw.
    { unfold title_words in Hin. by apply list_elem_of_filter in Hin as [? _]. }
    split; [done|]. rewrite <- (count_title_words stop_words) by done.
    split; [done|]. by apply occurs_once.
  - intros (Hw & -> & Hn). rewrite <- (count_title_words stop_words) in Hn |- * by done.
    split; [|done].
    destruct (filter _ _) as [|x l] eqn:Hf; [simpl in Hn; lia|].
    assert (x ∈ filter (λ x, x = word) (title_words stop_words titles)) as Hx
      by (rewrite Hf; left).
    apply list_elem_of_filter in Hx as [-> ?]. done.
Qed.

Lemma top_words_nil (words : list string) :
  Counting.most_common 20 (Counting.tally words) = [] ↔ words = [].
Proof.
  split; [|by intros ->].
  unfold Counting.most_common, Counting.by_count_desc. intros Ht.
  assert (Counting.tally words = []) as Hn.
  { destruct (Sorting.sort _ (Counting.tally words)) as [|p l] eqn:Hs; [|done].
    apply Permutation_nil_r. rewrite <- Hs. by rewrite sort_perm. }
  pose proof (total_tally words) as Hl. rewrite Hn in Hl.
  by destruct words.
Qed.

Lemma analyze_titles_src_run df d title w :
  heap w !! df = Some d → Frame.getitem d "title" = Some title →
  let words := title_words SrcMain.stop_words (map Series.py_str title) in
  SrcMain.analyze_titles df w =
  match words with
  | [] => (Raise (ValueError "not enough values to unpack (expected 2, got 0)"),
           World (heap w) (files w)
             (stdout w ++ [Printed "Analyzing title word frequencies..." []]))
  | _ => (Ok (Counting.tally words),
          World (heap w)
            (<["top_title_words.png" :=
                 PngFile "Top 20 Words in Paper Titles (excluding common terms)"]> (files w))
            (stdout w ++ [Printed "Analyzing title word frequencies..." []]))
  end.
Proof.
  intros Hd Ht words. unfold SrcMain.analyze_titles.
  cbv [bind print df_getitem deref]. cbn [heap]. rewrite Hd, Ht.
  cbv [ret]. rewrite word_frequencies_words. fold words.
  destruct words as [|x l] eqn:Hw; [done|].
  destruct (Counting.most_common 20 _) as [|p t] eqn:Hm.
  { by apply top_words_nil in Hm. }
  done.
Qed.

Lemma analyze_titles_first_run df d title w :
  heap w !! df = Some d → Frame.getitem d "title" = Some title →
  let words := title_words AnalysisVisualization.stop_words
                 (map Series.py_str (Series.dropna title)) in
  AnalysisVisualization.analyze_titles df w =
  match words with
  | [] => (Raise (ValueError "not enough values to unpack (expected 2, got 0)"),
           World (heap w) (files w)
             (stdout w ++ [Printed "Analyzing title word frequencies..." []]))
  | _ => (Ok (Counting.tally words),
          World (heap w)
            (<["title_wordcloud.png" := PngFile "Word Cloud of Paper Titles"]>
               (<["top_title_words.png" := PngFile "Top 20 Words in Paper Titles"]>
                  (files w)))
            (stdout w ++ [Printed "Analyzing title word frequencies..." []]))
  end.
Proof.
  intros Hd Ht words. unfold AnalysisVisualization.analyze_titles.
  cbv [bind print df_getitem deref]. cbn [heap]. rewrite Hd, Ht.
  cbv [ret]. rewrite word_frequencies_words. fold words.
  destruct words as [|x l] eqn:Hw; [done|].
  destruct (Counting.most_common 20 _) as [|p t] eqn:Hm.
  { by apply top_words_nil in Hm. }
  done.
Qed.

Lemma elem_tally_title_words stop_words titles word n :
  ((word, n) ∈ Counting.tally (title_words stop_words titles)) ↔
  (word ∉ stop_words) ∧ n = sum_list (map (occurrences word) titles) ∧ 0 < n.
Proof.
  rewrite <- elem_word_frequencies, word_frequencies_words. done.
Qed.

(** X1. The word counts [analyze_titles] returns count each title on its
    own: a word has an entry exactly when it is not a stop word and occurs
    in some title, and its count is the sum over the titles of its
    occurrences among the words of that title; no word has two entries.
    src/main.py reads a missing title as the text nan,
    analysis_visualization.py leaves missing titles out.  Titles are texts
    within ASCII. *)
Theorem title_words_counted_per_title
    (df : loc) (w : world) (d : DataFrame) (title : list value) :
  heap w !! df = Some d →
  Frame.getitem d "title" = Some title →
  ascii_cells title = true →
  (∀ word_freq w',
     SrcMain.analyze_titles df w = (Ok word_freq, w') →
     NoDup word_freq.*1 ∧
     ∀ word n,
       ((word, n) ∈ word_freq) ↔
       (word ∉ SrcMain.stop_words) ∧
       n = sum_list (map (occurrences word) (map Series.py_str title)) ∧ 0 < n) ∧
  (∀ word_freq w',
     AnalysisVisualization.analyze_titles df w = (Ok word_freq, w') →
     NoDup word_freq.*1 ∧
     ∀ word n,
       ((word, n) ∈ word_freq) ↔
       (word ∉ AnalysisVisualization.stop_words) ∧
       n = sum_list (map (occurrences word) (map Series.py_str (Series.dropna title))) ∧
       0 < n).
Proof.
  intros Hd Ht _. split; intros word_freq w' Hrun.
  - rewrite (analyze_titles_src_run df d title w Hd Ht) in Hrun.
    destruct (title_words _ _) eqn:Hw; [done|]. injection Hrun as <- _.
    rewrite <- Hw. split; [apply NoDup_tally|]. intros. apply elem_tally_title_words.
  - rewrite (analyze_titles_first_run df d title w Hd Ht) in Hrun.
    destruct (title_words _ _) eqn:Hw; [done|]. injection Hrun as <- _.
    rewrite <- Hw. split; [apply NoDup_tally|]. intros. apply elem_tally_title_words.
Qed.

Lemma title_words_counted_per_title_witness :
  (∀ word_freq w',
     SrcMain.analyze_titles 0 world_titles = (Ok word_freq, w') →
     NoDup word_freq.*1 ∧
     ∀ word n,
       ((word, n) ∈ word_freq) ↔
       (word ∉ SrcMain.stop_words) ∧
       n = sum_list (map (occurrences word)
                       (map Series.py_str (VStr <$> example_titles))) ∧ 0 < n) ∧
  (∀ word_freq w',
     AnalysisVisualization.analyze_titles 0 world_titles = (Ok word_freq, w') →
     NoDup word_freq.*1 ∧
     ∀ word n,
       ((word, n) ∈ word_freq) ↔
       (word ∉ AnalysisVisualization.stop_words) ∧
       n = sum_list (map (occurrences word)
                       (map Series.py_str (Series.dropna (VStr <$> example_titles)))) ∧
       0 < n).
Proof.
  apply (title_words_counted_per_title 0 world_titles
           (MkFrame 2 [("title", VStr <$> example_titles)]) (VStr <$> example_titles));
    reflexivity.
Defined.

(** X2. Every word [analyze_titles] counts is made of three lower-case
    letters or more: digits, punctuation and capitals never reach the
    counts. *)
Theorem counted_words_are_lowercase
    (df : loc) (w w' : world) (word_freq : list (string * nat)) (word : string) :
  SrcMain.analyze_titles df w = (Ok word_freq, w') ∨
  AnalysisVisualization.analyze_titles df w = (Ok word_freq, w') →
  word ∈ word_freq.*1 →
  lowercase_word word.
Proof.
  intros Hrun Hword.
  assert (∃ stop_words titles, word_freq = Counting.tally (title_words stop_words titles))
    as (stop_words & titles & ->).
  { destruct Hrun as [Hrun|Hrun].
    - unfold SrcMain.analyze_titles in Hrun.
      cbv [bind print df_getitem deref] in Hrun. cbn [heap] in Hrun.
      destruct (heap w !! df) as [d|]; [|done].
      destruct (Frame.getitem d "title") as [title|] eqn:Ht; [|done].
      cbv [ret] in Hrun. rewrite word_frequencies_words in Hrun.
      destruct (Titles.unzip_top_words _ _) as [[?|?] ?]; [|done].
      injection Hrun as <- _. eauto.
    - unfold AnalysisVisualization.analyze_titles in Hrun.
      cbv [bind print df_getitem deref] in Hrun. cbn [heap] in Hrun.
      destruct (heap w !! df) as [d|]; [|done].
      destruct (Frame.getitem d "title") as [title|] eqn:Ht; [|done].
      cbv [ret] in Hrun. rewrite word_frequencies_words in Hrun.
      destruct (Titles.unzip_top_words _ _) as [[?|?] ?]; [|done].
      injection Hrun as <- _. eauto. }
  apply (proj1 (keys_tally _ _)) in Hword.
  pose proof (title_words_lowercase stop_words titles) as Hall.
  rewrite Forall_forall in Hall. by apply Hall.
Qed.

Lemma counted_words_are_lowercase_witness : lowercase_word "lungs".
Proof.
  apply (counted_words_are_lowercase 0 world_titles
           (SrcMain.analyze_titles 0 world_titles).2
           [("lungs", 1); ("lung", 1); ("results", 1)] "lungs").
  - left. vm_compute. reflexivity.
  - vm_compute. left.
Defined.

(** X3. [analyze_titles] needs a word to plot.  When no title holds a word
    that is counted (the table has no rows, or every word is a stop word or
    shorter than three letters) unpacking the top words raises ValueError
    and no chart is written, in both files.  When some title holds one,
    [analyze_titles] of src/main.py returns the counts, which are not
    empty, and writes its chart; that of analysis_visualization.py writes
    the chart of the top words, and when it returns the counts are not
    empty and the word cloud is written too.  The table is left as it is.
    Titles are texts within ASCII. *)
Theorem analyze_titles_raises_without_words
    (df : loc) (w : world) (d : DataFrame) (title : list value) :
  heap w !! df = Some d →
  Frame.getitem d "title" = Some title →
  ascii_cells title = true →
  (∃ res w',
     SrcMain.analyze_titles df w = (res, w') ∧ heap w' = heap w ∧
     (title_words SrcMain.stop_words (map Series.py_str title) = [] →
      res = Raise (ValueError "not enough values to unpack (expected 2, got 0)") ∧
      files w' = files w) ∧
     (title_words SrcMain.stop_words (map Series.py_str title) ≠ [] →
      (∃ word_freq, res = Ok word_freq ∧ word_freq ≠ []) ∧
      files w' =
        <["top_title_words.png" :=
            PngFile "Top 20 Words in Paper Titles (excluding common terms)"]> (files w))) ∧
  (∃ res w',
     AnalysisVisualization.analyze_titles df w = (res, w') ∧ heap w' = heap w ∧
     (title_words AnalysisVisualization.stop_words
        (map Series.py_str (Series.dropna title)) = [] →
      res = Raise (ValueError "not enough values to unpack (expected 2, got 0)") ∧
      files w' = files w) ∧
     (title_words AnalysisVisualization.stop_words
        (map Series.py_str (Series.dropna title)) ≠ [] →
      files w' !! "top_title_words.png" = Some (PngFile "Top 20 Words in Paper Titles") ∧
      ∀ word_freq,
        res = Ok word_freq →
        word_freq ≠ [] ∧
        files w' =
          <["title_wordcloud.png" := PngFile "Word Cloud of Paper Titles"]>
            (<["top_title_words.png" := PngFile "Top 20 Words in Paper Titles"]>
               (files w)))).
Proof.
  intros Hd Ht _. split.
  - rewrite (analyze_titles_src_run df d title w Hd Ht).
    destruct (title_words _ _) as [|x l] eqn:Hw.
    + do 2 eexists. split; [reflexivity|]. split; [reflexivity|].
      split; [by intros _|by intros []].
    + do 2 eexists. split; [reflexivity|]. split; [reflexivity|].
      split; [by intros [=]|]. intros _.
      split; [|reflexivity]. eexists. split; [reflexivity|].
      intros Hn. pose proof (total_tally (x :: l)) as Hl. by rewrite Hn in Hl.
  - rewrite (analyze_titles_first_run df d title w Hd Ht).
    destruct (title_words _ _) as [|x l] eqn:Hw.
    + do 2 eexists. split; [reflexivity|]. split; [reflexivity|].
      split; [by intros _|by intros []].
    + do 2 eexists. split; [reflexivity|]. split; [reflexivity|].
      split; [by intros [=]|]. intros _. simpl. split.
      * rewrite lookup_insert_ne by done. by rewrite lookup_insert_eq.
      * intros word_freq [= <-]. split; [|done].
        intros Hn. pose proof (total_tally (x :: l)) as Hl. by rewrite Hn in Hl.
Qed.

Lemma analyze_titles_raises_without_words_witness :
  (∃ res w',
     SrcMain.analyze_titles 0 world_stop_word = (res, w') ∧ heap w' = heap world_stop_word ∧
     (title_words SrcMain.stop_words (map Series.py_str [VStr "of"]) = [] →
      res = Raise (ValueError "not enough values to unpack (expected 2, got 0)") ∧
      files w' = files world_stop_word) ∧
     (title_words SrcMain.stop_words (map Series.py_str [VStr "of"]) ≠ [] →
      (∃ word_freq, res = Ok word_freq ∧ word_freq ≠ []) ∧
      files w' =
        <["top_title_words.png" :=
            PngFile "Top 20 Words in Paper Titles (excluding common terms)"]>
          (files world_stop_word))) ∧
  (∃ res w',
     AnalysisVisualization.analyze_titles 0 world_stop_word = (res, w') ∧
     heap w' = heap world_stop_word ∧
     (title_words AnalysisVisualization.stop_words
        (map Series.py_str (Series.dropna [VStr "of"])) = [] →
      res = Raise (ValueError "not enough values to unpack (expected 2, got 0)") ∧
      files w' = files world_stop_word) ∧
     (title_words AnalysisVisualization.stop_words
        (map Series.py_str (Series.dropna [VStr "of"])) ≠ [] →
      files w' !! "top_title_words.png" = Some (PngFile "Top 20 Words in Paper Titles") ∧
      ∀ word_freq,
        res = Ok word_freq →
        word_freq ≠ [] ∧
        files w' =
          <["title_wordcloud.png" := PngFile "Word Cloud of Paper Titles"]>
            (<["top_title_words.png" := PngFile "Top 20 Words in Paper Titles"]>
               (files world_stop_word)))).
Proof.
  apply (analyze_titles_raises_without_words 0 world_stop_word
           (MkFrame 1 [("title", [VStr "of"])]) [VStr "of"]); reflexivity.
Defined.

(** *** The text that stands for a missing title is counted *)

Lemma null_count_cons v s :
  Series.null_count (v :: s) = (if Series.isnull v then 1 else 0) + Series.null_count s.
Proof. unfold Series.null_count. rewrite filter_cons. by destruct v. Qed.

Lemma occurrences_filled word v title :
  1 ≤ occurrences word (Series.py_str v) →
  Series.null_count title ≤
  sum_list (map (occurrences word) (map Series.py_str (Series.fillna v title))).
Proof.
  intros Hv. induction title as [|x s IH]; [done|].
  rewrite null_count_cons. simpl. destruct (Series.isnull x); simpl; lia.
Qed.

Lemma cleaning_title read d d' title :
  DataCleaningSpec.cleaned read d = Ok d' →
  Frame.getitem d "title" = Some title →
  Frame.getitem d' "title" = Some (Series.fillna (VStr "Unknown Title") title).
Proof.
  intros (t & a & p' & j & Ht & _ & _ & _ & ->)%cleaning_inv Ht'.
  rewrite Ht' in Ht. injection Ht as <-.
  rewrite getitem_setitem_ne by done.
  unfold DataCleaningSpec.prepared. rewrite getitem_with_features_ne by done.
  by frame_simpl.
Qed.

Lemma filler_words_counted stop_words title :
  "unknown" ∉ stop_words → "title" ∉ stop_words →
  0 < Series.null_count title →
  let words := title_words stop_words
                 (map Series.py_str (Series.fillna (VStr "Unknown Title") title)) in
  words ≠ [] ∧
  ∃ n m, (("unknown", n) ∈ Counting.tally words) ∧ (("title", m) ∈ Counting.tally words) ∧
         Series.null_count title ≤ n ∧ Series.null_count title ≤ m.
Proof.
  intros Hu Ht Hnull words.
  pose proof (occurrences_filled "unknown" (VStr "Unknown Title") title) as Hn.
  pose proof (occurrences_filled "title" (VStr "Unknown Title") title) as Hm.
  specialize (Hn ltac:(by vm_compute)). specialize (Hm ltac:(by vm_compute)).
  assert (∃ n, (("unknown", n) ∈ Counting.tally words) ∧ Series.null_count title ≤ n)
    as (n & Hin & Hle).
  { eexists. split; [|exact Hn]. apply elem_tally_title_words. repeat split; [done|lia]. }
  split.
  - intros Hw. rewrite Hw in Hin. by apply elem_of_nil in Hin.
  - exists n. eexists. split; [done|]. split; [|split; [done|exact Hm]].
    apply elem_tally_title_words. repeat split; [done|lia].
Qed.

(** X4. The text put in place of a missing title is analysed like a title:
    along both pipelines every row whose title was missing adds one to the
    counts of the words unknown and title, so that on a table with a
    missing title [analyze_titles] returns entries for these two words,
    each at least as large as the number of missing titles. *)
Theorem missing_titles_are_counted_as_words
    (read : Pandas.date_reader) (w : world) (df : loc) (d : DataFrame)
    (title : list value) :
  heap w !! df = Some d →
  Frame.getitem d "title" = Some title →
  0 < Series.null_count title →
  (∃ r w1 word_freq w2 n m,
     SrcMain.clean_and_prepare_data read df w = (Ok r, w1) ∧
     SrcMain.analyze_titles r w1 = (Ok word_freq, w2) ∧
     (("unknown", n) ∈ word_freq) ∧ (("title", m) ∈ word_freq) ∧
     Series.null_count title ≤ n ∧ Series.null_count title ≤ m) ∧
  (∀ r w1,
     DataCleaning.clean_and_prepare_data read df w = (Ok r, w1) →
     ∃ word_freq w2 n m,
       AnalysisVisualization.analyze_titles r w1 = (Ok word_freq, w2) ∧
       (("unknown", n) ∈ word_freq) ∧ (("title", m) ∈ word_freq) ∧
       Series.null_count title ≤ n ∧ Series.null_count title ≤ m).
Proof.
  intros Hd Ht Hnull. split.
  - destruct (src_clean_run read df d w Hd) as (w1 & Hrun & Hh & _).
    assert (heap w1 !! length (heap w) = Some (SrcMainSpec.cleaned read d)) as Hd1.
    { rewrite Hh. by apply list_lookup_middle. }
    assert (Frame.getitem (SrcMainSpec.cleaned read d) "title" =
            Some (Series.fillna (VStr "Unknown Title") title)) as Ht1.
    { rewrite (cleaned_text_column read d "title" (VStr "Unknown Title")) by in_defaults.
      by rewrite Ht. }
    pose proof (analyze_titles_src_run _ _ _ _ Hd1 Ht1) as Hrun2. simpl in Hrun2.
    destruct (filler_words_counted SrcMain.stop_words title) as (Hw & n & m & Hn & Hm & Hle);
      [by apply (bool_decide_unpack _)|by apply (bool_decide_unpack _)|done|].
    destruct (title_words _ _) as [|x l] eqn:Hwords; [done|].
    exists (length (heap w)), w1. do 2 eexists. exists n, m.
    split; [done|]. split; [exact Hrun2|]. done.
  - intros r w1 Hrun.
    destruct (cleaning_run read df d w Hd) as (res & w1' & d' & Hrun' & Hres & Hh & _ & Hok).
    rewrite Hrun in Hrun'. injection Hrun' as <- <-.
    specialize (Hok r eq_refl). rewrite Hok in Hres. injection Hres as ->.
    assert (heap w1 !! S (length (heap w)) = Some d') as Hd1.
    { rewrite Hh, lookup_app_r by lia.
      by replace (S (length (heap w)) - length (heap w)) with 1 by lia. }
    pose proof (cleaning_title read d d' title Hok Ht) as Ht1.
    pose proof (analyze_titles_first_run _ _ _ _ Hd1 Ht1) as Hrun2. simpl in Hrun2.
    rewrite dropna_no_null in Hrun2 by (by apply fillna_no_null).
    destruct (filler_words_counted AnalysisVisualization.stop_words title)
      as (Hw & n & m & Hn & Hm & Hle);
      [by apply (bool_decide_unpack _)|by apply (bool_decide_unpack _)|done|].
    destruct (title_words _ _) as [|x l] eqn:Hwords; [done|].
    do 2 eexists. exists n, m.
    split; [exact Hrun2|]. done.
Qed.

Lemma missing_titles_are_counted_as_words_witness :
  (∃ r w1 word_freq w2 n m,
     SrcMain.clean_and_prepare_data Pandas.iso_reader 0 world0 = (Ok r, w1) ∧
     SrcMain.analyze_titles r w1 = (Ok word_freq, w2) ∧
     (("unknown", n) ∈ word_freq) ∧ (("title", m) ∈ word_freq) ∧
     Series.null_count [VStr "Covid-19 Study of Lungs"; VNull; VStr "Lung Study Results"] ≤ n ∧
     Series.null_count [VStr "Covid-19 Study of Lungs"; VNull; VStr "Lung Study Results"] ≤ m) ∧
  (∀ r w1,
     DataCleaning.clean_and_prepare_data Pandas.iso_reader 0 world0 = (Ok r, w1) →
     ∃ word_freq w2 n m,
       AnalysisVisualization.analyze_titles r w1 = (Ok word_freq, w2) ∧
       (("unknown", n) ∈ word_freq) ∧ (("title", m) ∈ word_freq) ∧
       Series.null_count [VStr "Covid-19 Study of Lungs"; VNull; VStr "Lung Study Results"] ≤ n ∧
       Series.null_count [VStr "Covid-19 Study of Lungs"; VNull; VStr "Lung Study Results"] ≤ m).
Proof.
  apply (missing_titles_are_counted_as_words Pandas.iso_reader world0 0 frame0
           [VStr "Covid-19 Study of Lungs"; VNull; VStr "Lung Study Results"]).
  - reflexivity.
  - reflexivity.
  - vm_compute. lia.
Defined.

(** ** Counts that leave no row out *)

Lemma fillna_all_null v s :
  forallb Series.isnull s = true → Series.fillna v s = replicate (length s) v.
Proof.
  induction s as [|x s IH]; [done|]. simpl.
  intros [Hx Hs]%andb_true_iff. rewrite Hx, IH by done. done.
Qed.

Lemma filter_replicate_same {A} `{EqDecision A} (x : A) n :
  filter (λ y, y = x) (replicate n x) = replicate n x.
Proof.
  induction n as [|n IH]; [done|]. simpl. rewrite filter_cons, decide_True by done.
  by rewrite IH.
Qed.

(** X5. [safe_value_counts] leaves no row out: the counts add up to the
    length of the column, and every entry is the number of occurrences of
    its label once the missing cells stand under the default name (a column
    of missing cells only, or an empty one, gives the single entry of the
    default name).  [value_counts] alone leaves the missing cells out. *)
Theorem safe_value_counts_covers_every_row (series : list value) (default_name : string) :
  Counting.total (App.safe_value_counts series default_name) = length series ∧
  counts_of (Series.fillna (VStr default_name) series)
    (App.safe_value_counts series default_name) ∧
  Counting.total (Series.value_counts series) = length series - Series.null_count series.
Proof.
  split; [|split; [|apply value_counts_total]].
  - unfold App.safe_value_counts. destruct (forallb _ _) eqn:Hall.
    + unfold Counting.total. simpl. lia.
    + rewrite value_counts_total, length_fillna, fillna_no_null by done. lia.
  - unfold App.safe_value_counts. destruct (forallb _ _) eqn:Hall.
    + constructor; [|constructor]. split; [done|]. simpl.
      rewrite fillna_all_null, filter_replicate_same, length_replicate by done. done.
    + apply value_counts_counts_of.
Qed.

(** ** Counts by year *)

Lemma value_leb_total a b : Series.value_leb a b = false → Series.value_leb b a = true.
Proof.
  destruct a, b; simpl; try done.
  - intros H. by destruct (String.leb_total s s0) as [H'|H']; [rewrite H' in H|].
  - intros H%Z.leb_gt. apply Z.leb_le. lia.
  - by destruct b0, b.
  - unfold Series.datetime_leb. intros H%Z.leb_gt. apply Z.leb_le. lia.
Qed.

Lemma Sorted_NoDup_strict {A B} (R : A * B → A * B → Prop) (l : list (A * B)) :
  Sorted R l → NoDup l.*1 → Sorted (λ p q, R p q ∧ p.1 ≠ q.1) l.
Proof.
  induction 1 as [|p l Hs IH Hhd]; intros Hnd; [constructor|].
  csimpl in Hnd. apply NoDup_cons in Hnd as [Hp Hnd].
  constructor; [by apply IH|].
  destruct Hhd as [|q l' Hpq]; constructor. split; [done|].
  intros Heq. apply Hp. csimpl. rewrite Heq. left.
Qed.

Lemma Sorted_weaken_on {A} (P : A → Prop) (R R' : A → A → Prop) (l : list A) :
  Forall P l → (∀ x y, P x → P y → R x y → R' x y) → Sorted R l → Sorted R' l.
Proof.
  intros HP HR Hs. induction Hs as [|x l Hs IH Hhd]; [constructor|].
  apply Forall_cons in HP as [Hx HP]. constructor; [by apply IH|].
  destruct Hhd as [|y l' Hxy]; constructor.
  apply Forall_cons in HP as [Hy _]. by apply HR.
Qed.

Lemma sort_index_years year :
  Forall (λ v, v = VNull ∨ ∃ n, v = VInt n) year →
  ∃ counts,
    Series.sort_index (Series.value_counts year) = Ok counts ∧
    counts ≡ₚ Series.value_counts year ∧
    Sorted year_before counts.
Proof.
  intros Hyear.
  assert (Forall (λ p : value * nat, ∃ n, p.1 = VInt n) (Series.value_counts year)) as Hint.
  { apply Forall_forall. intros [k n] Hin.
    pose proof (value_counts_keys _ _ Hyear) as Hk. rewrite Forall_forall in Hk.
    apply Hk in Hin as Hk'. apply elem_value_counts in Hin as (_ & Hnn & _).
    simpl in *. by destruct Hk' as [->|?]. }
  eexists. split; [by apply sort_index_ints|]. split; [apply sort_perm|].
  eapply (Sorted_weaken_on (λ p : value * nat, ∃ n, p.1 = VInt n)); last first.
  - apply Sorted_NoDup_strict.
    + apply (sort_Sorted (λ p q : value * nat, Series.value_leb p.1 q.1)).
      intros a b. apply value_leb_total.
    + rewrite sort_perm. apply NoDup_value_counts.
  - intros [k n] [k' n'] [a Ha] [b Hb] [Hle Hne]. simpl in *. subst.
    exists a, b. simpl. split; [done|]. split; [done|].
    apply Z.leb_le in Hle. assert (a ≠ b) by congruence. lia.
  - by rewrite sort_perm.
Qed.

Lemma trends_run df d year w :
  heap w !! df = Some d → Frame.getitem d "year" = Some year →
  Forall (λ v, v = VNull ∨ ∃ n, v = VInt n) year →
  ∃ counts,
    Series.sort_index (Series.value_counts year) = Ok counts ∧
    AnalysisVisualization.analyze_publication_trends df w =
      (Ok counts,
       World (heap w)
         (<["publications_by_year.png" :=
              PngFile "Number of COVID-19 Publications by Year"]> (files w))
         (stdout w ++ [Printed "Analyzing publication trends..." []])) ∧
    SrcMain.analyze_publication_trends df w =
      (Ok counts,
       World (heap w)
         (<["publications_by_year.png" :=
              PngFile "Number of COVID-19 Publications by Year"]> (files w))
         (stdout w ++ [Printed "Analyzing publication trends..." []])).
Proof.
  intros Hd Hy Hyear. destruct (sort_index_years year Hyear) as (counts & Hc & _).
  exists counts. split; [done|].
  unfold AnalysisVisualization.analyze_publication_trends,
    SrcMain.analyze_publication_trends. run_unfold. by rewrite Hd, Hy, Hc.
Qed.

(** X6. On a year column of integers and missing cells both
    [analyze_publication_trends] return the counts in strictly increasing
    order of the year: every year of the column has exactly one entry,
    which is the number of rows of that year, and the rows without a year
    are the only ones left out. *)
Theorem yearly_counts_in_year_order
    (df : loc) (w : world) (d : DataFrame) (year : list value) :
  heap w !! df = Some d →
  Frame.getitem d "year" = Some year →
  Forall (λ v, v = VNull ∨ ∃ n, v = VInt n) year →
  ∃ counts w1 w2,
    AnalysisVisualization.analyze_publication_trends df w = (Ok counts, w1) ∧
    SrcMain.analyze_publication_trends df w = (Ok counts, w2) ∧
    Sorted year_before counts ∧
    (∀ y n, ((VInt y, n) ∈ counts) ↔
            VInt y ∈ year ∧ n = length (filter (λ x, x = VInt y) year)) ∧
    Counting.total counts = length year - Series.null_count year.
Proof.
  intros Hd Hy Hyear.
  destruct (trends_run df d year w Hd Hy Hyear) as (counts & Hc & Hr1 & Hr2).
  destruct (sort_index_years year Hyear) as (counts' & Hc' & Hperm & Hsorted).
  rewrite Hc in Hc'. injection Hc' as <-.
  exists counts. do 2 eexists. split; [exact Hr1|]. split; [exact Hr2|].
  split; [done|]. split.
  - intros y n. rewrite Hperm, elem_value_counts. naive_solver.
  - by rewrite (total_perm _ _ Hperm), value_counts_total.
Qed.

Lemma yearly_counts_in_year_order_witness :
  ∃ counts w1 w2,
    AnalysisVisualization.analyze_publication_trends 0 world_years = (Ok counts, w1) ∧
    SrcMain.analyze_publication_trends 0 world_years = (Ok counts, w2) ∧
    Sorted year_before counts ∧
    (∀ y n, ((VInt y, n) ∈ counts) ↔
            VInt y ∈ [VInt 2021; VNull; VInt 2019; VInt 2021] ∧
            n = length (filter (λ x, x = VInt y) [VInt 2021; VNull; VInt 2019; VInt 2021])) ∧
    Counting.total counts =
      length [VInt 2021; VNull; VInt 2019; VInt 2021] -
      Series.null_count [VInt 2021; VNull; VInt 2019; VInt 2021].
Proof.
  apply (yearly_counts_in_year_order 0 world_years
           (MkFrame 4 [("year", [VInt 2021; VNull; VInt 2019; VInt 2021])])
           [VInt 2021; VNull; VInt 2019; VInt 2021]).
  - reflexivity.
  - reflexivity.
  - repeat (apply Forall_cons; split; [first [by left|right; by eexists]|]).
    by apply Forall_nil.
Defined.

(** ** What the aggregations leave alone *)

Section OnlyWrites.
Context (paths : list string).

Lemma only_writes_ret {A} (a : A) : only_writes paths (ret a).
Proof. by intros w. Qed.

Lemma only_writes_raise {A} e : only_writes paths (raise (A := A) e).
Proof. by intros w. Qed.

Lemma only_writes_lift {A} (r : result A) : only_writes paths (lift r).
Proof. by intros w. Qed.

Lemma only_writes_print t a : only_writes paths (print t a).
Proof. by intros w. Qed.

Lemma only_writes_bind {A B} (m : M A) (k : A → M B) :
  only_writes paths m → (∀ a, only_writes paths (k a)) →
  only_writes paths (x <- m;; k x).
Proof.
  intros Hm Hk w. unfold bind. specialize (Hm w).
  destruct (m w) as [[a|e] w1]; [|done]. simpl in Hm. destruct Hm as [Hh Hf].
  destruct (Hk a w1) as [Hh' Hf']. split; [congruence|].
  intros p Hp. by rewrite Hf', Hf.
Qed.

Lemma only_writes_deref r : only_writes paths (deref r).
Proof. intros w. unfold deref. by destruct (heap w !! r). Qed.

Lemma only_writes_getitem r c : only_writes paths (df_getitem r c).
Proof.
  apply only_writes_bind; [apply only_writes_deref|]. intros d.
  destruct (Frame.getitem d c); [apply only_writes_ret|apply only_writes_raise].
Qed.

Lemma only_writes_columns r : only_writes paths (df_columns r).
Proof.
  apply only_writes_bind; [apply only_writes_deref|]. intros d. apply only_writes_ret.
Qed.

Lemma only_writes_savefig path chart_title :
  path ∈ paths → only_writes paths (savefig path chart_title).
Proof.
  intros Hin w. split; [done|]. intros p Hp. simpl.
  apply lookup_insert_ne. by intros ->.
Qed.

Lemma only_writes_unzip top_words : only_writes paths (Titles.unzip_top_words top_words).
Proof. destruct top_words; [apply only_writes_raise|apply only_writes_ret]. Qed.

Lemma only_writes_print_each l : only_writes paths (DataCleaning.print_each l).
Proof.
  induction l as [|[c q] l IH]; [apply only_writes_ret|].
  simpl. apply only_writes_bind; [apply only_writes_print|done].
Qed.

End OnlyWrites.

Ltac only_writes_step :=
  first
    [ apply only_writes_ret
    | apply only_writes_raise
    | apply only_writes_lift
    | apply only_writes_print
    | apply only_writes_getitem
    | apply only_writes_columns
    | apply only_writes_deref
    | apply only_writes_unzip
    | apply only_writes_print_each
    | apply only_writes_savefig; unfold charts; rewrite !elem_of_cons; tauto
    | apply only_writes_bind; [|intros ?]
    | case_bool_decide ].

Lemma only_writes_more {A} (paths paths' : list string) (m : M A) :
  paths ⊆ paths' → only_writes paths m → only_writes paths' m.
Proof.
  intros Hsub Hm w. destruct (Hm w) as [Hh Hf]. split; [done|].
  intros p Hp. apply Hf. intros Hin. by apply Hp, Hsub.
Qed.

Lemma only_writes_trends df :
  only_writes charts (AnalysisVisualization.analyze_publication_trends df).
Proof. unfold AnalysisVisualization.analyze_publication_trends. repeat only_writes_step. Qed.

Lemma only_writes_journals df :
  only_writes charts (AnalysisVisualization.analyze_journals df).
Proof. unfold AnalysisVisualization.analyze_journals. repeat only_writes_step. Qed.

Lemma only_writes_titles df :
  only_writes charts (AnalysisVisualization.analyze_titles df).
Proof.
  unfold AnalysisVisualization.analyze_titles. 
  apply only_writes_bind; [apply only_writes_print|intros _].
  apply only_writes_bind; [apply only_writes_getitem|intros title].
  destruct (Titles.word_frequencies _ _) as [filtered_words word_freq].
  repeat only_writes_step.
Qed.

Lemma only_writes_sources df :
  only_writes charts (AnalysisVisualization.analyze_sources df).
Proof. unfold AnalysisVisualization.analyze_sources. repeat only_writes_step. Qed.




Lemma only_writes_complete df :
  only_writes charts (AnalysisVisualization.run_complete_analysis df).
Proof.
  unfold AnalysisVisualization.run_complete_analysis.
  apply only_writes_bind; [apply only_writes_print|intros _].
  apply only_writes_bind; [apply only_writes_trends|intros yearly].
  apply only_writes_bind; [apply only_writes_journals|intros journals].
  apply only_writes_bind; [apply only_writes_titles|intros words].
  apply only_writes_bind; [apply only_writes_sources|intros sources].
  repeat only_writes_step.
Qed.


(** ** Columns the aggregations need *)

(** X8. The aggregations read their column unguarded: on a table without
    the year, journal or title column the corresponding [analyze_] function
    of either pipeline raises KeyError for that column before any chart is
    written, and so does [run_complete_analysis] on a table without year
    column.  [analyze_sources] alone asks first: without a source_x column
    it returns None and writes nothing. *)
Theorem aggregations_need_their_columns (df : loc) (w : world) (d : DataFrame) :
  heap w !! df = Some d →
  (Frame.getitem d "year" = None →
   key_error "year" w (AnalysisVisualization.analyze_publication_trends df w) ∧
   key_error "year" w (SrcMain.analyze_publication_trends df w) ∧
   key_error "year" w (AnalysisVisualization.run_complete_analysis df w)) ∧
  (Frame.getitem d "journal" = None →
   key_error "journal" w (AnalysisVisualization.analyze_journals df w) ∧
   key_error "journal" w (SrcMain.analyze_journals df w)) ∧
  (Frame.getitem d "title" = None →
   key_error "title" w (AnalysisVisualization.analyze_titles df w) ∧
   key_error "title" w (SrcMain.analyze_titles df w)) ∧
  (Frame.getitem d "source_x" = None →
   ∃ w', AnalysisVisualization.analyze_sources df w = (Ok None, w') ∧
         heap w' = heap w ∧ files w' = files w).
Proof.
  intros Hd. split; [|split; [|split]]; intros Hc.
  1-3: repeat apply conj;
    unfold AnalysisVisualization.run_complete_analysis,
      AnalysisVisualization.analyze_publication_trends, SrcMain.analyze_publication_trends,
      AnalysisVisualization.analyze_journals, SrcMain.analyze_journals,
      AnalysisVisualization.analyze_titles, SrcMain.analyze_titles;
    run_unfold; by rewrite Hd, Hc.
  unfold AnalysisVisualization.analyze_sources. run_unfold. rewrite Hd. simpl.
  rewrite (contains_None d "source_x" Hc). by eexists.
Qed.

Lemma aggregations_need_their_columns_witness :
  (Frame.getitem frame_ids "year" = None →
   key_error "year" world_ids (AnalysisVisualization.analyze_publication_trends 0 world_ids) ∧
   key_error "year" world_ids (SrcMain.analyze_publication_trends 0 world_ids) ∧
   key_error "year" world_ids (AnalysisVisualization.run_complete_analysis 0 world_ids)) ∧
  (Frame.getitem frame_ids "journal" = None →
   key_error "journal" world_ids (AnalysisVisualization.analyze_journals 0 world_ids) ∧
   key_error "journal" world_ids (SrcMain.analyze_journals 0 world_ids)) ∧
  (Frame.getitem frame_ids "title" = None →
   key_error "title" world_ids (AnalysisVisualization.analyze_titles 0 world_ids) ∧
   key_error "title" world_ids (SrcMain.analyze_titles 0 world_ids)) ∧
  (Frame.getitem frame_ids "source_x" = None →
   ∃ w', AnalysisVisualization.analyze_sources 0 world_ids = (Ok None, w') ∧
         heap w' = heap world_ids ∧ files w' = files world_ids).
Proof. apply (aggregations_need_their_columns 0 world_ids frame_ids). reflexivity. Defined.

(** ** The profile of missing data at its edges *)

Lemma missing_data_run df d w :
  heap w !! df = Some d →
  ∃ w', DataCleaning.analyze_missing_data df w =
          (Ok (DataCleaning.sort_values_desc
                 (DataCleaning.keep_positive (missing_percentages d))), w') ∧
        heap w' = heap w ∧ files w' = files w.
Proof.
  intros Hdf.
  set (r := DataCleaning.sort_values_desc
              (DataCleaning.keep_positive (missing_percentages d))).
  destruct (print_each_run r
              (World (heap w) (files w)
                 ((stdout w ++ [Printed "Missing Data Analysis:" []]) ++
                  [Printed "Columns with missing values (percentage):" []])))
    as (w' & Hrun & Hh & Hf).
  exists w'. split; [|done].
  unfold DataCleaning.analyze_missing_data. run_unfold. rewrite Hdf.
  unfold Frame.isnull_sum. rewrite map_map. simpl.
  fold (missing_percentages d). fold r. by rewrite Hrun.
Qed.

Lemma elem_missing_percentages d c x :
  (c, x) ∈ missing_percentages d ↔
  ∃ s, (c, s) ∈ data d ∧ x = DataCleaning.percent (Series.null_count s) (index_len d).
Proof.
  unfold missing_percentages. rewrite list_elem_of_fmap. split.
  - intros ([c' s] & [= -> ->] & Hin). by exists s.
  - intros (s & Hin & ->). by exists (c, s).
Qed.

Lemma percent_at_most_100 count len q :
  DataCleaning.percent count len = Some q → count ≤ len → Qle q 100.
Proof.
  unfold DataCleaning.percent. destruct len as [|n]; [done|]. intros [= <-] Hle.
  unfold Qle. simpl. rewrite <- Pos.of_nat_succ, Zpos_P_of_succ_nat. lia.
Qed.

Lemma null_count_le s : Series.null_count s ≤ length s.
Proof. apply length_filter. Qed.

Lemma percent_is_Some count len : len ≠ 0 → is_Some (DataCleaning.percent count len).
Proof. destruct len; [done|]. by eexists. Qed.

(** X9. The profile at its edges.  On a table with one cell per row in
    every column [analyze_missing_data] returns, prints only, and every
    entry belongs to a column with a missing cell and lies above 0 and at
    most at 100.  The profile is empty exactly when the table has no rows
    (0/0 is not a positive number) or no column has a missing cell. *)
Theorem missing_profile_bounds (w : world) (df : loc) (d : DataFrame) :
  heap w !! df = Some d →
  Frame.wf d →
  ∃ missing_data w',
    DataCleaning.analyze_missing_data df w = (Ok missing_data, w') ∧
    heap w' = heap w ∧ files w' = files w ∧
    (∀ c q, (c, q) ∈ missing_data →
            Qlt 0 q ∧ Qle q 100 ∧
            ∃ s, (c, s) ∈ data d ∧ 0 < Series.null_count s) ∧
    (missing_data = [] ↔
     index_len d = 0 ∨ Forall (λ p, Series.null_count p.2 = 0) (data d)).
Proof.
  intros Hdf Hwf. destruct (missing_data_run df d w Hdf) as (w' & Hrun & Hh & Hf).
  eexists _, w'. split; [exact Hrun|]. split; [done|]. split; [done|].
  assert (∀ c q, (c, q) ∈ DataCleaning.sort_values_desc
                   (DataCleaning.keep_positive (missing_percentages d)) ↔
                 ∃ s, (c, s) ∈ data d ∧
                      DataCleaning.percent (Series.null_count s) (index_len d) = Some q ∧
                      Qlt 0 q) as Helem.
  { intros c q. unfold DataCleaning.sort_values_desc.
    rewrite sort_perm, elem_keep_positive, elem_missing_percentages. naive_solver. }
  split.
  - intros c q (s & Hin & Hq & Hpos)%Helem.
    split; [done|]. split.
    + apply (percent_at_most_100 _ _ _ Hq).
      unfold Frame.wf in Hwf. rewrite Forall_forall in Hwf.
      rewrite <- (Hwf _ Hin). apply null_count_le.
    + exists s. split; [done|]. by apply (percent_value _ _ _ Hq).
  - split.
    + intros Hnil. destruct (decide (index_len d = 0)) as [|Hlen]; [by left|right].
      apply Forall_forall. intros [c s] Hin. simpl.
      destruct (percent_is_Some (Series.null_count s) (index_len d) Hlen) as [q Hq].
      destruct (decide (Series.null_count s = 0)) as [|Hs]; [done|exfalso].
      assert ((c, q) ∈ DataCleaning.sort_values_desc
                (DataCleaning.keep_positive (missing_percentages d))) as Hcq.
      { apply Helem. exists s. split; [done|]. split; [done|].
        apply (percent_value _ _ _ Hq). lia. }
      rewrite Hnil in Hcq. by apply elem_of_nil in Hcq.
    + intros Hor.
      destruct (DataCleaning.sort_values_desc _) as [|[c q] l] eqn:Hr; [done|exfalso].
      assert ((c, q) ∈ (c, q) :: l) as Hin by left.
      apply Helem in Hin as (s & Hin & Hq & Hpos).
      apply percent_value in Hq as (Hlen & _ & Hiff).
      destruct Hor as [H0|Hall]; [done|].
      rewrite Forall_forall in Hall. apply Hall in Hin. simpl in Hin.
      apply Hiff in Hpos. lia.
Qed.

Lemma missing_profile_bounds_witness :
  ∃ missing_data w',
    DataCleaning.analyze_missing_data 0 world0 = (Ok missing_data, w') ∧
    heap w' = heap world0 ∧ files w' = files world0 ∧
    (∀ c q, (c, q) ∈ missing_data →
            Qlt 0 q ∧ Qle q 100 ∧
            ∃ s, (c, s) ∈ data frame0 ∧ 0 < Series.null_count s) ∧
    (missing_data = [] ↔
     index_len frame0 = 0 ∨ Forall (λ p, Series.null_count p.2 = 0) (data frame0)).
Proof.
  apply (missing_profile_bounds world0 0 frame0).
  - reflexivity.
  - unfold Frame.wf. simpl. repeat constructor.
Defined.

(** ** The columns of the cleaned tables *)

Lemma columns_assign_in c s l :
  c ∈ l.*1 → (Frame.assign_col c s l).*1 = l.*1.
Proof.
  induction l as [|[c' s'] l IH]; csimpl; [by intros ?%elem_of_nil|].
  case_decide; csimpl; subst; [done|].
  intros [?|Hin]%elem_of_cons; [done|]. by rewrite IH.
Qed.

Lemma columns_assign_new c s l :
  c ∉ l.*1 → (Frame.assign_col c s l).*1 = l.*1 ++ [c].
Proof.
  induction l as [|[c' s'] l IH]; csimpl; [done|].
  intros [Hne Hin]%not_elem_of_cons.
  case_decide; csimpl; [by subst|]. by rewrite IH.
Qed.

Lemma columns_setitem_in d c s :
  c ∈ Frame.columns d → Frame.columns (Frame.setitem d c s) = Frame.columns d.
Proof. apply columns_assign_in. Qed.

Lemma columns_setitem_new d c s :
  c ∉ Frame.columns d → Frame.columns (Frame.setitem d c s) = Frame.columns d ++ [c].
Proof. apply columns_assign_new. Qed.

Lemma columns_setitem d c s :
  Frame.columns (Frame.setitem d c s) =
  if decide (c ∈ Frame.columns d) then Frame.columns d else Frame.columns d ++ [c].
Proof. case_decide; [by apply columns_setitem_in|by apply columns_setitem_new]. Qed.

Lemma getitem_columns d c : is_Some (Frame.getitem d c) ↔ c ∈ Frame.columns d.
Proof. symmetry. apply lookup_col_Some. Qed.

Lemma extends_refl names d : extends names d d.
Proof. exists []. by rewrite app_nil_r. Qed.

Lemma extends_setitem names d0 d c s :
  c ∈ names → extends names d0 d → extends names d0 (Frame.setitem d c s).
Proof.
  intros Hc (added & Hcols & Hadded).
  destruct (decide (c ∈ Frame.columns d)) as [Hin|Hnew].
  - exists added. by rewrite columns_setitem_in.
  - exists (added ++ [c]). rewrite columns_setitem_new, Hcols, app_assoc by done.
    split; [done|]. apply Forall_app. split; [done|]. by constructor.
Qed.

Lemma cleaned_extends read d : extends assigned_columns d (SrcMainSpec.cleaned read d).
Proof.
  unfold SrcMainSpec.cleaned, with_features, SrcMainSpec.with_year, fill.
  repeat (first [apply extends_refl
                |apply extends_setitem; [unfold assigned_columns; set_solver|]
                |destruct (Frame.getitem _ "publish_time")]).
Qed.

Lemma cleaned_other_columns read d c :
  c ∉ assigned_columns →
  Frame.getitem (SrcMainSpec.cleaned read d) c = Frame.getitem d c.
Proof.
  unfold assigned_columns. rewrite !not_elem_of_cons.
  intros (? & ? & ? & ? & ? & ? & ? & ? & _).
  unfold SrcMainSpec.cleaned.
  rewrite getitem_with_features_ne, getitem_with_year_ne, !getitem_fill_ne by done.
  done.
Qed.

(** X10. The cleaner of src/main.py keeps the table's columns: the cleaned
    copy has every column of the input, in the same order, followed by the
    columns it had to add, and a column the cleaner does not assign (an
    identifier, the authors, a link) holds the very cells of the input. *)
Theorem src_clean_keeps_other_columns
    (read : Pandas.date_reader) (w : world) (df : loc) (d : DataFrame) :
  heap w !! df = Some d →
  ∃ r w' d',
    SrcMain.clean_and_prepare_data read df w = (Ok r, w') ∧
    heap w' !! r = Some d' ∧
    extends assigned_columns d d' ∧
    (∀ c, c ∈ assigned_columns → c ≠ "publish_time" → c ∈ Frame.columns d') ∧
    (∀ c, c ∉ assigned_columns → Frame.getitem d' c = Frame.getitem d c).
Proof.
  intros Hd. destruct (src_clean_run read df d w Hd) as (w' & Hrun & Hh & _).
  exists (length (heap w)), w', (SrcMainSpec.cleaned read d).
  split; [done|]. split; [rewrite Hh; by apply list_lookup_middle|].
  split; [apply cleaned_extends|]. split; [|apply cleaned_other_columns].
  intros c Hc Hne. apply getitem_columns.
  unfold assigned_columns in Hc. rewrite !elem_of_cons, elem_of_nil in Hc.
  destruct Hc as [->|[->|[->|[->|[->|[->|[->|[->|[]]]]]]]]].
  - rewrite (cleaned_text_column read d "title" (VStr "Unknown Title")) by in_defaults. eauto.
  - rewrite (cleaned_text_column read d "abstract" (VStr "")) by in_defaults. eauto.
  - rewrite (cleaned_text_column read d "journal" (VStr "Unknown Journal")) by in_defaults.
    eauto.
  - done.
  - rewrite cleaned_year. eauto.
  - apply cleaned_features. set_solver.
  - apply cleaned_features. set_solver.
  - apply cleaned_features. set_solver.
Qed.

Lemma src_clean_keeps_other_columns_witness :
  ∃ r w' d',
    SrcMain.clean_and_prepare_data Pandas.iso_reader 0 world2 = (Ok r, w') ∧
    heap w' !! r = Some d' ∧
    extends assigned_columns frame2 d' ∧
    (∀ c, c ∈ assigned_columns → c ≠ "publish_time" → c ∈ Frame.columns d') ∧
    (∀ c, c ∉ assigned_columns → Frame.getitem d' c = Frame.getitem frame2 c).
Proof. apply (src_clean_keeps_other_columns Pandas.iso_reader world2 0 frame2). reflexivity. Defined.

(** *** data_cleaning.py keeps the listed columns only *)

Lemma columns_restrict d cols :
  Frame.columns (DataCleaningSpec.restrict d cols) =
  filter (λ c, c ∈ Frame.columns d) cols.
Proof.
  unfold DataCleaningSpec.restrict, Frame.columns. simpl.
  induction cols as [|c cols IH]; [done|].
  rewrite filter_cons. csimpl.
  destruct (Frame.getitem d c) as [s|] eqn:Hc; csimpl.
  - rewrite decide_True, IH; [done|]. apply getitem_columns. eauto.
  - rewrite decide_False, IH; [done|]. intros Hin%getitem_columns.
    rewrite Hc in Hin. by destruct Hin.
Qed.

Section DataCleaningColumns.
Variable read : Pandas.date_reader.

Lemma cleaning_columns d d' :
  DataCleaningSpec.cleaned read d = Ok d' →
  Frame.columns d' =
  filter (λ c, c ∈ Frame.columns d) DataCleaning.important_cols ++ derived_columns.
Proof.
  intros (t & a & p & j & Ht & Ha & Hp & Hj & ->)%cleaning_inv.
  set (d0 := DataCleaningSpec.restrict d DataCleaning.important_cols).
  assert (∀ c s, c ∈ DataCleaning.important_cols → Frame.getitem d c = Some s →
                 c ∈ Frame.columns d0) as Hin.
  { intros c s Hc Hs. apply getitem_columns. unfold d0.
    rewrite getitem_restrict, decide_True by done. eauto. }
  assert ("year" ∉ Frame.columns d0) as Hyear.
  { intros Hy%getitem_columns. unfold d0 in Hy.
    rewrite getitem_restrict, decide_False in Hy; [by destruct Hy|].
    by apply (bool_decide_unpack _). }
  assert (∀ c, c ∈ derived_columns → c ∉ Frame.columns d0) as Hnew.
  { intros c Hc Hy%getitem_columns. unfold d0 in Hy.
    rewrite getitem_restrict, decide_False in Hy; [by destruct Hy|].
    unfold derived_columns in Hc. rewrite !elem_of_cons, elem_of_nil in Hc.
    destruct Hc as [->|[->|[->|[->|[]]]]]; by apply (bool_decide_unpack _). }
  assert ("title" ∈ Frame.columns d0) as Ht0
    by (eapply Hin; [by apply (bool_decide_unpack _)|done]).
  assert ("abstract" ∈ Frame.columns d0) as Ha0
    by (eapply Hin; [by apply (bool_decide_unpack _)|done]).
  assert ("publish_time" ∈ Frame.columns d0) as Hp0
    by (eapply Hin; [by apply (bool_decide_unpack _)|done]).
  assert ("journal" ∈ Frame.columns d0) as Hj0
    by (eapply Hin; [by apply (bool_decide_unpack _)|done]).
  unfold DataCleaningSpec.prepared, with_features. fold d0. cbv zeta.
  rewrite <- columns_restrict. fold d0. clearbody d0.
  assert (∀ c l, c ∈ derived_columns → c ∉ l → c ∉ Frame.columns d0 ++ l) as Happ.
  { intros c l Hc Hl [Hin'|Hin']%elem_of_app; [by apply (Hnew c)|done]. }
  set (d1 := Frame.setitem d0 "title" _).
  set (d2 := Frame.setitem d1 "abstract" _).
  set (d3 := Frame.setitem d2 "publish_time" _).
  set (d4 := Frame.setitem d3 "year" _).
  set (d5 := Frame.setitem d4 "abstract_word_count" _).
  set (d6 := Frame.setitem d5 "title_word_count" _).
  set (d7 := Frame.setitem d6 "has_abstract" _).
  assert (Frame.columns d1 = Frame.columns d0) as E1
    by (by apply columns_setitem_in).
  assert (Frame.columns d2 = Frame.columns d0) as E2
    by (unfold d2; rewrite columns_setitem_in; rewrite E1; done).
  assert (Frame.columns d3 = Frame.columns d0) as E3
    by (unfold d3; rewrite columns_setitem_in; rewrite E2; done).
  assert (Frame.columns d4 = Frame.columns d0 ++ ["year"]) as E4
    by (unfold d4; rewrite columns_setitem_new; rewrite E3; done).
  assert (Frame.columns d5 = Frame.columns d0 ++ ["year"; "abstract_word_count"]) as E5.
  { unfold d5. rewrite columns_setitem_new; rewrite E4; [by rewrite <- app_assoc|].
    apply Happ; by apply (bool_decide_unpack _). }
  assert (Frame.columns d6 =
          Frame.columns d0 ++ ["year"; "abstract_word_count"; "title_word_count"]) as E6.
  { unfold d6. rewrite columns_setitem_new; rewrite E5; [by rewrite <- app_assoc|].
    apply Happ; by apply (bool_decide_unpack _). }
  assert (Frame.columns d7 = Frame.columns d0 ++ derived_columns) as E7.
  { unfold d7. rewrite columns_setitem_new; rewrite E6; [by rewrite <- app_assoc|].
    apply Happ; by apply (bool_decide_unpack _). }
  rewrite columns_setitem_in; rewrite E7; [done|].
  apply elem_of_app. by left.
Qed.

(** The cells of a listed column the cleaner does not assign. *)
Lemma cleaning_other_columns d d' c :
  DataCleaningSpec.cleaned read d = Ok d' →
  c ∈ ["authors"; "source_x"; "has_full_text"; "cord_uid"] →
  Frame.getitem d' c = Frame.getitem d c.
Proof.
  intros (t & a & p & j & _ & _ & _ & _ & ->)%cleaning_inv Hc.
  rewrite !elem_of_cons, elem_of_nil in Hc.
  unfold DataCleaningSpec.prepared.
  destruct Hc as [->|[->|[->|[->|[]]]]];
    rewrite getitem_setitem_ne, getitem_with_features_ne by done;
    frame_simpl; rewrite getitem_restrict;
    by rewrite decide_True by (by apply (bool_decide_unpack _)).
Qed.

(** A column outside the list and not derived is not in the result. *)
Lemma cleaning_dropped d d' c :
  DataCleaningSpec.cleaned read d = Ok d' →
  c ∉ DataCleaning.important_cols → c ∉ derived_columns →
  Frame.getitem d' c = None.
Proof.
  intros Hok Hc Hc'. pose proof (cleaning_columns d d' Hok) as Hcols.
  destruct (Frame.getitem d' c) as [s|] eqn:Hs; [exfalso|done].
  assert (c ∈ Frame.columns d') as Hin by (apply getitem_columns; eauto).
  rewrite Hcols in Hin. apply elem_of_app in Hin as [Hin|Hin]; [|done].
  apply list_elem_of_filter in Hin as [_ Hin]. done.
Qed.

End DataCleaningColumns.


(** X11. data_cleaning.py keeps the listed columns only.  When its cleaner
    returns, the table has exactly those of the eight listed columns that
    the input has, in the order of the list, followed by year,
    abstract_word_count, title_word_count and has_abstract; every other
    column of the input is dropped (a year column of the input is replaced
    by the derived one), and authors, source_x, has_full_text and cord_uid
    hold the cells of the input. *)
Theorem data_cleaning_keeps_listed_columns
    (read : Pandas.date_reader) (w : world) (df : loc) (d : DataFrame)
    (r : loc) (w' : world) :
  heap w !! df = Some d →
  DataCleaning.clean_and_prepare_data read df w = (Ok r, w') →
  ∃ d',
    heap w' !! r = Some d' ∧
    Frame.columns d' =
      filter (λ c, c ∈ Frame.columns d) DataCleaning.important_cols ++ derived_columns ∧
    (∀ c, c ∉ DataCleaning.important_cols → c ∉ derived_columns →
          Frame.getitem d' c = None) ∧
    (∀ c, c ∈ ["authors"; "source_x"; "has_full_text"; "cord_uid"] →
          Frame.getitem d' c = Frame.getitem d c).
Proof.
  intros Hd Hrun.
  destruct (cleaning_run read df d w Hd) as (res & w1 & d' & Hrun' & Hres & Hh & _ & Hok).
  rewrite Hrun in Hrun'. injection Hrun' as <- <-.
  specialize (Hok r eq_refl). rewrite Hok in Hres. injection Hres as ->.
  exists d'. split.
  { rewrite Hh, lookup_app_r by lia.
    by replace (S (length (heap w)) - length (heap w)) with 1 by lia. }
  pose proof (cleaning_columns read d d' Hok) as Hcols.
  split; [done|]. split; [|intros c Hc; by apply (cleaning_other_columns read d d' c Hok)].
  intros c Hc Hc'. by apply (cleaning_dropped read d d' c Hok).
Qed.

Lemma data_cleaning_keeps_listed_columns_witness :
  ∃ d',
    heap (DataCleaning.clean_and_prepare_data Pandas.iso_reader 0 world2).2 !! 2 = Some d' ∧
    Frame.columns d' =
      filter (λ c, c ∈ Frame.columns frame2) DataCleaning.important_cols ++ derived_columns ∧
    (∀ c, c ∉ DataCleaning.important_cols → c ∉ derived_columns →
          Frame.getitem d' c = None) ∧
    (∀ c, c ∈ ["authors"; "source_x"; "has_full_text"; "cord_uid"] →
          Frame.getitem d' c = Frame.getitem frame2 c).
Proof.
  apply (data_cleaning_keeps_listed_columns Pandas.iso_reader world2 0 frame2).
  - reflexivity.
  - vm_compute. reflexivity.
Defined.

(** ** The derived columns, row by row *)

Lemma features_of d abstract :
  Frame.getitem d "abstract" = Some abstract →
  Frame.getitem (with_features d) "abstract_word_count" =
    Some (map Series.word_count abstract) ∧
  Frame.getitem (with_features d) "has_abstract" = Some (map has_words abstract).
Proof.
  intros Ha. unfold with_features, column. rewrite Ha. simpl. by frame_simpl.
Qed.

Lemma filled_abstract_features (abstract : list value) i v s :
  abstract !! i = Some v → text_or_empty v s →
  map Series.word_count (Series.fillna (VStr "") abstract) !! i =
    Some (VInt (Z.of_nat (number_of_words s))) ∧
  map has_words (Series.fillna (VStr "") abstract) !! i =
    Some (VBool (bool_decide (Exists (λ c, ¬ blank c) (Text.chars s)))).
Proof.
  intros Hi Hv. rewrite !list_lookup_fmap, !fillna_lookup, Hi.
  assert (Series.py_str (if Series.isnull v then VStr "" else v) = s) as Hs
    by (by destruct Hv as [->|[-> ->]]).
  simpl. unfold Series.word_count, has_words. rewrite Hs, length_split. split; [done|].
  do 2 f_equal. apply bool_decide_ext. rewrite <- length_split. apply split_some_word.
Qed.

(** X12. The derived columns follow the abstract row by row, in both
    cleaners.  For a row whose abstract is a text within ASCII or is
    missing, a missing abstract counting as the empty text,
    abstract_word_count is the number of places of the text where a word
    starts, a character that is not whitespace coming after whitespace or
    at the start, and has_abstract says whether the text has a character
    that is not whitespace. *)
Theorem abstract_features_per_row
    (read : Pandas.date_reader) (w : world) (df : loc) (d : DataFrame)
    (abstract : list value) (i : nat) (v : value) (s : string) :
  heap w !! df = Some d →
  Frame.getitem d "abstract" = Some abstract →
  abstract !! i = Some v →
  text_or_empty v s →
  ascii_text s = true →
  (∃ r w' d' counts flags,
     SrcMain.clean_and_prepare_data read df w = (Ok r, w') ∧
     heap w' !! r = Some d' ∧
     Frame.getitem d' "abstract_word_count" = Some counts ∧
     Frame.getitem d' "has_abstract" = Some flags ∧
     counts !! i = Some (VInt (Z.of_nat (number_of_words s))) ∧
     flags !! i = Some (VBool (bool_decide (Exists (λ c, ¬ blank c) (Text.chars s))))) ∧
  (∀ r w',
     DataCleaning.clean_and_prepare_data read df w = (Ok r, w') →
     ∃ d' counts flags,
       heap w' !! r = Some d' ∧
       Frame.getitem d' "abstract_word_count" = Some counts ∧
       Frame.getitem d' "has_abstract" = Some flags ∧
       counts !! i = Some (VInt (Z.of_nat (number_of_words s))) ∧
       flags !! i = Some (VBool (bool_decide (Exists (λ c, ¬ blank c) (Text.chars s))))).
Proof.
  intros Hd Ha Hi Hv _.
  destruct (filled_abstract_features abstract i v s Hi Hv) as [Hcount Hflag].
  split.
  - destruct (src_clean_run read df d w Hd) as (w' & Hrun & Hh & _).
    exists (length (heap w)), w', (SrcMainSpec.cleaned read d). do 2 eexists.
    split; [done|]. split; [rewrite Hh; by apply list_lookup_middle|].
    unfold SrcMainSpec.cleaned.
    edestruct features_of as [-> ->].
    { rewrite getitem_with_year_ne, getitem_fill_ne by done.
      unfold fill at 1. rewrite getitem_setitem_eq, getitem_fill_ne, Ha by done. done. }
    done.
  - intros r w' Hrun.
    destruct (cleaning_run read df d w Hd) as (res & w1 & d' & Hrun' & Hres & Hh & _ & Hok).
    rewrite Hrun in Hrun'. injection Hrun' as <- <-.
    specialize (Hok r eq_refl). rewrite Hok in Hres. injection Hres as ->.
    exists d'. do 2 eexists. split.
    { rewrite Hh, lookup_app_r by lia.
      by replace (S (length (heap w)) - length (heap w)) with 1 by lia. }
    apply cleaning_inv in Hok as (t & a & p & j & _ & Ha' & _ & _ & ->).
    rewrite Ha in Ha'. injection Ha' as <-.
    rewrite !getitem_setitem_ne by done. unfold DataCleaningSpec.prepared.
    edestruct features_of as [-> ->]; [by frame_simpl|]. done.
Qed.

Lemma abstract_features_per_row_witness :
  (∃ r w' d' counts flags,
     SrcMain.clean_and_prepare_data Pandas.iso_reader 0 world2 = (Ok r, w') ∧
     heap w' !! r = Some d' ∧
     Frame.getitem d' "abstract_word_count" = Some counts ∧
     Frame.getitem d' "has_abstract" = Some flags ∧
     counts !! 1 = Some (VInt (Z.of_nat (number_of_words "Masks work."))) ∧
     flags !! 1 =
       Some (VBool (bool_decide (Exists (λ c, ¬ blank c) (Text.chars "Masks work."))))) ∧
  (∀ r w',
     DataCleaning.clean_and_prepare_data Pandas.iso_reader 0 world2 = (Ok r, w') →
     ∃ d' counts flags,
       heap w' !! r = Some d' ∧
       Frame.getitem d' "abstract_word_count" = Some counts ∧
       Frame.getitem d' "has_abstract" = Some flags ∧
       counts !! 1 = Some (VInt (Z.of_nat (number_of_words "Masks work."))) ∧
       flags !! 1 =
         Some (VBool (bool_decide (Exists (λ c, ¬ blank c) (Text.chars "Masks work."))))).
Proof.
  apply (abstract_features_per_row Pandas.iso_reader world2 0 frame2
           [VStr "  "; VStr "Masks work."] 1 (VStr "Masks work.") "Masks work.");
    [reflexivity|reflexivity|reflexivity|by left|reflexivity].
Defined.

(** ** Loading the input *)

Lemma filter_own_columns (d : DataFrame) :
  filter (λ p : string * list value, p.1 ∈ Frame.columns d) (data d) = data d.
Proof.
  unfold Frame.columns.
  assert (∀ l l' : list (string * list value),
            (∀ p, p ∈ l → p.1 ∈ l'.*1) → filter (λ p, p.1 ∈ l'.*1) l = l) as Hall.
  { induction l as [|p l IH]; intros l' Hl; [done|].
    rewrite filter_cons, decide_True by (apply Hl; left).
    rewrite IH; [done|]. intros q Hq. apply Hl. by right. }
  apply Hall. intros p Hp. by apply (list_elem_of_fmap_2 fst).
Qed.

Lemma forallb_own_columns (d : DataFrame) :
  forallb (λ c, bool_decide (c ∈ Frame.columns d)) (Frame.columns d) = true.
Proof.
  apply forallb_forall. intros c Hc%list_elem_of_In. by apply bool_decide_eq_true.
Qed.

(** X13. The loader of src/main.py never raises and writes nothing.  When
    data/metadata.csv holds a table it returns a new object with exactly
    that table (reading with the detected columns loads every column); when
    the file is absent or is not a table it prints a message and returns
    None, leaving the store as it was. *)
Theorem src_loader_never_raises (w : world) :
  ∃ res w',
    SrcMainLoader.load_and_explore_data w = (Ok res, w') ∧
    files w' = files w ∧
    match files w !! "data/metadata.csv" with
    | Some (CsvFile d) =>
        res = Some (S (length (heap w))) ∧
        heap w' = heap w ++ [Frame.head 1 d; d]
    | _ => res = None ∧ heap w' = heap w
    end.
Proof.
  unfold SrcMainLoader.load_and_explore_data, SrcMainLoader.detect_columns.
  cbv [bind try_except print read_csv_nrows read_csv_usecols read_csv df_columns deref
       alloc ret]. cbn [heap files stdout].
  destruct (files w !! "data/metadata.csv") as [[d| | |]|] eqn:Hfile;
    cbn [heap files stdout]; try (by eauto 10).
  rewrite list_lookup_middle by done. cbn [heap files stdout].
  rewrite Hfile, columns_head, forallb_own_columns. cbn [heap files stdout].
  rewrite filter_own_columns.
  rewrite lookup_app_r by (rewrite length_app; simpl; lia).
  replace (length (heap w ++ [Frame.head (Z.of_nat 1) d]) -
           length (heap w ++ [Frame.head (Z.of_nat 1) d])) with 0 by lia.
  cbn. do 2 eexists. split; [reflexivity|]. split; [done|].
  rewrite length_app. simpl. split; [f_equal; lia|].
  rewrite <- app_assoc. by destruct d.
Qed.

Lemma select_existing d cols :
  Forall (λ c, c ∈ Frame.columns d) cols → ∃ d', Frame.select d cols = Ok d'.
Proof.
  intros Hcols. unfold Frame.select.
  assert (∃ l, Series.traverse
                 (λ c, match Frame.getitem d c with
                       | Some s => Ok (c, s)
                       | None => Raise (KeyError c)
                       end) cols = Ok l) as [l ->]; [|by eexists].
  induction Hcols as [|c cols Hc _ [l IH]]; [by eexists|].
  simpl. apply lookup_col_Some in Hc as [s Hs]. unfold Frame.getitem at 1.
  rewrite Hs, IH. by eexists.
Qed.

Lemma first_loader_run d w :
  files w !! "metadata.csv" = Some (CsvFile d) →
  ∃ w', DataExploration.load_and_explore_data w = (Ok (Some (length (heap w))), w') ∧
        heap w' = heap w ++ [d] ∧ files w' = files w.
Proof.
  intros Hfile. unfold DataExploration.load_and_explore_data.
  cbv [bind try_except print read_csv deref alloc ret lift]. cbn [heap files stdout].
  rewrite Hfile. cbn [heap files stdout].
  rewrite list_lookup_middle by done. cbn [heap files stdout].
  case_bool_decide; [|by eauto 10].
  destruct (select_existing d (filter (λ p, DataExploration.is_number p.2 = true) (data d)).*1)
    as [d' ->]; [|by eauto 10].
  apply Forall_forall. intros c Hc. unfold Frame.columns.
  apply list_elem_of_fmap in Hc as (p & -> & Hp).
  apply list_elem_of_filter in Hp as [_ Hp]. by apply (list_elem_of_fmap_2 fst).
Qed.

(** X14. The loader of data_exploration.py has three outcomes.  A
    metadata.csv that holds a table is loaded into a new object and
    described; an absent file gives None; a file that cannot be parsed as a
    table makes the loader raise, since only FileNotFoundError is caught.
    No file is written in any case. *)
Theorem first_loader_outcomes (w : world) :
  match files w !! "metadata.csv" with
  | Some (CsvFile d) =>
      ∃ w', DataExploration.load_and_explore_data w = (Ok (Some (length (heap w))), w') ∧
            heap w' = heap w ++ [d] ∧ files w' = files w
  | Some _ =>
      ∃ w', DataExploration.load_and_explore_data w =
              (Raise (ParserError "metadata.csv"), w') ∧
            heap w' = heap w ∧ files w' = files w
  | None =>
      ∃ w', DataExploration.load_and_explore_data w = (Ok None, w') ∧
            heap w' = heap w ∧ files w' = files w
  end.
Proof.
  destruct (files w !! "metadata.csv") as [[d| | |]|] eqn:Hfile;
    [by apply first_loader_run|..];
    unfold DataExploration.load_and_explore_data;
    cbv [bind try_except print read_csv deref alloc ret lift]; cbn [heap files stdout];
    rewrite Hfile; cbn [heap files stdout]; by eauto 10.
Qed.

(** ** preprocess_data.py: what is written, and when nothing is *)

Lemma take_columns_available n (d : DataFrame) :
  forallb (λ c, bool_decide (c ∈ Frame.columns d)) (take n (Frame.columns d)) = true.
Proof.
  apply forallb_forall. intros c Hc%list_elem_of_In. apply bool_decide_eq_true.
  by apply (subseteq_take n).
Qed.

Section PreprocessEdges.
Variable read : Pandas.date_reader.
Variable sample : nat → DataFrame → DataFrame.

Lemma preprocess_no_title_wp d w :
  files w !! "metadata.csv" = Some (CsvFile d) →
  Frame.getitem d "title" = None →
  wp (PreprocessData.preprocess_and_save read sample)
     (λ _ _, False)
     (λ e w', e = KeyError "title" ∧ files w' = files w) w.
Proof.
  intros Hfile Ht. unfold PreprocessData.preprocess_and_save.
  assert ("title" ∉ Frame.columns d) as Hno.
  { intros Hin%lookup_col_Some. unfold Frame.getitem in Ht. rewrite Ht in Hin.
    by destruct Hin. }
  eapply wp_bind, wp_print_any. intros w0 Hh0 Hf0.
  eapply wp_bind, wp_try_except.
  eapply wp_bind, wp_read_csv_nrows; [by rewrite Hf0|]. intros w1 Hw.
  eapply wp_bind, wp_columns; [done|]. rewrite columns_head.
  eapply wp_bind, wp_print; [done|]. clear w1 Hw. intros w1 Hw.
  rewrite bool_decide_eq_true_2
    by (by intros [? _]%list_elem_of_filter).
  eapply wp_bind, wp_print; [done|]. clear w1 Hw. intros w1 Hw.
  eapply wp_read_csv_usecols; [done|by rewrite Hf0|apply take_columns_available|].
  clear w1 Hw. intros w1 Hw.
  eapply wp_bind, wp_shape; [done|].
  eapply wp_bind, wp_print; [done|]. clear w1 Hw. intros w1 Hw.
  eapply wp_bind, wp_getitem; [done|].
  unfold Frame.getitem. simpl.
  pose proof (lookup_col_filter (λ c, c ∈ take 8 (Frame.columns d)) "title" (data d))
    as Hfilter.
  simpl in Hfilter. rewrite Hfilter. clear Hfilter.
  unfold Frame.getitem in Ht. rewrite Ht.
  destruct (decide _); (split; [done|]); destruct Hw as [_ ->]; done.
Qed.

End PreprocessEdges.

(** X15. [preprocess_and_save] does not guard the title column.  When
    metadata.csv holds a table without a title column the fallback to the
    first eight columns loads a table, and the run raises KeyError for
    title; when the file is absent the fallback read raises
    FileNotFoundError.  In both cases no file has been written. *)
Theorem preprocess_needs_file_and_title
    (read : Pandas.date_reader) (sample : nat → DataFrame → DataFrame) (w : world) :
  (∀ d, files w !! "metadata.csv" = Some (CsvFile d) →
        Frame.getitem d "title" = None →
        ∃ w', PreprocessData.preprocess_and_save read sample w =
                (Raise (KeyError "title"), w') ∧
              files w' = files w) ∧
  (files w !! "metadata.csv" = None →
   ∃ w', PreprocessData.preprocess_and_save read sample w =
           (Raise (FileNotFoundError "metadata.csv"), w') ∧
         heap w' = heap w ∧ files w' = files w).
Proof.
  split.
  - intros d Hfile Ht.
    pose proof (preprocess_no_title_wp read sample d w Hfile Ht) as Hwp.
    unfold wp in Hwp.
    destruct (PreprocessData.preprocess_and_save read sample w) as [[r|e] w']; [done|].
    destruct Hwp as [-> Hf]. by exists w'.
  - intros Hfile. unfold PreprocessData.preprocess_and_save.
    cbv [bind try_except print read_csv_nrows read_csv]. cbn [heap files stdout].
    rewrite Hfile. cbn [heap files stdout]. rewrite Hfile. by eexists.
Qed.

Section PreprocessOutputs.
Variable read : Pandas.date_reader.
Variable sample : nat → DataFrame → DataFrame.

(** The run of [preprocess_and_save] on a table with title and abstract,
    with the files it leaves. *)
Lemma preprocess_outputs_wp d title abstract w :
  files w !! "metadata.csv" = Some (CsvFile d) →
  Frame.getitem d "title" = Some title →
  Frame.getitem d "abstract" = Some abstract →
  wp (PreprocessData.preprocess_and_save read sample)
     (λ r w',
        let d' := PreprocessSpec.prepared read (PreprocessSpec.loaded d) in
        r = S (length (heap w)) ∧
        heap w' !! r = Some d' ∧
        files w' =
          <["metadata_sample.parquet" :=
              ParquetFile (sample (Z.to_nat (Z.min 10000 (Z.of_nat (index_len d')))) d')]>
            (<["metadata_optimized.parquet" := ParquetFile d']> (files w)))
     (λ _ _, False) w.
Proof.
  intros Hfile Ht Ha. unfold PreprocessData.preprocess_and_save.
  assert ("title" ∈ PreprocessSpec.essential_columns d) as Hess.
  { apply list_elem_of_filter. split; [|unfold PreprocessData.possible_columns; set_solver].
    apply lookup_col_Some. unfold Frame.getitem in Ht. by rewrite Ht. }
  eapply wp_bind, wp_print_any. intros w0 Hh0 Hf0.
  eapply wp_bind, wp_try_except.
  eapply wp_bind, wp_read_csv_nrows; [by rewrite Hf0|]. intros w1 Hw.
  eapply wp_bind, wp_columns; [done|]. rewrite columns_head.
  eapply wp_bind, wp_print; [done|]. clear w1 Hw. intros w1 Hw.
  fold (PreprocessSpec.essential_columns d).
  rewrite bool_decide_eq_false_2 by (by intros []).
  eapply wp_bind, wp_print; [done|]. clear w1 Hw. intros w1 Hw.
  eapply wp_read_csv_usecols; [done|by rewrite Hf0| |].
  { apply forallb_forall. intros c Hc%list_elem_of_In. apply bool_decide_eq_true.
    by apply list_elem_of_filter in Hc as [? _]. }
  fold (PreprocessSpec.loaded d). clear w1 Hw. intros w1 Hw.
  set (h := heap w0 ++ [Frame.head _ d]) in *.
  set (dl := PreprocessSpec.loaded d) in *.
  assert (Frame.getitem dl "title" = Some title) as Htl.
  { unfold dl. rewrite getitem_loaded; [done|].
    unfold PreprocessData.possible_columns; set_solver. }
  assert (Frame.getitem dl "abstract" = Some abstract) as Hal.
  { unfold dl. rewrite getitem_loaded; [done|].
    unfold PreprocessData.possible_columns; set_solver. }
  eapply wp_bind, wp_shape; [done|].
  eapply wp_bind, wp_print; [done|]. clear w1 Hw. intros w1 Hw.
  eapply wp_bind, wp_getitem; [done|]. rewrite Htl.
  eapply wp_bind, wp_setitem; [done|]. clear w1 Hw. intros w1 Hw.
  eapply wp_bind, wp_getitem; [done|]. frame_simpl. rewrite Hal.
  eapply wp_bind, wp_setitem; [done|]. clear w1 Hw. intros w1 Hw.
  assert (Frame.setitem
            (Frame.setitem dl "title" (Series.fillna (VStr "Unknown Title") title))
            "abstract" (Series.fillna (VStr "") abstract) =
          fill "abstract" (VStr "") (fill "title" (VStr "Unknown Title") dl)) as Hfill.
  { unfold fill. frame_simpl. by rewrite Htl, Hal. }
  rewrite Hfill in Hw. clear Hfill.
  eapply wp_bind, wp_columns; [done|].
  eapply wp_bind, wp_fill_block; [done|]. clear w1 Hw. intros w1 Hw.
  eapply wp_bind, wp_columns; [done|].
  eapply wp_bind, wp_year_block; [done|]. clear w1 Hw. intros w1 Hw.
  set (d4 := SrcMainSpec.with_year read _) in *.
  assert (is_Some (Frame.getitem d4 "abstract")) as [a Ha4].
  { unfold d4. rewrite getitem_with_year_ne, getitem_fill_ne by done.
    apply getitem_fill_eq. }
  eapply wp_bind, wp_getitem; [done|]. rewrite Ha4.
  eapply wp_bind, wp_setitem; [done|]. clear w1 Hw. intros w1 Hw.
  eapply wp_bind, wp_getitem; [done|]. frame_simpl.
  eapply wp_bind, wp_lift. rewrite gt_zero_word_counts.
  eapply wp_bind, wp_setitem; [done|]. clear w1 Hw. intros w1 Hw.
  assert (Frame.setitem
            (Frame.setitem d4 "abstract_word_count" (map Series.word_count a))
            "has_abstract" (map has_words a) = PreprocessSpec.prepared read dl) as Hprep.
  { unfold PreprocessSpec.prepared, column. fold d4. by rewrite Ha4. }
  rewrite Hprep in Hw. clear Hprep.
  eapply wp_bind, wp_deref; [done|].
  eapply wp_bind, wp_write_file; [done|]. clear w1 Hw. intros w1 Hw.
  eapply wp_bind, wp_print; [done|]. clear w1 Hw. intros w1 Hw.
  eapply wp_bind, wp_len; [done|].
  eapply wp_bind, wp_alloc; [done|]. clear w1 Hw. intros w1 Hw.
  eapply wp_bind, wp_deref; [done|].
  eapply wp_bind, wp_write_file; [done|]. clear w1 Hw. intros w1 Hw.
  eapply wp_bind, wp_len; [done|].
  eapply wp_bind, wp_print; [done|]. clear w1 Hw. intros w1 Hw.
  apply top_second in Hw.
  eapply wp_bind, wp_print_second; [done|]. clear w1 Hw. intros w1 Hw.
  eapply wp_bind, wp_len_second; [done|].
  eapply wp_bind, wp_print_second; [done|]. clear w1 Hw. intros w1 Hw.
  eapply wp_bind, wp_getitem_second; [done|].
  assert (is_Some (Frame.getitem (PreprocessSpec.prepared read dl) "year")) as [y Hy].
  { unfold PreprocessSpec.prepared. frame_simpl. unfold SrcMainSpec.with_year.
    destruct (Frame.getitem _ "publish_time"); frame_simpl; eauto. }
  rewrite Hy.
  eapply wp_bind, wp_print_second; [done|]. clear w1 Hw. intros w1 Hw.
  eapply wp_bind, wp_getitem_second; [done|].
  unfold PreprocessSpec.prepared at 1. frame_simpl.
  eapply wp_bind, wp_print_second; [done|]. clear w1 Hw. intros w1 Hw.
  apply wp_ret. split; [|split].
  - unfold h. rewrite length_app, Hh0. simpl. lia.
  - by apply second_lookup in Hw.
  - destruct Hw as [_ ->]. by rewrite Hf0.
Qed.

End PreprocessOutputs.

Lemma prepared_index_len read d :
  index_len (PreprocessSpec.prepared read d) = index_len d.
Proof.
  unfold PreprocessSpec.prepared, SrcMainSpec.with_year. simpl.
  by destruct (Frame.getitem _ "publish_time").
Qed.

(** X16. What [preprocess_and_save] writes is what it returns.  On a
    metadata.csv with title and abstract columns the run returns the table
    it filled in place; metadata_optimized.parquet holds exactly that
    table, with as many rows as the input, metadata_sample.parquet holds a
    sample of min(10000, rows) rows of it, and no other file is touched:
    metadata.csv is left as it was. *)
Theorem preprocess_saves_the_returned_table
    (read : Pandas.date_reader) (sample : nat → DataFrame → DataFrame)
    (w : world) (d : DataFrame) (title abstract : list value) :
  files w !! "metadata.csv" = Some (CsvFile d) →
  Frame.getitem d "title" = Some title →
  Frame.getitem d "abstract" = Some abstract →
  ∃ r w' d',
    PreprocessData.preprocess_and_save read sample w = (Ok r, w') ∧
    heap w' !! r = Some d' ∧
    index_len d' = index_len d ∧
    files w' !! "metadata_optimized.parquet" = Some (ParquetFile d') ∧
    files w' !! "metadata_sample.parquet" =
      Some (ParquetFile (sample (Z.to_nat (Z.min 10000 (Z.of_nat (index_len d)))) d')) ∧
    ∀ p, p ≠ "metadata_optimized.parquet" → p ≠ "metadata_sample.parquet" →
         files w' !! p = files w !! p.
Proof.
  intros Hfile Ht Ha.
  pose proof (preprocess_outputs_wp read sample d title abstract w Hfile Ht Ha) as Hwp.
  unfold wp in Hwp.
  destruct (PreprocessData.preprocess_and_save read sample w) as [[r|e] w']; [|done].
  cbv zeta in Hwp. destruct Hwp as (-> & Hr & Hf).
  do 3 eexists. split; [done|]. split; [exact Hr|].
  rewrite prepared_index_len in Hf |- *. split; [done|].
  rewrite Hf. split; [by rewrite lookup_insert_ne, lookup_insert_eq by done|].
  split.
  - by rewrite lookup_insert_eq.
  - intros p Hp1 Hp2. by rewrite !lookup_insert_ne by done.
Qed.

Lemma preprocess_saves_the_returned_table_witness :
  ∃ r w' d',
    PreprocessData.preprocess_and_save Pandas.iso_reader (λ n, Frame.head (Z.of_nat n))
      world_csv = (Ok r, w') ∧
    heap w' !! r = Some d' ∧
    index_len d' = index_len frame0 ∧
    files w' !! "metadata_optimized.parquet" = Some (ParquetFile d') ∧
    files w' !! "metadata_sample.parquet" =
      Some (ParquetFile
              (Frame.head (Z.of_nat (Z.to_nat (Z.min 10000 (Z.of_nat (index_len frame0)))))
                 d')) ∧
    ∀ p, p ≠ "metadata_optimized.parquet" → p ≠ "metadata_sample.parquet" →
         files w' !! p = files world_csv !! p.
Proof.
  apply (preprocess_saves_the_returned_table Pandas.iso_reader
           (λ n, Frame.head (Z.of_nat n)) world_csv frame0
           [VStr "Covid-19 Study of Lungs"; VNull; VStr "Lung Study Results"]
           [VStr "We study lungs."; VNull; VStr ""]); reflexivity.
Defined.

(** ** main.py from the input file to the saved table *)

Lemma no_year_numbers read p :
  Forall (λ v, read p v = None) p →
  Main.numbers (map year_cell (Pandas.to_datetime read p)) = [].
Proof.
  unfold Pandas.to_datetime. generalize p at 1 3.
  intros p0 Hp. induction Hp as [|v l Hv _ IH]; [done|].
  simpl. rewrite Hv. simpl. exact IH.
Qed.

(** The outcome of [main] on an input file that holds a table.  Either the
    run raises before the cleaned table is saved, or the cleaned table is
    saved and the run then completes or fails according to whether the
    years hold a number. *)
Lemma main_outcome read w d :
  files w !! "metadata.csv" = Some (CsvFile d) →
  ∃ res w',
    Main.main read w = (res, w') ∧
    files w' !! "metadata.csv" = Some (CsvFile d) ∧
    (∀ p, p ∉ "cleaned_metadata.csv" :: charts → files w' !! p = files w !! p) ∧
    ((∃ e, res = Raise e) ∧
     files w' !! "cleaned_metadata.csv" = files w !! "cleaned_metadata.csv" ∨
     ∃ d' publish_time,
       DataCleaningSpec.cleaned read d = Ok d' ∧
       Frame.getitem d "publish_time" = Some publish_time ∧
       files w' !! "cleaned_metadata.csv" = Some (CsvFile d') ∧
       heap w' = heap w ++ [d; d; d'] ∧
       res = match Main.numbers (map year_cell (Pandas.to_datetime read publish_time)) with
             | [] => Raise (ValueError "cannot convert float NaN to integer")
             | _ => Ok ()
             end).
Proof.
  intros Hfile. unfold Main.main.
  cbv [bind print]. cbn [heap files stdout].
  set (w0 := World (heap w) (files w) _).
  destruct (first_loader_run d w0 Hfile) as (w1 & -> & Hh1 & Hf1).
  assert (heap w1 !! length (heap w0) = Some d) as Hd
    by (rewrite Hh1; by apply list_lookup_middle).
  destruct (missing_data_run (length (heap w0)) d w1 Hd) as (w2 & -> & Hh2 & Hf2).
  rewrite <- Hh2 in Hd.
  destruct (cleaning_run read (length (heap w0)) d w2 Hd)
    as (res & w3 & d' & -> & Hres & Hh3 & Hf3 & Hok).
  assert (files w3 = files w) as Hfiles by (by rewrite Hf3, Hf2, Hf1).
  destruct res as [r|e].
  2: { do 2 eexists. split; [reflexivity|]. rewrite Hfiles.
       split; [done|]. split; [done|]. left. by eauto. }
  specialize (Hok r eq_refl). rewrite Hok in Hres. injection Hres as ->.
  destruct (only_writes_complete (S (length (heap w2))) w3) as [Hh4 Hf4].
  assert (∀ p, p ∉ "cleaned_metadata.csv" :: charts → p ∉ charts) as Hcharts
    by (intros p Hp Hin; apply Hp; by right).
  assert ("metadata.csv" ∉ charts) as Hmeta by (by apply (bool_decide_unpack _)).
  assert ("cleaned_metadata.csv" ∉ charts) as Hclean by (by apply (bool_decide_unpack _)).
  destruct (AnalysisVisualization.run_complete_analysis (S (length (heap w2))) w3)
    as [[results|e] w4] eqn:Hrun; simpl in Hh4, Hf4.
  2: { do 2 eexists. split; [reflexivity|]. rewrite !Hf4, Hfiles by done.
       split; [done|]. split; [|left; by eauto].
       intros p Hp. by rewrite Hf4, Hfiles by auto. }
  assert (heap w4 !! S (length (heap w2)) = Some d') as Hd'.
  { rewrite Hh4, Hh3, lookup_app_r by lia.
    by replace (S (length (heap w2)) - length (heap w2)) with 1 by lia. }
  destruct (cleaning_inv read d d' Hok) as (t & a & p & j & _ & _ & Hp & Hj & _).
  pose proof (cleaning_year read d d' p Hok Hp) as Hyear.
  pose proof (cleaning_journal read d d' j Hok Hj) as Hjour.
  destruct (cleaning_derived read d d' "has_abstract" Hok) as [flags Hflags];
    [by apply (bool_decide_unpack _)|].
  cbv [deref write_file df_len df_getitem bind ret Main.int_extreme raise].
  cbn [heap files stdout]. rewrite Hd'. simpl. rewrite Hd'. simpl.
  rewrite Hd', Hyear. simpl.
  assert (heap w4 = heap w ++ [d; d; d']) as Hheap.
  { rewrite Hh4, Hh3, Hh2, Hh1. by rewrite <- app_assoc. }
  destruct (Main.numbers _) as [|n ns] eqn:Hn; simpl.
  - do 2 eexists. split; [reflexivity|]. simpl.
    split; [by rewrite lookup_insert_ne, Hf4, Hfiles by done|].
    split.
    { intros q Hq. rewrite lookup_insert_ne by (intros <-; apply Hq; left).
      by rewrite Hf4, Hfiles by auto. }
    right. exists d', p. rewrite Hn. by rewrite lookup_insert_eq.
  - rewrite Hd', Hjour. simpl. rewrite Hd', Hflags. simpl.
    do 2 eexists. split; [reflexivity|]. simpl.
    split; [by rewrite lookup_insert_ne, Hf4, Hfiles by done|].
    split.
    { intros q Hq. rewrite lookup_insert_ne by (intros <-; apply Hq; left).
      by rewrite Hf4, Hfiles by auto. }
    right. exists d', p. rewrite Hn. by rewrite lookup_insert_eq.
Qed.

(** X17. The first pipeline cannot complete without a year.  When
    metadata.csv holds a table none of whose publication dates is read as
    a date, [main] raises and leaves metadata.csv as it was.  Either the
    run fails before the cleaned table is saved, or the cleaned table,
    whose texts are within ASCII, is saved as cleaned_metadata.csv and the
    report of the time span then fails with ValueError, int() of the
    minimum of the missing years. *)
Theorem main_needs_a_readable_date
    (read : Pandas.date_reader) (w : world) (d : DataFrame) :
  files w !! "metadata.csv" = Some (CsvFile d) →
  ascii_columns ["title"; "abstract"; "journal"] d = true →
  (∀ p, Frame.getitem d "publish_time" = Some p → Forall (λ v, read p v = None) p) →
  ∃ e w',
    Main.main read w = (Raise e, w') ∧
    files w' !! "metadata.csv" = Some (CsvFile d) ∧
    (files w' !! "cleaned_metadata.csv" = files w !! "cleaned_metadata.csv" ∨
     e = ValueError "cannot convert float NaN to integer" ∧
     ∃ d', DataCleaningSpec.cleaned read d = Ok d' ∧
           files w' !! "cleaned_metadata.csv" = Some (CsvFile d')).
Proof.
  intros Hfile _ Hdates.
  destruct (main_outcome read w d Hfile)
    as (res & w' & Hrun & Hmeta & _ & [[[e ->] Hsame]|(d' & p & Hok & Hp & Hsaved & _ & Hres)]).
  - exists e, w'. by auto.
  - rewrite (no_year_numbers read p (Hdates p Hp)) in Hres. subst res.
    do 2 eexists. split; [done|]. split; [done|]. right. by eauto.
Qed.

Lemma main_needs_a_readable_date_witness :
  ∃ e w',
    Main.main Pandas.iso_reader world_undated = (Raise e, w') ∧
    files w' !! "metadata.csv" = Some (CsvFile frame_undated) ∧
    (files w' !! "cleaned_metadata.csv" = files world_undated !! "cleaned_metadata.csv" ∨
     e = ValueError "cannot convert float NaN to integer" ∧
     ∃ d', DataCleaningSpec.cleaned Pandas.iso_reader frame_undated = Ok d' ∧
           files w' !! "cleaned_metadata.csv" = Some (CsvFile d')).
Proof.
  apply (main_needs_a_readable_date Pandas.iso_reader world_undated frame_undated).
  - reflexivity.
  - reflexivity.
  - intros p [= <-]. repeat constructor.
Defined.

(** X18. The first pipeline from the input file to the saved table.  When
    metadata.csv holds a table whose texts are within ASCII and [main]
    completes, cleaned_metadata.csv holds exactly the table the cleaner
    returns on that table, metadata.csv is left as it was, no other file
    than the saved table and the charts is written, the store holds the
    loaded table, its copy and the cleaned table, and some publication
    date was read as a date. *)
Theorem main_saves_the_cleaned_table
    (read : Pandas.date_reader) (w w' : world) (d : DataFrame) :
  files w !! "metadata.csv" = Some (CsvFile d) →
  ascii_columns ["title"; "abstract"; "journal"] d = true →
  Main.main read w = (Ok (), w') →
  ∃ d' publish_time,
    DataCleaningSpec.cleaned read d = Ok d' ∧
    files w' !! "cleaned_metadata.csv" = Some (CsvFile d') ∧
    files w' !! "metadata.csv" = Some (CsvFile d) ∧
    (∀ p, p ∉ "cleaned_metadata.csv" :: charts → files w' !! p = files w !! p) ∧
    heap w' = heap w ++ [d; d; d'] ∧
    Frame.getitem d "publish_time" = Some publish_time ∧
    Exists (λ v, is_Some (read publish_time v)) publish_time.
Proof.
  intros Hfile _ Hrun.
  destruct (main_outcome read w d Hfile)
    as (res & w2 & Hrun' & Hmeta & Hother &
        [[[e ->] _]|(d' & p & Hok & Hp & Hsaved & Hheap & Hres)]);
    rewrite Hrun in Hrun'; [done|]. injection Hrun' as <- <-.
  exists d', p. repeat (split; [done|]).
  destruct (decide (Forall (λ v, read p v = None) p)) as [Hall|Hsome].
  - by rewrite (no_year_numbers read p Hall) in Hres.
  - apply (not_Forall_Exists (λ v, read p v = None)) in Hsome.
    eapply Exists_impl; [exact Hsome|]. intros v Hv. simpl in Hv.
    by apply not_eq_None_Some.
Qed.

Lemma main_saves_the_cleaned_table_witness :
  ∃ d' publish_time,
    DataCleaningSpec.cleaned Pandas.iso_reader frame0 = Ok d' ∧
    files (Main.main Pandas.iso_reader world_csv).2 !! "cleaned_metadata.csv" =
      Some (CsvFile d') ∧
    files (Main.main Pandas.iso_reader world_csv).2 !! "metadata.csv" =
      Some (CsvFile frame0) ∧
    (∀ p, p ∉ "cleaned_metadata.csv" :: charts →
          files (Main.main Pandas.iso_reader world_csv).2 !! p = files world_csv !! p) ∧
    heap (Main.main Pandas.iso_reader world_csv).2 = heap world_csv ++ [frame0; frame0; d'] ∧
    Frame.getitem frame0 "publish_time" = Some publish_time ∧
    Exists (λ v, is_Some (Pandas.iso_reader publish_time v)) publish_time.
Proof.
  apply (main_saves_the_cleaned_table Pandas.iso_reader world_csv
           (Main.main Pandas.iso_reader world_csv).2 frame0).
  - reflexivity.
  - reflexivity.
  - vm_compute. reflexivity.
Defined.

(** ** Cleaning a cleaned table *)

Lemma journal_name_idem v :
  v = VNull ∨ (∃ s, v = VStr s) → journal_name (journal_name v) = journal_name v.
Proof.
  intros [->|[s ->]]; [done|].
  unfold journal_name, filled_journal. simpl. by rewrite title_strip_idem.
Qed.

Lemma journal_name_text v : journal_name v = VNull ∨ ∃ s, journal_name v = VStr s.
Proof. unfold journal_name. destruct (filled_journal v); eauto. Qed.

Lemma fillna_idem v s : v ≠ VNull → Series.fillna v (Series.fillna v s) = Series.fillna v s.
Proof.
  intros Hv. unfold Series.fillna. rewrite map_map. apply map_ext.
  intros x. destruct x; simpl; try done. by destruct v.
Qed.

(** Two lists of columns with distinct names are equal when they have the
    same names in the same order and the same cells under each name. *)
Lemma data_ext (l l' : list (string * list value)) :
  NoDup l.*1 → l.*1 = l'.*1 →
  (∀ c, Frame.lookup_col c l = Frame.lookup_col c l') → l = l'.
Proof.
  revert l'. induction l as [|[c s] l IH]; intros [|[c' s'] l'] Hnd Hnames Hcells;
    try done.
  csimpl in *. injection Hnames as <- Hnames. apply NoDup_cons in Hnd as [Hc Hnd].
  pose proof (Hcells c) as Hs. simpl in Hs. rewrite !decide_True in Hs by done.
  injection Hs as <-. f_equal. apply IH; [done..|].
  intros c0. destruct (decide (c = c0)) as [<-|Hne].
  - assert (Frame.lookup_col c l = None) as ->.
    { destruct (Frame.lookup_col c l) eqn:Hl; [|done]. destruct Hc.
      apply lookup_col_Some. eauto. }
    destruct (Frame.lookup_col c l') eqn:Hl; [|done]. destruct Hc.
    rewrite Hnames. apply lookup_col_Some. eauto.
  - specialize (Hcells c0). simpl in Hcells. by rewrite !decide_False in Hcells by done.
Qed.

Section CleaningTwice.
Variable read : Pandas.date_reader.

(** The eight columns the cleaner of data_cleaning.py assigns. *)
Lemma cleaning_values d d' title abstract publish_time journal :
  DataCleaningSpec.cleaned read d = Ok d' →
  Frame.getitem d "title" = Some title →
  Frame.getitem d "abstract" = Some abstract →
  Frame.getitem d "publish_time" = Some publish_time →
  Frame.getitem d "journal" = Some journal →
  Frame.getitem d' "title" = Some (Series.fillna (VStr "Unknown Title") title) ∧
  Frame.getitem d' "abstract" = Some (Series.fillna (VStr "") abstract) ∧
  Frame.getitem d' "publish_time" = Some (Pandas.to_datetime read publish_time) ∧
  Frame.getitem d' "year" = Some (map year_cell (Pandas.to_datetime read publish_time)) ∧
  Frame.getitem d' "abstract_word_count" =
    Some (map Series.word_count (Series.fillna (VStr "") abstract)) ∧
  Frame.getitem d' "title_word_count" =
    Some (map Series.word_count (Series.fillna (VStr "Unknown Title") title)) ∧
  Frame.getitem d' "has_abstract" =
    Some (map has_words (Series.fillna (VStr "") abstract)) ∧
  Frame.getitem d' "journal" = Some (map journal_name journal).
Proof.
  intros Hok Ht Ha Hp Hj.
  pose proof (cleaning_journal read d d' journal Hok Hj) as Hj'.
  rewrite journal_names in Hj'.
  apply cleaning_inv in Hok as (t & a & p & j & Ht' & Ha' & Hp' & _ & ->).
  rewrite Ht in Ht'. rewrite Ha in Ha'. rewrite Hp in Hp'.
  injection Ht' as <-. injection Ha' as <-. injection Hp' as <-.
  unfold DataCleaningSpec.prepared, with_features, column in *.
  repeat split; try done; by frame_simpl.
Qed.

Lemma to_datetime_again s :
  (∀ c t, read c (VTime t) = Some t) → (∀ c, read c VNull = None) →
  Pandas.to_datetime read (Pandas.to_datetime read s) = Pandas.to_datetime read s.
Proof.
  intros Htime Hnull. unfold Pandas.to_datetime at 1.
  generalize (Pandas.to_datetime read s) at 1. intros c0.
  unfold Pandas.to_datetime. rewrite map_map. apply map_ext. intros v.
  destruct (read s v); by rewrite ?Htime, ?Hnull.
Qed.

Lemma cleaned_again d d' journal :
  DataCleaningSpec.cleaned read d = Ok d' →
  Frame.getitem d "journal" = Some journal →
  Forall (λ v, v = VNull ∨ ∃ s, v = VStr s) journal →
  (∀ c t, read c (VTime t) = Some t) → (∀ c, read c VNull = None) →
  ∃ d'', DataCleaningSpec.cleaned read d' = Ok d'' ∧
         Frame.columns d'' = Frame.columns d' ∧
         index_len d'' = index_len d' ∧
         ∀ c, Frame.getitem d'' c = Frame.getitem d' c.
Proof.
  intros Hok Hj Hjournal Htime Hnull.
  destruct (cleaning_inv read d d' Hok) as (t & a & p & j & Ht & Ha & Hp & Hj' & _).
  rewrite Hj in Hj'. injection Hj' as <-.
  destruct (cleaning_values d d' t a p journal Hok Ht Ha Hp Hj)
    as (Ht1 & Ha1 & Hp1 & Hy1 & Hc1 & Hw1 & Hh1 & Hj1).
  assert (∃ d'', DataCleaningSpec.cleaned read d' = Ok d'') as [d'' Hok'].
  { destruct (cleaning_returns read (World [d'] ∅ []) 0 d' _ _ _ _ eq_refl Ht1 Ha1 Hp1 Hj1)
      as (r & w' & Hrun).
    { apply Forall_fmap, Forall_true. intros v. apply journal_name_text. }
    destruct (cleaning_run read 0 d' (World [d'] ∅ []) eq_refl)
      as (res & w'' & d'' & Hrun' & _ & _ & _ & Hres).
    rewrite Hrun in Hrun'. injection Hrun' as <- <-. eauto. }
  exists d''. split; [done|].
  destruct (cleaning_values d' d'' _ _ _ _ Hok' Ht1 Ha1 Hp1 Hj1)
    as (Ht2 & Ha2 & Hp2 & Hy2 & Hc2 & Hw2 & Hh2 & Hj2).
  rewrite !fillna_idem in * by done. rewrite to_datetime_again in * by done.
  assert (map journal_name (map journal_name journal) = map journal_name journal) as Hidem.
  { rewrite map_map. apply Forall_fmap_ext_1. eapply Forall_impl; [exact Hjournal|].
    intros v Hv. by apply journal_name_idem. }
  rewrite Hidem in Hj2.
  pose proof (cleaning_columns read d d' Hok) as Hcols1.
  pose proof (cleaning_columns read d' d'' Hok') as Hcols2.
  split; [|split].
  - rewrite Hcols2, Hcols1. f_equal. apply filter_iff_on. intros c Hc.
    rewrite elem_of_app, list_elem_of_filter. split; [|by auto].
    intros [[Hin _]|Hin]; [done|exfalso].
    unfold derived_columns in Hin. rewrite !elem_of_cons, elem_of_nil in Hin.
    destruct Hin as [->|[->|[->|[->|[]]]]]; revert Hc; by apply (bool_decide_unpack _).
  - by rewrite (cleaning_index_len read d' d'' Hok').
  - intros c.
    destruct (decide (c ∈ assigned_columns)) as [Hin|Hout].
    { unfold assigned_columns in Hin. rewrite !elem_of_cons, elem_of_nil in Hin.
      destruct Hin as [->|[->|[->|[->|[->|[->|[->|[->|[]]]]]]]]]; congruence. }
    destruct (decide (c ∈ DataCleaning.important_cols)) as [Himp|Hnot].
    { apply (cleaning_other_columns read d' d'' c Hok').
      unfold DataCleaning.important_cols in Himp. unfold assigned_columns in Hout.
      rewrite !elem_of_cons, elem_of_nil in Himp.
      rewrite !not_elem_of_cons in Hout. destruct Hout as (? & ? & ? & ? & _).
      destruct Himp as [->|[->|[->|[->|[->|[->|[->|[->|[]]]]]]]]]; try done;
        by apply (bool_decide_unpack _). }
    assert (c ∉ derived_columns) as Hder.
    { unfold derived_columns. unfold assigned_columns in Hout.
      do 4 (apply not_elem_of_cons in Hout as [_ Hout]). exact Hout. }
    rewrite (cleaning_dropped read d' d'' c Hok' Hnot Hder).
    by rewrite (cleaning_dropped read d d' c Hok Hnot Hder).
Qed.

(** The cleaned table is a fixed point of the cleaner. *)
Lemma cleaned_fixed_point d d' journal :
  DataCleaningSpec.cleaned read d = Ok d' →
  Frame.getitem d "journal" = Some journal →
  Forall (λ v, v = VNull ∨ ∃ s, v = VStr s) journal →
  (∀ c t, read c (VTime t) = Some t) → (∀ c, read c VNull = None) →
  DataCleaningSpec.cleaned read d' = Ok d'.
Proof.
  intros Hok Hj Hjournal Htime Hnull.
  destruct (cleaned_again d d' journal Hok Hj Hjournal Htime Hnull)
    as (d'' & Hok' & Hcols & Hlen & Hcells).
  rewrite Hok'. f_equal. destruct d' as [n l], d'' as [n' l']. simpl in *. subst n'.
  f_equal. symmetry. apply data_ext; [|done|intros c; symmetry; apply Hcells].
  change (l.*1) with (Frame.columns (MkFrame n l)).
  rewrite (cleaning_columns read d _ Hok).
  apply NoDup_app. split; [|split].
  - apply NoDup_filter. by apply (bool_decide_unpack _).
  - intros c [_ Hc]%list_elem_of_filter Hc'. revert Hc.
    unfold derived_columns in Hc'. rewrite !elem_of_cons, elem_of_nil in Hc'.
    destruct Hc' as [->|[->|[->|[->|[]]]]]; by apply (bool_decide_unpack _).
  - by apply (bool_decide_unpack _).
Qed.

End CleaningTwice.

(** X19. Cleaning a cleaned table changes nothing.  When the texts of the
    input are within ASCII, its journals are text or missing and pandas
    reads a timestamp as itself, the cleaner of data_cleaning.py, run on
    the table it has returned, returns a new object that holds the very
    same table: same columns in the same order, same cells. *)
Theorem cleaning_twice_changes_nothing
    (read : Pandas.date_reader) (w : world) (df : loc) (d : DataFrame)
    (journal : list value) (r : loc) (w1 : world) :
  heap w !! df = Some d →
  Frame.getitem d "journal" = Some journal →
  Forall (λ v, v = VNull ∨ ∃ s, v = VStr s) journal →
  ascii_columns ["title"; "abstract"; "journal"] d = true →
  (∀ c t, read c (VTime t) = Some t) →
  (∀ c, read c VNull = None) →
  DataCleaning.clean_and_prepare_data read df w = (Ok r, w1) →
  ∃ d' r2 w2,
    heap w1 !! r = Some d' ∧
    DataCleaning.clean_and_prepare_data read r w1 = (Ok r2, w2) ∧
    r2 ≠ r ∧
    heap w2 !! r2 = Some d' ∧
    heap w2 !! r = Some d'.
Proof.
  intros Hd Hj Hjournal _ Htime Hnull Hrun.
  destruct (cleaning_run read df d w Hd) as (res & w1' & d' & Hrun' & Hres & Hh & _ & Hok).
  rewrite Hrun in Hrun'. injection Hrun' as <- <-.
  specialize (Hok r eq_refl). rewrite Hok in Hres. injection Hres as ->.
  assert (heap w1 !! S (length (heap w)) = Some d') as Hd1.
  { rewrite Hh, lookup_app_r by lia.
    by replace (S (length (heap w)) - length (heap w)) with 1 by lia. }
  pose proof (cleaned_fixed_point read d d' journal Hok Hj Hjournal Htime Hnull) as Hfix.
  destruct (cleaning_run read (S (length (heap w))) d' w1 Hd1)
    as (res & w2 & d2 & Hrun2 & Hres & Hh2 & _ & Hok2).
  rewrite Hfix in Hres. subst res. specialize (Hok2 _ eq_refl).
  rewrite Hfix in Hok2. injection Hok2 as <-.
  exists d', (S (length (heap w1))), w2.
  split; [done|]. split; [done|]. split.
  { rewrite Hh, length_app. simpl. lia. }
  split.
  - rewrite Hh2, lookup_app_r by lia.
    by replace (S (length (heap w1)) - length (heap w1)) with 1 by lia.
  - rewrite Hh2, lookup_app_l; [done|]. by apply lookup_lt_Some in Hd1.
Qed.

Lemma cleaning_twice_changes_nothing_witness :
  ∃ d' r2 w2,
    heap (DataCleaning.clean_and_prepare_data Pandas.iso_reader 0 world0).2 !! 2 = Some d' ∧
    DataCleaning.clean_and_prepare_data Pandas.iso_reader 2
      (DataCleaning.clean_and_prepare_data Pandas.iso_reader 0 world0).2 = (Ok r2, w2) ∧
    r2 ≠ 2 ∧
    heap w2 !! r2 = Some d' ∧
    heap w2 !! 2 = Some d'.
Proof.
  apply (cleaning_twice_changes_nothing Pandas.iso_reader world0 0 frame0
           [VStr " the lancet"; VStr "The Lancet  "; VNull]).
  - reflexivity.
  - reflexivity.
  - repeat (apply Forall_cons; split; [first [by left|right; by eexists]|]).
    by apply Forall_nil.
  - reflexivity.
  - reflexivity.
  - reflexivity.
  - vm_compute. reflexivity.
Defined.

(** ** Examples *)

Example title_ex : Text.title "the  LANCET (london)" = "The  Lancet (London)".
Proof. reflexivity. Qed.

Example strip_ex : Text.strip "  bmj open " = "bmj open".
Proof. reflexivity. Qed.

Example split_ex : Text.split " a  bc d " = ["a"; "bc"; "d"].
Proof. reflexivity. Qed.

Example findall_ex :
  Text.findall_words "covid-19 study of lungs abc1 x_yz lung" =
  ["covid"; "study"; "lungs"; "lung"].
Proof. reflexivity. Qed.

Example tally_ex :
  Counting.by_count_desc (Counting.tally ["b"; "a"; "c"; "a"; "c"]) =
  [("a", 2); ("c", 2); ("b", 1)].
Proof. reflexivity. Qed.

Example word_count_ex :
  Series.word_count (VStr " Deep  learning for lungs ") = VInt 4.
Proof. reflexivity. Qed.

Example py_str_ex : Series.py_str (VTime (Datetime 2020 3 7)) = "2020-03-07 00:00:00".
Proof. vm_compute. reflexivity. Qed.

Example iso_date_ex : Pandas.iso_date "2020-03-17" = Some (Datetime 2020 3 17).
Proof. reflexivity. Qed.

Example iso_date_unreadable_ex : Pandas.iso_date "not a date" = None.
Proof. reflexivity. Qed.

Example missing_data_ex :
  ∃ w', DataCleaning.analyze_missing_data 0 world0 =
        (Ok [("url", 300 # 3); ("title", 100 # 3); ("abstract", 100 # 3);
             ("publish_time", 100 # 3); ("journal", 100 # 3)]%Q, w').
Proof. eexists. vm_compute. reflexivity. Qed.

Example head_negative_ex : Series.head (-1) [1; 2; 3] = [1; 2].
Proof. reflexivity. Qed.

Example preprocess_without_title_ex :
  ∃ w', PreprocessData.preprocess_and_save Pandas.iso_reader (λ n, Frame.head (Z.of_nat n))
          (World [] {["metadata.csv" := CsvFile frame_ids]} []) =
        (Raise (KeyError "title"), w').
Proof. eexists. vm_compute. reflexivity. Qed.

Example number_of_words_ex :
  number_of_words " Deep  learning for lungs " = 4 ∧ number_of_words "   " = 0 ∧
  number_of_words "" = 0.
Proof. by vm_compute. Qed.

(** With the drawing calls taken to succeed, a table with words in its
    titles and no readable date is cleaned, analysed and saved before the
    report of the time span fails. *)
Example main_without_dates_ex :
  ∃ w' d',
    Main.main Pandas.iso_reader world_undated =
      (Raise (ValueError "cannot convert float NaN to integer"), w') ∧
    DataCleaningSpec.cleaned Pandas.iso_reader frame_undated = Ok d' ∧
    files w' !! "cleaned_metadata.csv" = Some (CsvFile d').
Proof. do 2 eexists. vm_compute. repeat split. Qed.
